(** * TAO launcher: configuration parsing, docker handler and instance dispatch

    A shallow embedding of the Python sources of [nvidia_tao_cli]:
    - [components/types/task.py]                       ([Task])
    - [components/docker_handler/docker_handler.py]    ([DockerHandler])
    - [components/instance_handler/utils.py]           ([load_config_file], ...)
    - [components/instance_handler/base_instance.py]   ([TAOInstance])
    - [components/instance_handler/local_instance.py]  ([LocalInstance])
    - [components/instance_handler/whl_instance.py]    ([WHLInstance])
    - [components/instance_handler/builder.py]         ([get_launcher])
    - [entrypoint/tao_launcher.py]                     ([main])

    Python objects read from JSON are values of type [value]; a [dict] is an
    association list in insertion order (Python dicts iterate in insertion
    order, and the parser's "last listing wins" behaviour depends on it).
    Exceptions are results [Raise e]; a method is a computation on the state
    of the run, which holds the launcher instance and the trace of the calls
    made to the Docker engine, to [subprocess] and to [print]. *)

From Stdlib Require Import String Ascii List ZArith QArith Bool DecimalString.
From Stdlib Require Import Sorted Permutation.
Import ListNotations.
Close Scope Q_scope.
Open Scope Z_scope.
Open Scope list_scope.
Open Scope string_scope.

Set Implicit Arguments.
Set Warnings "-register-all".

Arguments String.eqb : simpl never.

(** ** Python values *)

(** A JSON number is held by its numerical value: Python compares [int] and
    [float] by value ([1 == 1.0]), and [bool] is a subtype of [int]
    ([True == 1.0]).  The non-standard literals NaN and Infinity are outside
    the model. *)
Inductive value : Type :=
| VNone
| VBool (b : bool)
| VNum (q : Q)
| VStr (s : string)
| VList (l : list value)
| VDict (d : list (string * value)).

Definition dict := list (string * value).

Inductive exn : Type :=
| KeyError (key : string)
| NotImplementedError
| ValueError
| TypeError
| AttributeError
| AssertionError
| IndexError
| UnboundLocalError
| OSError
| APIError (explanation : string)        (* [str(e)] *)
| CalledProcessError (output : option string)
| SystemExit (code : Z).

Inductive result (A : Type) : Type :=
| Ok (a : A)
| Raise (e : exn).
Arguments Ok {A} a.
Arguments Raise {A} e.

Definition rbind {A B} (r : result A) (k : A -> result B) : result B :=
  match r with
  | Ok a => k a
  | Raise e => Raise e
  end.

Declare Scope result_scope.
Delimit Scope result_scope with result.
Notation "x <- c ;; k" := (rbind c (fun x => k))
  (at level 61, c at next level, right associativity) : result_scope.
Notation "c ;;; k" := (rbind c (fun _ => k))
  (at level 61, right associativity) : result_scope.

(** [assert cond] *)
Definition py_assert (cond : bool) : result unit :=
  if cond then Ok tt else Raise AssertionError.

(** Monadic left fold: a [for] loop whose body may raise. *)
Fixpoint foldM {A B} (f : A -> B -> result A) (a : A) (l : list B) : result A :=
  match l with
  | [] => Ok a
  | x :: l' => rbind (f a x) (fun a' => foldM f a' l')
  end.

(** ** Dictionaries with string keys (objects read from JSON, the task map) *)

Definition sdict (V : Type) := list (string * V).

Fixpoint sget {V} (k : string) (d : sdict V) : option V :=
  match d with
  | [] => None
  | (k', v) :: d' => if String.eqb k k' then Some v else sget k d'
  end.

(** [d[k] = v]: an existing key keeps its position. *)
Fixpoint sset {V} (k : string) (v : V) (d : sdict V) : sdict V :=
  match d with
  | [] => [(k, v)]
  | (k', v') :: d' =>
      if String.eqb k k' then (k', v) :: d' else (k', v') :: sset k v d'
  end.

(** [k in l] for a list of strings. *)
Definition str_in (k : string) (l : list string) : bool :=
  existsb (String.eqb k) l.

Definition dict_get (k : string) (d : dict) : option value := sget k d.

(** [d.keys()] *)
Definition dict_keys (d : dict) : list string := map fst d.

(** [k in d.keys()] *)
Definition dict_mem (k : string) (d : dict) : bool := str_in k (dict_keys d).

(** [v[k]] for a string subscript [k]: only a dict accepts it. *)
Definition getitem (v : value) (k : string) : result value :=
  match v with
  | VDict d =>
      match dict_get k d with
      | Some x => Ok x
      | None => Raise (KeyError k)
      end
  | _ => Raise TypeError
  end.

(** [v.keys()] *)
Definition keys (v : value) : result (list string) :=
  match v with
  | VDict d => Ok (dict_keys d)
  | _ => Raise AttributeError
  end.

(** [v.items()] *)
Definition items (v : value) : result dict :=
  match v with
  | VDict d => Ok d
  | _ => Raise AttributeError
  end.

(** Whether a byte continues a UTF-8 sequence: 10xxxxxx. *)
Definition is_continuation (c : ascii) : bool :=
  match c with
  | Ascii _ _ _ _ _ _ b6 b7 => b7 && negb b6
  end.

(** The characters of a string, which is held as its UTF-8 bytes: a byte
    together with the continuation bytes that follow it. *)
Fixpoint code_points (s : string) : list string :=
  match s with
  | EmptyString => []
  | String c s' =>
      let rest := code_points s' in
      match s' with
      | String c' _ =>
          if is_continuation c' then
            match rest with
            | w :: ws => String c w :: ws
            | [] => [String c EmptyString]
            end
          else String c EmptyString :: rest
      | EmptyString => String c EmptyString :: rest
      end
  end.

(** What a [for] loop over a [str] visits: its characters. *)
Definition chars (s : string) : list value := map VStr (code_points s).

(** [iter(v)]: what a [for] loop over [v] visits. *)
Definition iter (v : value) : result (list value) :=
  match v with
  | VList l => Ok l
  | VStr s => Ok (chars s)
  | VDict d => Ok (map VStr (dict_keys d))
  | _ => Raise TypeError
  end.

(** [isinstance(v, dict)] *)
Definition is_dict (v : value) : bool :=
  match v with VDict _ => true | _ => false end.

(** ** Python equality on hashable values *)

Definition as_num (v : value) : option Q :=
  match v with
  | VNum q => Some q
  | VBool b => Some (inject_Z (if b then 1 else 0))
  | _ => None
  end.

(** [v == k] for a numeric literal [k] such as [1.0]. *)
Definition num_eqb (v : value) (k : Z) : bool :=
  match as_num v with
  | Some q => Qeq_bool q (inject_Z k)
  | None => false
  end.

Definition hashable (v : value) : bool :=
  match v with
  | VList _ | VDict _ => false
  | _ => true
  end.

(** [a == b] for hashable [a] and [b] (the equality a dict uses on keys). *)
Definition key_eqb (a b : value) : bool :=
  match a, b with
  | VNone, VNone => true
  | VStr s, VStr t => String.eqb s t
  | _, _ =>
      match as_num a, as_num b with
      | Some p, Some q => Qeq_bool p q
      | _, _ => false
      end
  end.

(** ** task.py *)

Definition environ := string -> option string.

(** [os.getenv("OVERRIDE_REGISTRY", None)], read when the module is loaded. *)
Definition OVERRIDE_REGISTRY (env : environ) : option string :=
  env "OVERRIDE_REGISTRY".

Record Task : Type := mkTask {
  name : value;
  docker_image : value;
  docker_tag : value;
  docker_registry : value;
  docker_digest : value
}.

Module TaskM.

(** [Task.__init__] *)
Definition init (env : environ)
    (name docker_image docker_tag docker_registry docker_digest : value) : Task :=
  {| name := name;
     docker_image := docker_image;
     docker_tag := docker_tag;
     docker_registry :=
       match OVERRIDE_REGISTRY env with
       | Some r => VStr r
       | None => docker_registry
       end;
     docker_digest := docker_digest |}.

(** [Task.get_config] *)
Definition get_config (t : Task) : dict :=
  [("name", name t);
   ("docker_image", docker_image t);
   ("docker_registry", docker_registry t);
   ("docker_tag", docker_tag t);
   ("docker_digest", docker_digest t)].

Definition mandatory_args : list string :=
  ["name"; "docker_image"; "docker_tag"; "docker_registry"].
Definition optional_args : list string := ["docker_digest"].

(** [Task.from_config] *)
Definition from_config (env : environ) (config_data : value) : result Task :=
  (py_assert (is_dict config_data) ;;;
   ks <- keys config_data ;;
   py_assert (forallb (fun key => str_in key mandatory_args) ks) ;;;
   a_name <- getitem config_data "name" ;;
   a_image <- getitem config_data "docker_image" ;;
   a_tag <- getitem config_data "docker_tag" ;;
   a_registry <- getitem config_data "docker_registry" ;;
   kwargs <- foldM (fun kw arg =>
               if str_in arg ks
               then (x <- getitem config_data arg ;; Ok (kw ++ [(arg, x)])%list)
               else Ok kw) [] optional_args ;;
   Ok (init env a_name a_image a_tag a_registry
         (match dict_get "docker_digest" kwargs with
          | Some x => x
          | None => VNone
          end)))%result.

End TaskM.

(** ** Dictionaries with hashable keys: the task-name -> Task maps *)

Definition pydict := list (value * Task).

Fixpoint pd_get (k : value) (d : pydict) : option Task :=
  match d with
  | [] => None
  | (k', t) :: d' => if key_eqb k k' then Some t else pd_get k d'
  end.

(** The store of [d[k] = t]: an equal key keeps its position and its key
    object, a new key goes last. *)
Fixpoint pd_set (k : value) (t : Task) (d : pydict) : pydict :=
  match d with
  | [] => [(k, t)]
  | (k', t') :: d' =>
      if key_eqb k k' then (k', t) :: d' else (k', t') :: pd_set k t d'
  end.

(** [d[k] = t], which hashes [k] first. *)
Definition setitem (d : pydict) (k : value) (t : Task) : result pydict :=
  if hashable k then Ok (pd_set k t d) else Raise TypeError.

(** [d.update(other)] *)
Definition update (d other : pydict) : pydict :=
  fold_left (fun acc kv => pd_set (fst kv) (snd kv) acc) other d.

(** [k in list(d.keys())] *)
Definition pd_mem (k : value) (d : pydict) : bool :=
  existsb (key_eqb k) (map fst d).

(** [images.add(image)] on the set of image names, kept without repetition. *)
Definition set_add (image : string) (images : list string) : list string :=
  if str_in image images then images else (images ++ [image])%list.

(** ** parse_launcher_config *)

Definition task_map_t := sdict pydict.

Section ParseLauncherConfig.

Variable env : environ.

(** The dict comprehension of format 1.0, one [Task] per entry of
    [docker_data["tasks"]]. *)
Definition tasks_comprehension_v1 (image : string) (docker_data : value)
    : result pydict :=
  (tasks_v <- getitem docker_data "tasks" ;;
   tasks <- iter tasks_v ;;
   foldM (fun comp task =>
            tag <- getitem docker_data "docker_tag" ;;
            registry <- getitem docker_data "docker_registry" ;;
            ks <- keys docker_data ;;
            digest <- (if str_in "docker_digest" ks
                       then getitem docker_data "docker_digest"
                       else Ok VNone) ;;
            setitem comp task (TaskM.init env task (VStr image) tag registry digest))
         [] tasks)%result.

(** The dict comprehension of formats 2.0 and 3.0:
    [for tag in docker_data.keys() for task in docker_data[tag]["tasks"]].
    In format 2.0 the digest is read behind a membership test, in format
    3.0 with [.get("docker_digest", None)]. *)
Definition digest_v2 (tag_data : value) : result value :=
  (ks <- keys tag_data ;;
   if str_in "docker_digest" ks then getitem tag_data "docker_digest" else Ok VNone)%result.

Definition digest_v3 (tag_data : value) : result value :=
  match tag_data with
  | VDict d =>
      Ok (match dict_get "docker_digest" d with Some x => x | None => VNone end)
  | _ => Raise AttributeError
  end.

Definition tasks_comprehension_tags (digest_of : value -> result value)
    (image : string) (docker_data : value) : result pydict :=
  (tags <- keys docker_data ;;
   foldM (fun comp tag =>
            tag_data <- getitem docker_data tag ;;
            tasks_v <- getitem tag_data "tasks" ;;
            tasks <- iter tasks_v ;;
            foldM (fun comp task =>
                     registry <- getitem tag_data "docker_registry" ;;
                     digest <- digest_of tag_data ;;
                     setitem comp task
                       (TaskM.init env task (VStr image) (VStr tag) registry digest))
                  comp tasks)
         [] tags)%result.

(** Loop body of format 1.0. *)
Definition image_step_v1 (dockers : value) (st : pydict * list string)
    (image : string) : result (pydict * list string) :=
  (docker_data <- getitem dockers image ;;
   ks <- keys docker_data ;;
   if negb (str_in "tasks" ks) then Raise NotImplementedError else
   comp <- tasks_comprehension_v1 image docker_data ;;
   Ok (update (fst st) comp, set_add image (snd st)))%result.

(** Loop body of format 2.0. *)
Definition image_step_v2 (dockers : value) (st : pydict * list string)
    (image : string) : result (pydict * list string) :=
  (docker_data <- getitem dockers image ;;
   if negb (is_dict docker_data) then Raise ValueError else
   comp <- tasks_comprehension_tags digest_v2 image docker_data ;;
   Ok (update (fst st) comp, set_add image (snd st)))%result.

(** Inner loop body of format 3.0, over [group_data["dockers"].items()]. *)
Definition image_step_v3 (st : pydict * list string)
    (entry : string * value) : result (pydict * list string) :=
  (let '(image, image_data) := entry in
   if negb (is_dict image_data) then Raise ValueError else
   comp <- tasks_comprehension_tags digest_v3 image image_data ;;
   Ok (update (fst st) comp, set_add image (snd st)))%result.

(** Outer loop body of format 3.0, over [config_data["task_group"].items()]. *)
Definition group_step_v3 (st : task_map_t * list string)
    (entry : string * value) : result (task_map_t * list string) :=
  (let '(task_group, group_data) := entry in
   dockers <- getitem group_data "dockers" ;;
   images <- items dockers ;;
   r <- foldM image_step_v3 ([], snd st) images ;;
   Ok (sset task_group (fst r) (fst st), snd r))%result.

Definition parse_config (config_data : value)
    : result (task_map_t * list string) :=
  (ks <- keys config_data ;;
   if negb (str_in "format_version" ks)
   then Raise (KeyError "format is a required key in the launcher config.") else
   version <- getitem config_data "format_version" ;;
   if num_eqb version 1 then
     dockers <- getitem config_data "dockers" ;;
     images <- keys dockers ;;
     r <- foldM (image_step_v1 dockers) ([], []) images ;;
     Ok (sset "container_actions" (fst r) [], snd r)
   else if num_eqb version 2 then
     dockers <- getitem config_data "dockers" ;;
     images <- keys dockers ;;
     r <- foldM (image_step_v2 dockers) ([], []) images ;;
     Ok (sset "container_actions" (fst r) [], snd r)
   else if num_eqb version 3 then
     task_group <- getitem config_data "task_group" ;;
     groups <- items task_group ;;
     foldM group_step_v3 ([], []) groups
   else Raise NotImplementedError)%result.

End ParseLauncherConfig.

(** ** The host: Python runtime, file system, Docker engine, subprocess *)

Record container : Type := mkContainer {
  id : string;
  short_id : string;
  status : string;
  config_image : string        (* [attrs["Config"]["Image"]] *)
}.

Record volume : Type := mkVolume { bind : string; mode : string }.

(** The keyword arguments of [containers.run]. *)
Record run_request : Type := mkRun {
  run_image : string;
  run_tty : value;
  run_volumes : sdict volume;
  run_environment : list string;
  run_docker_args : sdict value
}.

(** What the program consults but does not own.  Every field is the answer
    the outside world gives to one call of the source.  The Docker engine is
    taken to be reachable: creating the clients and reading its state (the
    image list, the repository tags, the running containers and their
    processes) give an answer, while what acts on it or depends on an
    argument (pull, run, get, stop) may raise.  Logging is left out. *)
Record host : Type := mkHost {
  repr : value -> string;                       (* [str()] of numbers, lists, dicts *)
  path_exists : string -> bool;                 (* [os.path.exists] *)
  expanduser : string -> string;                (* [os.path.expanduser] *)
  realpath : string -> string;                  (* [os.path.realpath] *)
  read_json : string -> result value;           (* [open] then [json.load] *)
  images_list : list string;                    (* [images.list()], by [attrs["Id"]] *)
  inspect_repo_tags : string -> option (list string);
                                                (* [inspect_image(id)["RepoTags"]], [None] for null *)
  api_pull : string -> value -> result unit;    (* [APIClient.pull] *)
  containers_run : run_request -> result container;
  containers_list : list container;             (* [containers.list()] *)
  containers_get : value -> result container;   (* [containers.get] *)
  container_stop : container -> result unit;    (* [Container.stop] *)
  container_top : container -> list (list string);  (* [top()["Processes"]] *)
  ulimit : string -> value -> result value;     (* [docker.types.Ulimit] *)
  check_call : string -> result unit;           (* [subprocess.check_call] *)
  tabulate : list (list string) -> list string -> string;
  textwrap_fill : string -> string;
  build_parser : list string -> task_map_t -> result unit;
                                                (* [build_command_line_parser] *)
  parse_known_args : list string -> task_map_t -> list string -> result (sdict value);
                                                (* [parse_known_args] of that parser *)
  is_file : string -> bool;                     (* [os.path.isfile] *)
  dirname : string -> string;                   (* [os.path.dirname] *)
  utils_file : string                           (* [__file__] of utils.py *)
}.

(** Calls that act on the outside world, in the order they are made. *)
Inductive event : Type :=
| EvPrint (text : string)
| EvPull (repository : string) (tag : value)
| EvStart (c : container)
| EvExec (command : string)
| EvStop (c : container).

(** ** The launcher instance and the state of a run *)

Record instance : Type := mkInstance {
  task_map : task_map_t;
  dl_tasks : list string;
  docker_images : option (list string);
  instance_handler_tasks : list string;
  current_config_path : string
}.

Record pystate : Type := mkState {
  self : instance;
  events : list event
}.

(** Computations that read and write the state and may raise; the state
    reached when an exception is raised is kept. *)
Definition M (A : Type) : Type := pystate -> result A * pystate.

Definition ret {A} (a : A) : M A := fun st => (Ok a, st).
Definition raise {A} (e : exn) : M A := fun st => (Raise e, st).
Definition mbind {A B} (m : M A) (k : A -> M B) : M B :=
  fun st =>
    match m st with
    | (Ok a, st') => k a st'
    | (Raise e, st') => (Raise e, st')
    end.
Definition lift {A} (r : result A) : M A := fun st => (r, st).
Definition emit (ev : event) : M unit :=
  fun st => (Ok tt, {| self := self st; events := (events st ++ [ev])%list |}).
Definition get_self : M instance := fun st => (Ok (self st), st).

Declare Scope m_scope.
Delimit Scope m_scope with M.
Notation "x <- c ;; k" := (mbind c (fun x => k))
  (at level 61, c at next level, right associativity) : m_scope.
Notation "c ;;; k" := (mbind c (fun _ => k))
  (at level 61, right associativity) : m_scope.

(** [for x in l: body] *)
Fixpoint for_each {B} (l : list B) (body : B -> M unit) : M unit :=
  match l with
  | [] => ret tt
  | x :: l' => mbind (body x) (fun _ => for_each l' body)
  end.

(** A loop that carries local variables. *)
Fixpoint for_fold {A B} (body : A -> B -> M A) (a : A) (l : list B) : M A :=
  match l with
  | [] => ret a
  | x :: l' => mbind (body a x) (fun a' => for_fold body a' l')
  end.

(** [try: body  except ...: handler], where [handler e] is [None] for an
    exception that no [except] clause matches. *)
Definition try_except {A} (body : M A) (handler : exn -> option (M A)) : M A :=
  fun st =>
    match body st with
    | (Ok a, st') => (Ok a, st')
    | (Raise e, st') =>
        match handler e with
        | Some hd => hd st'
        | None => (Raise e, st')
        end
    end.

(** [try: body  finally: final]: an exception of [final] replaces the
    outcome of [body]. *)
Definition try_finally {A} (body : M A) (final : M unit) : M A :=
  fun st =>
    match body st with
    | (r, st') =>
        match final st' with
        | (Ok _, st'') => (r, st'')
        | (Raise e, st'') => (Raise e, st'')
        end
    end.

(** [sys.exit(code)] *)
Definition sys_exit {A} (code : Z) : M A := raise (SystemExit code).

(** ** Strings *)

(** [str(v)], as [format] renders a value. *)
Definition py_str (h : host) (v : value) : string :=
  match v with
  | VStr s => s
  | VNone => "None"
  | VBool true => "True"
  | VBool false => "False"
  | _ => repr h v
  end.

(** [bool(v)] *)
Definition truthy (v : value) : bool :=
  match v with
  | VNone => false
  | VBool b => b
  | VNum q => negb (Qeq_bool q 0)
  | VStr s => negb (String.eqb s "")
  | VList l => match l with [] => false | _ => true end
  | VDict d => match d with [] => false | _ => true end
  end.

(** [s.split(sep)] for a one-character separator. *)
Fixpoint split_on (sep : ascii) (s : string) : list string :=
  match s with
  | EmptyString => [EmptyString]
  | String c s' =>
      if Ascii.eqb c sep then EmptyString :: split_on sep s'
      else match split_on sep s' with
           | [] => [String c EmptyString]
           | w :: ws => String c w :: ws
           end
  end.

(** [sub in s] on strings. *)
Fixpoint substring_in (sub s : string) : bool :=
  String.prefix sub s ||
  match s with
  | EmptyString => false
  | String _ s' => substring_in sub s'
  end.

(** ** docker_handler.py *)

(** [get_default_mountsfile()]: the same path on both of its branches. *)
Definition DOCKER_MOUNT_FILE : string := "~/.tao_mounts.json".
Definition VALID_DOCKER_ARGS : list string :=
  ["user"; "ports"; "shm_size"; "ulimits"; "privileged"; "network"; "tty"].

Record DockerHandler : Type := mkHandler {
  _docker_registry : value;
  _image_name : value;
  _docker_tag : value;
  _docker_digest : value;
  _docker_mount_file : string;
  docker_exec_command : string;
  initialized : bool;
  _container : option container
}.

Definition set_container (hd : DockerHandler) (c : option container) : DockerHandler :=
  {| _docker_registry := _docker_registry hd;
     _image_name := _image_name hd;
     _docker_tag := _docker_tag hd;
     _docker_digest := _docker_digest hd;
     _docker_mount_file := _docker_mount_file hd;
     docker_exec_command := docker_exec_command hd;
     initialized := initialized hd;
     _container := c |}.

(** [isinstance(v, list)] *)
Definition is_list (v : value) : bool :=
  match v with VList _ => true | _ => false end.

(** [d.pop(k)] for a key that is present *)
Definition sdel {V} (k : string) (d : sdict V) : sdict V :=
  filter (fun kv => negb (String.eqb k (fst kv))) d.

(** [v[k] = x] *)
Definition vset (v : value) (k : string) (x : value) : result value :=
  match v with
  | VDict d => Ok (VDict (sset k x d))
  | _ => Raise TypeError
  end.

Module DockerHandlerM.
Section Handler.

Variable h : host.

(** [DockerHandler.__init__] *)
Definition init (docker_registry image_name docker_tag docker_digest : value)
    (docker_mount_file : string) : DockerHandler :=
  {| _docker_registry := docker_registry;
     _image_name := image_name;
     _docker_tag := docker_tag;
     _docker_digest := docker_digest;
     _docker_mount_file := expanduser h docker_mount_file;
     docker_exec_command := "docker exec";
     initialized := true;
     _container := None |}.

Definition _load_mounts_file (docker_mount_file : string) : result value :=
  read_json h docker_mount_file.

(** [os.path.realpath(os.path.expanduser(p))] *)
Definition realpath_expanduser (p : value) : result string :=
  match p with
  | VStr s => Ok (realpath h (expanduser h s))
  | _ => Raise TypeError
  end.

(** Body of [for mount in value] under the key "Mounts". *)
Definition mount_step (mount_points : list value) (mount : value)
    : result (list value) :=
  (ks <- keys mount ;;
   py_assert (str_in "source" ks && str_in "destination" ks) ;;;
   src <- getitem mount "source" ;;
   source <- realpath_expanduser src ;;
   mount <- vset mount "source" (VStr source) ;;
   dst <- getitem mount "destination" ;;
   destination <- realpath_expanduser dst ;;
   mount <- vset mount "destination" (VStr destination) ;;
   if negb (path_exists h source) then Raise ValueError
   else Ok (mount_points ++ [mount])%list)%result.

(** Body of [for env_var in value] under the key "Envs". *)
Definition env_step (env_vars : list value) (env_var : value)
    : result (list value) :=
  (ks <- keys env_var ;;
   py_assert (str_in "variable" ks && str_in "value" ks) ;;;
   Ok (env_vars ++ [env_var])%list)%result.

(** Body of [for key, value in data.items()]. *)
Definition mounts_file_step (docker_mount_file : string)
    (st : list value * list value * value)
    (entry : string * value) : result (list value * list value * value) :=
  (let '(mount_points, env_vars, docker_options) := st in
   let '(key, val) := entry in
   if String.eqb key "Mounts" then
     mounts <- iter val ;;
     mount_points <- foldM mount_step mount_points mounts ;;
     Ok (mount_points, env_vars, docker_options)
   else if String.eqb key "Envs" then
     envs <- iter val ;;
     env_vars <- foldM env_step env_vars envs ;;
     Ok (mount_points, env_vars, docker_options)
   else if String.eqb key "DockerOptions" then
     Ok (mount_points, env_vars, val)
   else Raise (KeyError ("Invalid field " ++ key ++ " found in "
                         ++ docker_mount_file ++ " file.")))%result.

Definition _get_mount_env_data (hd : DockerHandler)
    : result (list value * list value * value) :=
  (if negb (path_exists h (_docker_mount_file hd)) then Ok ([], [], VDict [])
   else
     data <- _load_mounts_file (_docker_mount_file hd) ;;
     ks <- keys data ;;
     py_assert (str_in "Mounts" ks) ;;;
     entries <- items data ;;
     foldM (mounts_file_step (_docker_mount_file hd)) ([], [], VDict []) entries)%result.

(** The property [docker_image]. *)
Definition docker_image_name (hd : DockerHandler) : result string :=
  if negb (initialized hd) then Raise ValueError
  else Ok (py_str h (_docker_registry hd) ++ "/" ++ py_str h (_image_name hd)
           ++ ":" ++ py_str h (_docker_tag hd)).

(** The loop of [_check_image_exists] over [image_list]. *)
Fixpoint image_in_list (hd : DockerHandler) (image_list : list string)
    : result bool :=
  match image_list with
  | [] => Ok false
  | image :: rest =>
      match inspect_repo_tags h image with
      | Some ((_ :: _) as repo_tags) =>
          rbind (docker_image_name hd) (fun nm =>
            if str_in nm repo_tags then Ok true else image_in_list hd rest)
      | _ => image_in_list hd rest
      end
  end.

Definition _check_image_exists (hd : DockerHandler) : result bool :=
  image_in_list hd (images_list h).

(** [except docker.errors.APIError as e], with [recover] given [str(e)]. *)
Definition only_api_error {A} (recover : string -> M A) (e : exn) : option (M A) :=
  match e with
  | APIError explanation => Some (recover explanation)
  | _ => None
  end.

Definition pull (hd : DockerHandler) : M unit :=
  try_except
    (let repository :=
       py_str h (_docker_registry hd) ++ "/" ++ py_str h (_image_name hd) in
     emit (EvPrint ("Pulling from repository: " ++ repository)) ;;;
     emit (EvPull repository (_docker_tag hd)) ;;;
     lift (api_pull h repository (_docker_tag hd)))%M
    (only_api_error
       (fun explanation =>
          emit (EvPrint ("Docker pull failed. " ++ explanation)) ;;; sys_exit 1)%M).

Definition formatted_mounts (mountpoints_list : value) : result (sdict volume) :=
  (py_assert (is_list mountpoints_list) ;;;
   mounts <- iter mountpoints_list ;;
   foldM (fun volumes mount =>
            src <- getitem mount "source" ;;
            source_path <- (match src with
                            | VStr p => Ok (realpath h p)
                            | _ => Raise TypeError
                            end) ;;
            dst <- getitem mount "destination" ;;
            destination_path <- (match dst with
                                 | VStr p => Ok (realpath h p)
                                 | _ => Raise TypeError
                                 end) ;;
            Ok (sset source_path
                  {| bind := destination_path; mode := "rw" |} volumes))
         [] mounts)%result.

Definition formatted_envs (env_var_list : value) : result (list string) :=
  (py_assert (is_list env_var_list) ;;;
   env_items <- iter env_var_list ;;
   foldM (fun env_vars item =>
            variable <- getitem item "variable" ;;
            val <- getitem item "value" ;;
            Ok (env_vars ++ [(py_str h variable ++ "=" ++ py_str h val)%string])%list)
         [] env_items)%result.

Definition get_docker_ulimits (name : string) (val : value) : result value :=
  ulimit h name val.

Definition get_docker_option_args (docker_options : value)
    : result (sdict value) :=
  match docker_options with
  | VNone => Ok []
  | _ =>
      (entries <- items docker_options ;;
       foldM (fun docker_args entry =>
                let '(key, val) := entry in
                py_assert (str_in key VALID_DOCKER_ARGS) ;;;
                if String.eqb key "ulimits" then
                  py_assert (is_dict val) ;;;
                  params <- items val ;;
                  limits <- foldM (fun acc p =>
                              lim <- get_docker_ulimits (fst p) (snd p) ;;
                              Ok (acc ++ [lim])%list) [] params ;;
                  Ok (sset key (VList limits) docker_args)
                else Ok (sset key val docker_args))
             [] entries)%result
  end.

(** Returns the handler with [_container] assigned. *)
Definition start_container (hd : DockerHandler) (volumes : sdict volume)
    (env_vars : list string) (docker_options : value) : M DockerHandler :=
  (docker_args <- lift (get_docker_option_args docker_options) ;;
   try_except
     (image <- lift (docker_image_name hd) ;;
      let tty := match sget "tty" docker_args with
                 | Some v => v
                 | None => VBool true
                 end in
      let docker_args := sdel "tty" docker_args in
      c <- lift (containers_run h
                   {| run_image := image;
                      run_tty := tty;
                      run_volumes := volumes;
                      run_environment := env_vars;
                      run_docker_args := docker_args |}) ;;
      emit (EvStart c) ;;;
      ret (set_container hd (Some c)))
     (only_api_error
        (fun explanation =>
           emit (EvPrint ("Docker instantiation failed with error: " ++ explanation)) ;;;
           sys_exit 1)))%M.

Definition stop_container (hd : DockerHandler) : M unit :=
  match _container hd with
  | None => raise AssertionError
  | Some c => (emit (EvStop c) ;;; lift (container_stop h c))%M
  end.

(** [if self._container: self.stop_container()] *)
Definition stop_if_container (hd : DockerHandler) : M unit :=
  match _container hd with
  | Some _ => stop_container hd
  | None => ret tt
  end.

(** The [except subprocess.CalledProcessError as e] clause. *)
Definition on_called_process_error (hd : DockerHandler) (e : exn)
    : option (M unit) :=
  match e with
  | CalledProcessError output =>
      Some (match output with
            | Some o =>
                (emit (EvPrint ("TAO command run failed with error: " ++ o)) ;;;
                 stop_if_container hd ;;;
                 sys_exit (-1))%M
            | None => ret tt
            end)
  | _ => None
  end.

(** [run_container] is written here in three parts.  First part, after
    the image check: the bindings of the mounts file and the start of the
    container; it gives the handler that holds the container, and [tty]. *)
Definition start_from_mounts_file (hd : DockerHandler) : M (DockerHandler * value) :=
  (data <- lift (_get_mount_env_data hd) ;;
   let '(mount_data, env_vars, docker_options) := data in
   volumes <- lift (formatted_mounts (VList mount_data)) ;;
   env_variables <- lift (formatted_envs (VList env_vars)) ;;
   ks <- lift (keys docker_options) ;;
   tty <- (if str_in "tty" ks then lift (getitem docker_options "tty")
           else ret (VBool true)) ;;
   hd <- start_container hd volumes env_variables docker_options ;;
   ret (hd, tty))%M.

(** Second part: the forwarded command, inside [try] ... [finally]. *)
Definition exec_and_stop (hd : DockerHandler) (tty : value)
    (task_command : string) : M unit :=
  (let interactive_option := if truthy tty then "-it" else "-i" in
   container_id <- (match _container hd with
                    | Some c => ret (id c)
                    | None => raise AttributeError
                    end) ;;
   let formatted_command :=
     "bash -c '" ++ docker_exec_command hd ++ " " ++ interactive_option
     ++ " " ++ container_id ++ " " ++ task_command ++ "'" in
   try_finally
     (try_except
        (emit (EvExec formatted_command) ;;;
         lift (check_call h formatted_command))
        (on_called_process_error hd))
     (stop_if_container hd))%M.

Definition run_container (hd : DockerHandler) (task_command : string) : M unit :=
  (present <- lift (_check_image_exists hd) ;;
   (if negb present then pull hd else ret tt) ;;;
   started <- start_from_mounts_file hd ;;
   exec_and_stop (fst started) (snd started) task_command)%M.

Definition run_container_on_ci (hd : DockerHandler) (task_command : string)
    : M unit :=
  (present <- lift (_check_image_exists hd) ;;
   (if negb present then pull hd else ret tt) ;;;
   data <- lift (_get_mount_env_data hd) ;;
   let '(mount_data, env_vars, docker_options) := data in
   volumes <- lift (formatted_mounts (VList mount_data)) ;;
   env_variables <- lift (formatted_envs (VList env_vars)) ;;
   let volume_args :=
     String.concat " "
       (map (fun sv => "-v " ++ fst sv ++ ":" ++ bind (snd sv) ++ ":" ++ mode (snd sv))
            volumes) in
   let env_args := String.concat " " (map (fun e => "-e " ++ e) env_variables) in
   entries <- lift (items docker_options) ;;
   let tty := match sget "tty" entries with Some v => v | None => VBool true end in
   let interactive_option := if truthy tty then "-it" else "-i" in
   let docker_command :=
     ["docker run"; interactive_option; "--rm"; "--gpus all"; volume_args; env_args] in
   let options :=
     flat_map (fun ov =>
                 ((if String.eqb (fst ov) "privileged" && truthy (snd ov)
                   then ["--privileged"] else [])
                  ++ (if String.eqb (fst ov) "shm_size"
                      then [("--shm-size " ++ py_str h (snd ov))%string] else []))%list)
              entries in
   image <- lift (docker_image_name hd) ;;
   let formatted_command :=
     String.concat " " (docker_command ++ options)%list ++ " " ++ image
     ++ " " ++ task_command in
   try_except
     (emit (EvExec formatted_command) ;;;
      lift (check_call h formatted_command))
     (on_called_process_error hd))%M.

End Handler.
End DockerHandlerM.

(** ** instance_handler/utils.py *)

Definition DOCKER_CONFIG (h : host) : string := expanduser h "~/.docker/config.json".
Definition OVERRIDE_CONFIG (h : host) : string := expanduser h "~/.tao/config.json".
Definition DEPLOY_OVERRIDE_CONFIG (h : host) : string :=
  expanduser h "~/.tao/config_deploy.json".

Fixpoint ends_with (c : ascii) (s : string) : bool :=
  match s with
  | EmptyString => false
  | String x EmptyString => Ascii.eqb x c
  | String _ s' => ends_with c s'
  end.

(** [os.path.join(a, b)] for a relative [b] *)
Definition path_join (a b : string) : string :=
  if String.eqb a "" then b
  else if ends_with "/" a then a ++ b
  else a ++ "/" ++ b.

(** [up_directories(path, n)] *)
Fixpoint up_directories (h : host) (path : string) (n : nat) : string :=
  match n with
  | O => dirname h path
  | S n' => up_directories h (dirname h path) n'
  end.

Definition get_config_file (h : host) (entrypoint_type : string) : result string :=
  (py_assert (str_in entrypoint_type ["tao"; "tao-deploy"]) ;;;
   if String.eqb entrypoint_type "tao-deploy" then
     if path_exists h (DEPLOY_OVERRIDE_CONFIG h) && is_file h (DEPLOY_OVERRIDE_CONFIG h)
     then Ok (DEPLOY_OVERRIDE_CONFIG h)
     else Ok (path_join (path_join (up_directories h (utils_file h) 2) "config")
                        "config_deploy.json")
   else
     if path_exists h (OVERRIDE_CONFIG h) && is_file h (OVERRIDE_CONFIG h)
     then Ok (OVERRIDE_CONFIG h)
     else Ok (path_join (path_join (up_directories h (utils_file h) 2) "config")
                        "config.json"))%result.

Definition load_config_file (h : host) (config_path : string) : result value :=
  (py_assert (path_exists h config_path) ;;;
   read_json h config_path)%result.

Definition docker_logged_in (h : host) (env : environ) (required_registry : value)
    : result unit :=
  match env "OVERRIDE_REGISTRY" with
  | None =>
      (data <- load_config_file h (DOCKER_CONFIG h) ;;
       ks <- keys data ;;
       if negb (str_in "auths" ks) then Raise ValueError else
       let required := match required_registry with
                       | VList l => l
                       | v => [v]
                       end in
       match required with
       | [] => Ok tt
       | _ =>
           auths <- getitem data "auths" ;;
           registries <- keys auths ;;
           py_assert (forallb (fun registry =>
                                 match registry with
                                 | VStr r => str_in r registries
                                 | _ => false
                                 end) required)
       end)%result
  | Some _ => Ok tt
  end.

(** ** instance_handler/base_instance.py *)

Definition INSTANCE_HANDLER_TASKS : list string := ["list"; "stop"; "info"].

Fixpoint insert_sorted (x : string) (l : list string) : list string :=
  match l with
  | [] => [x]
  | y :: l' => if String.leb x y then x :: l else y :: insert_sorted x l'
  end.

(** [sorted(l)] on strings *)
Definition sorted (l : list string) : list string :=
  fold_right insert_sorted [] l.

(** [TAOInstance.__init__], followed by the assignment of
    [current_config_path] that both subclasses make. *)
Definition new_instance (tm : task_map_t) (images : option (list string))
    (config_path : string) : instance :=
  {| task_map := tm;
     dl_tasks := sorted (map fst tm);
     docker_images := images;
     instance_handler_tasks := INSTANCE_HANDLER_TASKS;
     current_config_path := config_path |}.

(** The [args] of [launch_command]: the list of remaining command-line
    tokens, or the [argparse.Namespace] of a built-in group. *)
Inductive pyargs : Type :=
| ArgList (tokens : list string)
| ArgNamespace (attrs : sdict value).

(** [args.attr] *)
Definition getattr (ns : sdict value) (attr : string) : result value :=
  match sget attr ns with
  | Some v => Ok v
  | None => Raise AttributeError
  end.

(** The command line that both [launch_command]s build from a non-empty
    [args]; [args.pop(0)] drops a leading "run". *)
Definition command_of_args (h : host) (task : value) (arg0 : string)
    (rest : list string) : string :=
  if String.eqb arg0 "run" then String.concat " " rest
  else (py_str h task ++ " ") ++ String.concat " " (arg0 :: rest).

(** ** instance_handler/local_instance.py *)

Definition TABS : string := "    ".
Definition nl : string := String (ascii_of_nat 10) "".

Fixpoint repeat_string (s : string) (n : nat) : string :=
  match n with
  | O => ""
  | S n' => s ++ repeat_string s n'
  end.

Definition string_of_nat (n : nat) : string :=
  NilEmpty.string_of_uint (Nat.to_uint n).

(** [d[c] = s] on a dict keyed by containers, which compare by [id]. *)
Fixpoint cset (c : container) (s : string) (d : list (container * string))
    : list (container * string) :=
  match d with
  | [] => [(c, s)]
  | (c', s') :: d' =>
      if String.eqb (id c) (id c') then (c', s) :: d' else (c', s') :: cset c s d'
  end.

Module LocalInstance.
Section Local.

Variable h : host.
Variable env : environ.

Definition load_config (config_path : string) : result value :=
  load_config_file h config_path.

(** [LocalInstance.parse_launcher_config] *)
Definition parse_launcher_config (config_data : value)
    : result (task_map_t * list string) :=
  parse_config env config_data.

(** [LocalInstance.from_config]; the debug string that it builds from the
    task map has no effect on the instance. *)
Definition from_config (config_path : string) : result instance :=
  (config_data <- load_config config_path ;;
   parsed <- parse_launcher_config config_data ;;
   Ok (new_instance (fst parsed) (Some (snd parsed)) config_path))%result.

(** The property [handler_map]: a new handler per distinct "image:tag". *)
Definition handler_map : M (sdict DockerHandler) :=
  (inst <- get_self ;;
   lift (py_assert (match task_map inst with [] => false | _ => true end)) ;;;
   ret (fold_left
          (fun hm (group : string * pydict) =>
             fold_left
               (fun hm (entry : value * Task) =>
                  let map_val := snd entry in
                  let handler_key :=
                    py_str h (docker_image map_val) ++ ":"
                    ++ py_str h (docker_tag map_val) in
                  if str_in handler_key (map fst hm) then hm
                  else sset handler_key
                         (DockerHandlerM.init h
                            (docker_registry map_val) (docker_image map_val)
                            (docker_tag map_val) (docker_digest map_val)
                            (match env "LAUNCHER_MOUNTS" with
                             | Some f => f
                             | None => DOCKER_MOUNT_FILE
                             end)) hm)
               (snd group) hm)
          (task_map inst) []))%M.

(** The property [_docker_client]: the client of the first handler. *)
Definition _docker_client : M unit :=
  (hm <- handler_map ;;
   match hm with
   | [] => raise IndexError
   | _ => ret tt
   end)%M.

Definition _get_running_containers : M (list container) :=
  (hm <- handler_map ;;
   lift (py_assert (Nat.ltb 0 (length hm))) ;;;
   _docker_client ;;;
   for_fold (fun acc c =>
               images <- handler_map ;;
               ret (acc ++ flat_map (fun image =>
                                       if substring_in image (config_image c)
                                       then [c] else []) (map fst images))%list)
            [] (containers_list h))%M.

Definition stop (c : container) : M unit :=
  (emit (EvStop c) ;;; lift (container_stop h c))%M.

Definition kill_containers (container_ids kill_all : value) : M unit :=
  (if truthy kill_all then
     running <- _get_running_containers ;;
     for_each running stop
   else
     match container_ids with
     | VList ids =>
         for_each ids (fun idx =>
           _docker_client ;;;
           c <- lift (containers_get h idx) ;;
           stop c)
     | _ =>
         emit (EvPrint ("No containers provided in the list to stop. "
                        ++ "Please run tao stop --help for more information."))
     end)%M.

(** The loop over [procs_list["Processes"]], which stops at the first
    process whose entry point is a task of the group. *)
Fixpoint find_command (tasks_per_group : pydict) (processes : list (list string))
    : result (option string) :=
  match processes with
  | [] => Ok None
  | item :: rest =>
      match rev item with
      | [] => Raise IndexError
      | command :: _ =>
          match split_on " " command with
          | _ :: task_point :: args =>
              let entry := last (split_on "/" task_point) "" in
              if pd_mem (VStr entry) tasks_per_group
              then Ok (Some (entry ++ " " ++ String.concat " " args))
              else find_command tasks_per_group rest
          | _ => find_command tasks_per_group rest
          end
      end
  end.

(** [LocalInstance.pretty_print] *)
Definition pretty_print (container_dict : list (container * string)) : M unit :=
  let headers := ["container_id"; "container_status"; "command"] in
  let data :=
    map (fun cs : container * string =>
           let container_string :=
             if negb (String.eqb (snd cs) "") then snd cs
             else "Not in support DNN tasks." in
           [short_id (fst cs); status (fst cs); textwrap_fill h container_string])
        container_dict in
  emit (EvPrint (tabulate h data headers)).

Definition list_running_jobs : M unit :=
  (container_list <- _get_running_containers ;;
   inst <- get_self ;;
   command_per_container <-
     for_fold (fun cpc task_group =>
                 inst <- get_self ;;
                 tasks_per_group <-
                   (match sget task_group (task_map inst) with
                    | Some tm => ret tm
                    | None => raise (KeyError task_group)
                    end) ;;
                 for_fold (fun cpc c =>
                             let cpc := cset c "" cpc in
                             found <- lift (find_command tasks_per_group
                                              (container_top h c)) ;;
                             ret (match found with
                                  | Some cmd => cset c cmd cpc
                                  | None => cpc
                                  end))
                          cpc container_list)
              [] (map fst (task_map inst)) ;;
   pretty_print command_per_container)%M.

(** [LocalInstance.dict_print], for a [dictionary] that is a dict (the
    assertion of the source is made by [dict_print_checked]). *)
Fixpoint dict_print (dictionary : value) (nlevels : nat) {struct dictionary}
    : string :=
  match dictionary with
  | VDict d =>
      repeat_string TABS nlevels
      ++ (fix entries (e : list (string * value)) : string :=
            match e with
            | [] => ""
            | (key, val) :: e' =>
                (nl ++ repeat_string TABS nlevels ++ key ++ ": ")
                ++ match val with
                   | VDict _ => TABS ++ dict_print val (S nlevels)
                   | VList l =>
                       String.concat ""
                         (map (fun ix : nat * value =>
                                 nl ++ repeat_string TABS (S nlevels)
                                 ++ string_of_nat (fst ix) ++ ". "
                                 ++ py_str h (snd ix))
                              (combine (seq 1 (length l)) l))
                   | _ => py_str h val
                   end
                ++ entries e'
            end) d
  | _ => ""
  end.

Definition dict_print_checked (dictionary : value) : result string :=
  (py_assert (is_dict dictionary) ;;; Ok (dict_print dictionary 0))%result.

Definition only_assertion_error {A} (recover : M A) (e : exn) : option (M A) :=
  match e with
  | AssertionError => Some recover
  | _ => None
  end.

Definition print_information (verbose : value) : M bool :=
  (emit (EvPrint "Configuration of the TAO Toolkit Instance") ;;;
   inst <- get_self ;;
   config <- try_except
               (lift (load_config (current_config_path inst)))
               (only_assertion_error
                  (emit (EvPrint "Config file doesn't exist. Aborting information printing") ;;;
                   sys_exit (-1))) ;;
   (if truthy verbose then
      text <- lift (dict_print_checked config) ;;
      emit (EvPrint text)
    else
      entries <- lift (items config) ;;
      for_each entries (fun kv =>
        let print_value :=
          match snd kv with
          | VDict d => VList (map VStr (dict_keys d))
          | v => v
          end in
        emit (EvPrint (fst kv ++ ": " ++ py_str h print_value)))) ;;;
   ret false)%M.

(** [LocalInstance.launch_command] *)
Definition launch_command (task_group : string) (task : value) (args : pyargs)
    : M unit :=
  (inst <- get_self ;;
   if str_in task_group (map fst (task_map inst)) then
     match sget task_group (task_map inst) with
     | None => raise (KeyError task_group)
     | Some tm =>
         if pd_mem task tm then
           match args with
           | ArgNamespace _ => raise AssertionError
           | ArgList tokens =>
               match pd_get task tm with
               | None => raise (KeyError (py_str h task))
               | Some t =>
                   lift (docker_logged_in h env (docker_registry t)) ;;;
                   hm <- handler_map ;;
                   let handler_key :=
                     py_str h (docker_image t) ++ ":" ++ py_str h (docker_tag t) in
                   match sget handler_key hm with
                   | None => raise (KeyError handler_key)
                   | Some docker_handler =>
                       lift (DockerHandlerM.docker_image_name h docker_handler) ;;;
                       let command :=
                         match tokens with
                         | arg0 :: rest => command_of_args h task arg0 rest
                         | [] => "/bin/bash"
                         end in
                       match env "CI_PROJECT_DIR" with
                       | Some _ =>
                           DockerHandlerM.run_container_on_ci h docker_handler command
                       | None =>
                           DockerHandlerM.run_container h docker_handler command
                       end
                   end
               end
           end
         else ret tt
     end
   else
     lift (py_assert (str_in task_group (instance_handler_tasks inst))) ;;;
     match args with
     | ArgList _ => raise AssertionError
     | ArgNamespace ns =>
         if String.eqb task_group "list" then list_running_jobs
         else if String.eqb task_group "stop" then
           container_id <- lift (getattr ns "container_id") ;;
           all <- lift (getattr ns "all") ;;
           kill_containers container_id all
         else if String.eqb task_group "info" then
           verbose <- lift (getattr ns "verbose") ;;
           print_information verbose ;;;
           ret tt
         else raise NotImplementedError
     end)%M.

End Local.
End LocalInstance.

(** ** instance_handler/whl_instance.py *)

Module WHLInstance.
Section Whl.

Variable h : host.
Variable env : environ.

Definition load_config (config_path : string) : result value :=
  load_config_file h config_path.

(** [WHLInstance.parse_launcher_config]: the text of the one of
    [LocalInstance], without the debug dump of each image's data. *)
Definition parse_launcher_config (config_data : value)
    : result (task_map_t * list string) :=
  parse_config env config_data.

(** [WHLInstance.from_config] *)
Definition from_config (config_path : string) : result instance :=
  (config_data <- load_config config_path ;;
   parsed <- parse_launcher_config config_data ;;
   Ok (new_instance (fst parsed) None config_path))%result.

(** The [except subprocess.CalledProcessError as e] clause. *)
Definition on_called_process_error (e : exn) : option (M unit) :=
  match e with
  | CalledProcessError output =>
      Some (match output with
            | Some o =>
                (emit (EvPrint ("TAO Toolkit command run failed with error: " ++ o)) ;;;
                 sys_exit (-1))%M
            | None => ret tt
            end)
  | _ => None
  end.

(** [WHLInstance.launch_command] *)
Definition launch_command (task_group : string) (task : value) (args : pyargs)
    : M unit :=
  (inst <- get_self ;;
   if str_in task_group (map fst (task_map inst)) then
     match sget task_group (task_map inst) with
     | None => raise (KeyError task_group)
     | Some tm =>
         if pd_mem task tm then
           match args with
           | ArgNamespace _ => raise AssertionError
           | ArgList [] => raise UnboundLocalError
           | ArgList (arg0 :: rest) =>
               let command := command_of_args h task arg0 rest in
               try_except
                 (emit (EvExec command) ;;; lift (check_call h command))
                 on_called_process_error
           end
         else raise NotImplementedError
     end
   else raise NotImplementedError)%M.

End Whl.
End WHLInstance.

(** ** instance_handler/builder.py *)

Definition CLI_TASKS : list string := INSTANCE_HANDLER_TASKS.

(** The class of the instance that [get_launcher] returns. *)
Inductive launcher_kind : Type := LocalKind | WHLKind.

Definition get_launcher (h : host) (env : environ) (launcher_config_file : string)
    : result (launcher_kind * instance * list string) :=
  (let disable := match env "TAO_DOCKER_DISABLE" with
                  | Some v => v
                  | None => "0"
                  end in
   py_assert (str_in disable ["0"; "1"]) ;;;
   if String.eqb disable "1" then
     inst <- WHLInstance.from_config h env launcher_config_file ;;
     Ok (WHLKind, inst, dl_tasks inst)
   else
     inst <- LocalInstance.from_config h env launcher_config_file ;;
     Ok (LocalKind, inst, (CLI_TASKS ++ dl_tasks inst)%list))%result.

(** [instance.launch_command], by the class of the instance. *)
Definition launch_command (h : host) (env : environ) (kind : launcher_kind)
    (task_group : string) (task : value) (args : pyargs) : M unit :=
  match kind with
  | LocalKind => LocalInstance.launch_command h env task_group task args
  | WHLKind => WHLInstance.launch_command h task_group task args
  end.

(** ** entrypoint/tao_launcher.py *)

(** The body of [main] once the launcher instance exists. *)
Definition main_dispatch (h : host) (env : environ) (kind : launcher_kind)
    (supported_tasks : list string) (args : list string) : M unit :=
  (inst <- get_self ;;
   lift (build_parser h supported_tasks (task_map inst)) ;;;
   let args := match args with [] => ["--help"] | _ => args end in
   let task_group := hd "" args in
   let args := match args with
               | [a] => if str_in a (instance_handler_tasks inst) then args
                        else (args ++ ["--help"])%list
               | _ => args
               end in
   let task := match args with
               | _ :: a1 :: _ => if String.eqb a1 "--help" then VNone else VStr a1
               | _ => VNone
               end in
   if str_in task_group (map fst (task_map inst))
      && match sget task_group (task_map inst) with
         | Some tm => pd_mem task tm
         | None => false
         end
   then launch_command h env kind task_group task (ArgList (skipn 2 args))
   else
     parsed_args <- lift (parse_known_args h supported_tasks (task_map inst) args) ;;
     launch_command h env kind task_group task (ArgNamespace parsed_args))%M.

(** [main]: the outcome of the run and the calls it made. *)
Definition main (h : host) (env : environ) (args : list string)
    : result unit * list event :=
  match rbind (get_config_file h "tao") (get_launcher h env) with
  | Raise e => (Raise e, [])
  | Ok (kind, inst, supported_tasks) =>
      let r := main_dispatch h env kind supported_tasks args
                 {| self := inst; events := [] |} in
      (fst r, events (snd r))
  end.

(** The exit status of the interpreter: 0 after a normal return, the code
    of [sys.exit] modulo 256, and 1 after any other uncaught exception. *)
Definition exit_status (r : result unit) : Z :=
  match r with
  | Ok _ => 0
  | Raise (SystemExit code) => code mod 256
  | Raise _ => 1
  end.

(** ** What a configuration lists

    The reading of the three schema versions against which the parser is
    checked: the flat list of (task, image, tag, registry, digest) entries of
    every task group, in the order of the file.  A configuration that does
    not fit its schema lists nothing ([None]). *)

Record listing : Type := mkListing {
  l_task : string;
  l_image : string;
  l_tag : value;
  l_registry : value;
  l_digest : value
}.

Fixpoint str_list (l : list value) : option (list string) :=
  match l with
  | [] => Some []
  | VStr s :: l' => option_map (cons s) (str_list l')
  | _ => None
  end.

Fixpoint nodupb (l : list string) : bool :=
  match l with
  | [] => true
  | x :: l' => negb (str_in x l') && nodupb l'
  end.

Definition digest_entry (d : dict) : value :=
  match dict_get "docker_digest" d with
  | Some x => x
  | None => VNone
  end.

Fixpoint concat_map_opt {A B} (f : A -> option (list B)) (l : list A)
    : option (list B) :=
  match l with
  | [] => Some []
  | x :: l' =>
      match f x, concat_map_opt f l' with
      | Some a, Some b => Some (a ++ b)%list
      | _, _ => None
      end
  end.

(** Format 1.0: image -> { tasks, docker_tag, docker_registry }. *)
Definition image_listings_v1 (image : string) (docker_data : value)
    : option (list listing) :=
  match docker_data with
  | VDict d =>
      match dict_get "tasks" d, dict_get "docker_tag" d,
            dict_get "docker_registry" d with
      | Some (VList ts), Some tag, Some reg =>
          option_map (map (fun t => mkListing t image tag reg (digest_entry d)))
                     (str_list ts)
      | _, _, _ => None
      end
  | _ => None
  end.

(** Formats 2.0 and 3.0: image -> tag -> { tasks, docker_registry }. *)
Definition tag_listings (image tag : string) (tag_data : value)
    : option (list listing) :=
  match tag_data with
  | VDict d =>
      match dict_get "tasks" d, dict_get "docker_registry" d with
      | Some (VList ts), Some reg =>
          option_map (map (fun t => mkListing t image (VStr tag) reg (digest_entry d)))
                     (str_list ts)
      | _, _ => None
      end
  | _ => None
  end.

Definition image_listings_tags (image : string) (image_data : value)
    : option (list listing) :=
  match image_data with
  | VDict tags =>
      if nodupb (dict_keys tags)
      then concat_map_opt (fun e => tag_listings image (fst e) (snd e)) tags
      else None
  | _ => None
  end.

Definition dockers_listings (per_image : string -> value -> option (list listing))
    (dockers : value) : option (list listing) :=
  match dockers with
  | VDict ds =>
      if nodupb (dict_keys ds)
      then concat_map_opt (fun e => per_image (fst e) (snd e)) ds
      else None
  | _ => None
  end.

Definition group_listings (group_data : value) : option (list listing) :=
  match group_data with
  | VDict g =>
      match dict_get "dockers" g with
      | Some dockers => dockers_listings image_listings_tags dockers
      | None => None
      end
  | _ => None
  end.

Fixpoint groups_listings (groups : dict) : option (sdict (list listing)) :=
  match groups with
  | [] => Some []
  | (g, gd) :: rest =>
      match group_listings gd, groups_listings rest with
      | Some ls, Some r => Some ((g, ls) :: r)
      | _, _ => None
      end
  end.

Definition config_listings (config_data : value) : option (sdict (list listing)) :=
  match config_data with
  | VDict c =>
      match dict_get "format_version" c with
      | Some version =>
          if num_eqb version 1 then
            match dict_get "dockers" c with
            | Some dockers =>
                option_map (fun ls => [("container_actions", ls)])
                           (dockers_listings image_listings_v1 dockers)
            | None => None
            end
          else if num_eqb version 2 then
            match dict_get "dockers" c with
            | Some dockers =>
                option_map (fun ls => [("container_actions", ls)])
                           (dockers_listings image_listings_tags dockers)
            | None => None
            end
          else if num_eqb version 3 then
            match dict_get "task_group" c with
            | Some (VDict groups) =>
                if nodupb (dict_keys groups) then groups_listings groups else None
            | _ => None
            end
          else None
      | None => None
      end
  | _ => None
  end.

(** A valid configuration of a known schema version. *)
Definition valid_config (config_data : value) : bool :=
  match config_listings config_data with
  | Some _ => true
  | None => false
  end.

(** One store of the comprehension or of [update]. *)
Definition pset (acc : pydict) (kt : value * Task) : pydict :=
  pd_set (fst kt) (snd kt) acc.

(** No two keys of the dictionary are equal. *)
Fixpoint pd_uniq (d : pydict) : Prop :=
  match d with
  | [] => True
  | (k, _) :: d' => pd_get k d' = None /\ pd_uniq d'
  end.

(** The Task that a listing describes. *)
Definition task_of (env : environ) (L : listing) : Task :=
  TaskM.init env (VStr (l_task L)) (VStr (l_image L)) (l_tag L) (l_registry L)
    (l_digest L).

(** The stores that a list of listings asks for, in order. *)
Definition assigns (env : environ) (ls : list listing) : list (value * Task) :=
  map (fun L => (VStr (l_task L), task_of env L)) ls.

(** [lm] is [lm0] after the stores of [ls]: a key is bound by the last store
    that names it. *)
Definition overlays (env : environ) (ls : list listing) (lm0 lm : pydict) : Prop :=
  forall q, pd_get q lm = match pd_get q (rev (assigns env ls)) with
                          | Some t => Some t
                          | None => pd_get q lm0
                          end.

(** The reading of "each task name listed in the config is mapped to a Task
    with exactly the image, tag and registry under which it is listed". *)
Definition maps_each_listing (env : environ) (config_data : value) : Prop :=
  forall ls, config_listings config_data = Some ls ->
  exists tm images,
    LocalInstance.parse_launcher_config env config_data = Ok (tm, images) /\
    forall g gl L, sget g ls = Some gl -> In L gl ->
      exists lm t,
        sget g tm = Some lm /\ pd_get (VStr (l_task L)) lm = Some t /\
        docker_image t = VStr (l_image L) /\
        docker_tag t = l_tag L /\
        docker_registry t = l_registry L.

(** A configuration dictionary without a "format_version", or with one that
    is none of 1.0, 2.0, 3.0. *)
Definition rejected_version (d : dict) : Prop :=
  dict_mem "format_version" d = false \/
  exists v, dict_get "format_version" d = Some v /\
            num_eqb v 1 = false /\ num_eqb v 2 = false /\ num_eqb v 3 = false.

(** ** What a mounts file holds *)



(** A mount descriptor: a dict with string "source" and "destination", and
    any other entries (an access mode, say). *)
Definition descriptor (mount : value) : option (string * string) :=
  match mount with
  | VDict d =>
      match dict_get "source" d, dict_get "destination" d with
      | Some (VStr s), Some (VStr t) => Some (s, t)
      | _, _ => None
      end
  | _ => None
  end.

Fixpoint descriptors (mounts : list value) : option (list (string * string)) :=
  match mounts with
  | [] => Some []
  | m :: rest =>
      match descriptor m, descriptors rest with
      | Some p, Some ps => Some (p :: ps)
      | _, _ => None
      end
  end.

Definition rw (destination : string) : volume :=
  {| bind := destination; mode := "rw" |}.

(** One store of [formatted_mounts]. *)
Definition bind_mount (h : host) (volumes : sdict volume) (p : string * string)
    : sdict volume :=
  sset (realpath h (fst p)) (rw (realpath h (snd p))) volumes.

(** The reading of "the returned volumes map binds each source path's real
    path to its destination's real path with mode rw". *)
Definition binds_every_mount (h : host) (mounts : list value) : Prop :=
  forall pairs, descriptors mounts = Some pairs ->
  exists volumes,
    DockerHandlerM.formatted_mounts h (VList mounts) = Ok volumes /\
    forall s t, In (s, t) pairs ->
      sget (realpath h s) volumes = Some (rw (realpath h t)).

(** ** What a computation does to the state *)

(** [m] leaves the instance as it is and only appends events that satisfy
    [P] to the trace. *)
Definition writes {A} (P : event -> Prop) (m : M A) : Prop :=
  forall st,
    self (snd (m st)) = self st /\
    exists new, events (snd (m st)) = (events st ++ new)%list /\ Forall P new.

Definition any_event (ev : event) : Prop := True.

Definition no_pull (ev : event) : Prop :=
  match ev with EvPull _ _ => False | _ => True end.


(** The image "registry/name:tag" of the handler is among the repository
    tags of an image of the local image list. *)
Definition image_present (h : host) (hd : DockerHandler) : bool :=
  existsb (fun image =>
             match inspect_repo_tags h image with
             | Some repo_tags =>
                 str_in (py_str h (_docker_registry hd) ++ "/"
                         ++ py_str h (_image_name hd) ++ ":"
                         ++ py_str h (_docker_tag hd)) repo_tags
             | None => false
             end)
          (images_list h).

(** The reading of "for every launcher instance returned by get_launcher,
    launch_command with a built-in task group dispatches to the built-in
    operation": the call is the operation, for "list", "stop" and "info". *)
Definition dispatches_builtin_groups (h : host) (env : environ) (file : string)
    : Prop :=
  forall kind inst supported,
    get_launcher h env file = Ok (kind, inst, supported) ->
    forall task ns st, self st = inst ->
      launch_command h env kind "list" task (ArgNamespace ns) st
      = LocalInstance.list_running_jobs h env st /\
      (forall ids all,
         sget "container_id" ns = Some ids -> sget "all" ns = Some all ->
         launch_command h env kind "stop" task (ArgNamespace ns) st
         = LocalInstance.kill_containers h env ids all st) /\
      (forall verbose,
         sget "verbose" ns = Some verbose ->
         launch_command h env kind "info" task (ArgNamespace ns) st
         = mbind (LocalInstance.print_information h verbose) (fun _ => ret tt) st).

(** ** Example data *)

Definition no_env : environ := fun _ => None.

Definition env_override : environ :=
  fun k => if String.eqb k "OVERRIDE_REGISTRY" then Some "stg.nvcr.io" else None.

Definition env_whl : environ :=
  fun k => if String.eqb k "TAO_DOCKER_DISABLE" then Some "1" else None.

Definition image_entry_v1 (tasks : list string) (tag : string) : value :=
  VDict [("tasks", VList (map VStr tasks));
         ("docker_tag", VStr tag);
         ("docker_registry", VStr "nvcr.io")].

Definition tag_entry (tasks : list string) : value :=
  VDict [("tasks", VList (map VStr tasks));
         ("docker_registry", VStr "nvcr.io")].

Definition config_v1 : value :=
  VDict [("format_version", VNum 1);
         ("dockers", VDict [("tao-tf", image_entry_v1 ["train"; "evaluate"] "v5.0")])].

(** The task "train" is listed under two images. *)
Definition config_v1_twice : value :=
  VDict [("format_version", VNum 1);
         ("dockers", VDict [("tao-tf", image_entry_v1 ["train"; "evaluate"] "v5.0");
                            ("tao-pyt", image_entry_v1 ["train"] "v5.1")])].

Definition config_v2 : value :=
  VDict [("format_version", VNum 2);
         ("dockers", VDict [("tao-tf", VDict [("v5.0", tag_entry ["train"]);
                                             ("v5.1", tag_entry ["export"])])])].

Definition config_v3 : value :=
  VDict [("format_version", VNum 3);
         ("task_group",
          VDict [("model",
                  VDict [("dockers",
                          VDict [("tao-tf", VDict [("v5.0", tag_entry ["train"]);
                                                  ("v5.1", tag_entry ["export"])])])]);
                 ("dataset",
                  VDict [("dockers",
                          VDict [("tao-ds", VDict [("v5.0", tag_entry ["augment"])])])])])].

Definition mount_entry (source destination : string) : value :=
  VDict [("source", VStr source); ("destination", VStr destination);
         ("mode", VStr "ro")].

(** A host on which paths resolve to themselves, with the given existing
    paths, JSON files, local images (id and repository tags) and outcome of
    the forwarded command; the engine starts the container "c0". *)
Definition make_host (exists_ : string -> bool) (file : string -> result value)
    (images : sdict (list string)) (call : string -> result unit) : host :=
  {| repr := fun _ => "";
     path_exists := exists_;
     expanduser := fun p => p;
     realpath := fun p => p;
     read_json := file;
     images_list := map fst images;
     inspect_repo_tags := fun image => sget image images;
     api_pull := fun _ _ => Ok tt;
     containers_run := fun r => Ok (mkContainer "c0" "c0" "running" (run_image r));
     containers_list := [];
     containers_get := fun _ => Raise (APIError "refused");
     container_stop := fun _ => Ok tt;
     container_top := fun _ => [];
     ulimit := fun _ v => Ok v;
     check_call := call;
     tabulate := fun _ _ => "";
     textwrap_fill := fun t => t;
     build_parser := fun _ _ => Ok tt;
     parse_known_args := fun _ _ _ => Ok [];
     is_file := fun _ => true;
     dirname := fun _ => "/pkg";
     utils_file := "/pkg/utils.py" |}.

(** Every path exists, every JSON file holds [file], no local image. *)
Definition example_host (file : string -> result value) : host :=
  make_host (fun _ => true) file [] (fun _ => Ok tt).

Definition mounts_data : dict :=
  [("Mounts", VList [mount_entry "/data" "/workspace";
                     mount_entry "/missing" "/results"])].

(** A host without the directory "/missing". *)
Definition host_missing : host :=
  make_host (fun p => negb (String.eqb p "/missing"))
            (fun _ => Ok (VDict mounts_data)) [] (fun _ => Ok tt).

Definition image_name_example : string := "nvcr.io/nvidia/tao/tao-toolkit:5.0.0-tf1.15.5".

(** A host that holds the image of [handler_example], or not, and on which
    the forwarded command has the given outcome. *)
Definition host_run (present : bool) (call : result unit) : host :=
  make_host (fun _ => true)
            (fun _ => Ok (VDict [("Mounts", VList [mount_entry "/data" "/workspace"])]))
            (if present then [("sha256:1", [image_name_example])] else [])
            (fun _ => call).

Definition handler_example (h : host) : DockerHandler :=
  DockerHandlerM.init h (VStr "nvcr.io") (VStr "nvidia/tao/tao-toolkit")
    (VStr "5.0.0-tf1.15.5") VNone DOCKER_MOUNT_FILE.

Definition state0 : pystate :=
  {| self := new_instance [] None "config.json"; events := [] |}.

Definition config_v4 : list (string * value) :=
  [("format_version", VNum 4); ("dockers", VDict [])].

(** ** Further readings of the configuration *)

(** The image names of a "dockers" section. *)
Definition dockers_image_names (dockers : value) : list string :=
  match dockers with
  | VDict ds => dict_keys ds
  | _ => []
  end.

(** The image names that a configuration mentions, in the order of the
    file: the keys of "dockers" (formats 1.0 and 2.0), or of the "dockers"
    section of every task group (format 3.0). *)
Definition config_image_names (config_data : value) : list string :=
  match config_data with
  | VDict c =>
      match dict_get "format_version" c with
      | Some version =>
          if num_eqb version 1 || num_eqb version 2 then
            match dict_get "dockers" c with
            | Some dockers => dockers_image_names dockers
            | None => []
            end
          else if num_eqb version 3 then
            match dict_get "task_group" c with
            | Some (VDict groups) =>
                flat_map (fun e : string * value =>
                            match getitem (snd e) "dockers" with
                            | Ok dockers => dockers_image_names dockers
                            | Raise _ => []
                            end) groups
            | _ => []
            end
          else []
      | None => []
      end
  | _ => []
  end.

(** A format 1.0 configuration whose second image has no "tasks". *)
Definition config_v1_no_tasks : dict :=
  [("format_version", VNum 1);
   ("dockers", VDict [("tao-tf", image_entry_v1 ["train"] "v5.0");
                      ("tao-pyt", VDict [("docker_tag", VStr "v5.1")])])].

(** A format 2.0 configuration whose image holds a list instead of tags. *)
Definition config_v2_list : dict :=
  [("format_version", VNum 2);
   ("dockers", VDict [("tao-tf", VList [VStr "v5.0"])])].

Definition config_v3_list : dict :=
  [("format_version", VNum 3);
   ("task_group",
    VDict [("model", VDict [("dockers", VDict [("tao-tf", VStr "v5.0")])])])].

(** ** Further data *)

Definition task_example : Task :=
  mkTask (VStr "train") (VStr "tao-tf") (VStr "v5.0") (VStr "nvcr.io") VNone.

Definition task_config_example : dict :=
  [("name", VStr "train"); ("docker_image", VStr "tao-tf");
   ("docker_tag", VStr "v5.0"); ("docker_registry", VStr "nvcr.io")].

(** ** Further readings of the mounts file *)

(** A mount point as [_get_mount_env_data] returns it: source and
    destination are strings and the source exists. *)
Definition resolved_mount (h : host) (mount : value) : Prop :=
  exists d s t,
    mount = VDict d /\
    dict_get "source" d = Some (VStr s) /\
    dict_get "destination" d = Some (VStr t) /\
    path_exists h s = true.

(** An environment entry: a dictionary with "variable" and "value". *)
Definition env_binding (entry : value) : Prop :=
  exists d,
    entry = VDict d /\ dict_mem "variable" d = true /\ dict_mem "value" d = true.

Definition mounts_envs_data : dict :=
  [("Mounts", VList [mount_entry "/data" "/workspace"]);
   ("Envs", VList [VDict [("variable", VStr "PYTHONPATH"); ("value", VStr "/workspace")]]);
   ("DockerOptions", VDict [("shm_size", VStr "16G"); ("user", VStr "1000:1000")])].

Definition host_mounts_envs : host :=
  make_host (fun _ => true) (fun _ => Ok (VDict mounts_envs_data)) [] (fun _ => Ok tt).

(** ** Further readings of a run *)

(** The state after more calls. *)
Definition add_events (st : pystate) (new : list event) : pystate :=
  {| self := self st; events := (events st ++ new)%list |}.

(** What [run_container] may do before it starts the container. *)
Definition before_start (ev : event) : Prop :=
  match ev with
  | EvPrint _ | EvPull _ _ => True
  | _ => False
  end.

(** What [run_container] may do after it executed the command. *)
Definition after_exec (ev : event) : Prop :=
  match ev with
  | EvPrint _ | EvStop _ => True
  | _ => False
  end.

(** Neither the start nor the stop of a container through the SDK. *)
Definition no_container_call (ev : event) : Prop :=
  match ev with
  | EvStart _ | EvStop _ => False
  | _ => True
  end.

(** The command line that [run_container] hands to [subprocess]. *)
Definition docker_exec_line (hd : DockerHandler) (interactive_option : string)
    (c : container) (task_command : string) : string :=
  "bash -c '" ++ docker_exec_command hd ++ " " ++ interactive_option
  ++ " " ++ id c ++ " " ++ task_command ++ "'".

(** A host without the image, on which the pull is refused by the registry. *)
Definition host_pull_refused : host :=
  {| repr := fun _ => "";
     path_exists := fun _ => true;
     expanduser := fun p => p;
     realpath := fun p => p;
     read_json := fun _ => Ok (VDict [("Mounts", VList [])]);
     images_list := [];
     inspect_repo_tags := fun _ => None;
     api_pull := fun _ _ => Raise (APIError "refused");
     containers_run := fun _ => Raise (APIError "refused");
     containers_list := [];
     containers_get := fun _ => Raise (APIError "refused");
     container_stop := fun _ => Ok tt;
     container_top := fun _ => [];
     ulimit := fun _ v => Ok v;
     check_call := fun _ => Ok tt;
     tabulate := fun _ _ => "";
     textwrap_fill := fun t => t;
     build_parser := fun _ _ => Ok tt;
     parse_known_args := fun _ _ _ => Ok [];
     is_file := fun _ => true;
     dirname := fun _ => "/pkg";
     utils_file := "/pkg/utils.py" |}.

Definition container_example : container :=
  mkContainer "c0" "c0" "running" image_name_example.

(** ** Further readings of the handler map *)

(** The key of a task in the handler map. *)
Definition handler_key (h : host) (t : Task) : string :=
  py_str h (docker_image t) ++ ":" ++ py_str h (docker_tag t).

(** The mounts file of the handlers of an instance. *)
Definition launcher_mounts (env : environ) : string :=
  match env "LAUNCHER_MOUNTS" with
  | Some f => f
  | None => DOCKER_MOUNT_FILE
  end.

(** One step of the inner loop of [handler_map]. *)
Definition add_handler (h : host) (env : environ) (hm : sdict DockerHandler)
    (entry : value * Task) : sdict DockerHandler :=
  if str_in (handler_key h (snd entry)) (map fst hm) then hm
  else sset (handler_key h (snd entry))
         (DockerHandlerM.init h (docker_registry (snd entry)) (docker_image (snd entry))
            (docker_tag (snd entry)) (docker_digest (snd entry)) (launcher_mounts env))
         hm.

(** The handlers of a task map. *)
Definition handlers_of (h : host) (env : environ) (tm : task_map_t)
    : sdict DockerHandler :=
  fold_left (fun hm (group : string * pydict) =>
               fold_left (add_handler h env) (snd group) hm) tm [].

(** A handler as [handler_map] makes it, stored under the key of its image
    and tag. *)
Definition fresh_handler (h : host) (key : string) (hd : DockerHandler) : Prop :=
  _container hd = None /\ initialized hd = true /\
  docker_exec_command hd = "docker exec" /\
  py_str h (_image_name hd) ++ ":" ++ py_str h (_docker_tag hd) = key.

Definition env_ci : environ :=
  fun k => if String.eqb k "CI_PROJECT_DIR" then Some "/builds/tao" else None.

Definition instance_v1 : instance :=
  new_instance
    [("container_actions",
      [(VStr "train", mkTask (VStr "train") (VStr "tao-tf") (VStr "v5.0")
                             (VStr "nvcr.io") VNone)])]
    (Some ["tao-tf"]) "config.json".

Definition state_v1 : pystate := {| self := instance_v1; events := [] |}.

Definition docker_config_example : value :=
  VDict [("auths", VDict [("nvcr.io", VDict [])])].

(** ** Further readings of the instance *)

(** A task map that has task groups and no task. *)
Definition no_task (tm : task_map_t) : Prop :=
  Forall (fun group : string * pydict => snd group = []) tm.

(** The lines that [print_information] prints for a configuration. *)
Definition info_line (h : host) (kv : string * value) : event :=
  EvPrint (fst kv ++ ": "
           ++ py_str h match snd kv with
                       | VDict d => VList (map VStr (dict_keys d))
                       | v => v
                       end).

Definition info_header : event := EvPrint "Configuration of the TAO Toolkit Instance".

(** A host without any file. *)
Definition host_no_file : host :=
  make_host (fun _ => false) (fun _ => Raise OSError) [] (fun _ => Ok tt).

(** A host that resolves the container ids "c1" and "c2". *)
Definition host_two_containers : host :=
  {| repr := fun _ => "";
     path_exists := fun _ => true;
     expanduser := fun p => p;
     realpath := fun p => p;
     read_json := fun _ => Ok (VDict []);
     images_list := [];
     inspect_repo_tags := fun _ => None;
     api_pull := fun _ _ => Ok tt;
     containers_run := fun _ => Raise (APIError "refused");
     containers_list := [];
     containers_get := fun idx =>
       match idx with
       | VStr "c1" => Ok (mkContainer "c1" "c1" "running" "tao-tf:v5.0")
       | VStr "c2" => Ok (mkContainer "c2" "c2" "running" "tao-tf:v5.0")
       | _ => Raise (APIError "No such container")
       end;
     container_stop := fun _ => Ok tt;
     container_top := fun _ => [];
     ulimit := fun _ v => Ok v;
     check_call := fun _ => Ok tt;
     tabulate := fun _ _ => "";
     textwrap_fill := fun t => t;
     build_parser := fun _ _ => Ok tt;
     parse_known_args := fun _ _ _ => Ok [];
     is_file := fun _ => true;
     dirname := fun _ => "/pkg";
     utils_file := "/pkg/utils.py" |}.

(** An instance whose only task group has no task. *)
Definition state_no_task : pystate :=
  {| self := new_instance [("model", [])] None "config.json"; events := [] |}.

(** What [kill_containers] does for one container id. *)
Definition stop_by_id (h : host) (env : environ) (idx : value) : M unit :=
  (LocalInstance._docker_client h env ;;;
   c <- lift (containers_get h idx) ;;
   LocalInstance.stop h c)%M.

(** ** Further readings of strings *)

(** [c in s] for a character [c]. *)
Fixpoint has_char (c : ascii) (s : string) : bool :=
  match s with
  | EmptyString => false
  | String x s' => Ascii.eqb x c || has_char c s'
  end.

(** A row of [top] whose command is a single word. *)
Definition one_word_row (row : list string) : Prop :=
  exists columns command,
    row = (columns ++ [command])%list /\ has_char " " command = false.

(** The order of [sorted] on strings. *)
Definition str_le (a b : string) : Prop := String.leb a b = true.

(** ** Further readings of the running containers *)

(** The containers that [_get_running_containers] returns: a listed
    container once for every key of the handler map that occurs in the
    name of its image. *)
Definition running_containers (h : host) (env : environ) (tm : task_map_t)
    : list container :=
  flat_map (fun c =>
              flat_map (fun image =>
                          if substring_in image (config_image c) then [c] else [])
                       (map fst (handlers_of h env tm)))
           (containers_list h).

(** The command found in a container for the tasks of one group, "" when
    there is none. *)
Definition command_in (h : host) (tasks : pydict) (c : container) : string :=
  match LocalInstance.find_command tasks (container_top h c) with
  | Ok (Some command) => command
  | _ => ""
  end.

(** The table that results from giving every container its value. *)
Definition set_commands (f : container -> string) (containers : list container)
    (table : list (container * string)) : list (container * string) :=
  fold_left (fun table c => cset c (f c) table) containers table.

(** The value of the key [k] after [set_commands]. *)
Definition last_command (f : container -> string) (k : container) (v : string)
    (containers : list container) : string :=
  fold_left (fun v c => if String.eqb (id c) (id k) then f c else v) containers v.

Definition other_containers (k : container) (containers : list container)
    : list container :=
  filter (fun c => negb (String.eqb (id c) (id k))) containers.

(** The tasks of a task group. *)
Definition tasks_of (tm : task_map_t) (task_group : string) : pydict :=
  match sget task_group tm with
  | Some tasks => tasks
  | None => []
  end.

(** The loop of [list_running_jobs] over one container. *)
Definition container_step (h : host) (tasks_per_group : pydict)
    (cpc : list (container * string)) (c : container)
    : M (list (container * string)) :=
  (let cpc := cset c "" cpc in
   found <- lift (LocalInstance.find_command tasks_per_group (container_top h c)) ;;
   ret (match found with
        | Some cmd => cset c cmd cpc
        | None => cpc
        end))%M.

(** The loop of [list_running_jobs] over one task group. *)
Definition group_step (h : host) (container_list : list container)
    (cpc : list (container * string)) (task_group : string)
    : M (list (container * string)) :=
  (inst <- get_self ;;
   tasks_per_group <-
     (match sget task_group (task_map inst) with
      | Some tm => ret tm
      | None => raise (KeyError task_group)
      end) ;;
   for_fold (container_step h tasks_per_group) cpc container_list)%M.

(** The processes of every listed container have a command column. *)
Definition rows_have_columns (h : host) : Prop :=
  forall c row, In c (containers_list h) -> In row (container_top h c) -> row <> [].

(** Two task groups, two images whose keys in the handler map are
    "tao:v5" and "tao:v5.0", and one running container of the second. *)
Definition instance_two_groups : instance :=
  new_instance
    [("model",
      [(VStr "train", mkTask (VStr "train") (VStr "tao") (VStr "v5.0")
                             (VStr "nvcr.io") VNone)]);
     ("dataset",
      [(VStr "augment", mkTask (VStr "augment") (VStr "tao") (VStr "v5")
                               (VStr "nvcr.io") VNone)])]
    (Some ["tao"]) "config.json".

Definition state_two_groups : pystate :=
  {| self := instance_two_groups; events := [] |}.

Definition container_train : container :=
  mkContainer "c1" "c1" "running" "nvcr.io/tao:v5.0".

Definition host_training : host :=
  {| repr := fun _ => "";
     path_exists := fun _ => true;
     expanduser := fun p => p;
     realpath := fun p => p;
     read_json := fun _ => Ok (VDict []);
     images_list := [];
     inspect_repo_tags := fun _ => None;
     api_pull := fun _ _ => Ok tt;
     containers_run := fun _ => Raise (APIError "refused");
     containers_list := [container_train];
     containers_get := fun _ => Raise (APIError "refused");
     container_stop := fun _ => Ok tt;
     container_top := fun _ => [["root"; "7"; "python /usr/local/bin/train -e spec.yaml"]];
     ulimit := fun _ v => Ok v;
     check_call := fun _ => Ok tt;
     tabulate := fun data _ => String.concat "|" (map (String.concat ",") data);
     textwrap_fill := fun t => t;
     build_parser := fun _ _ => Ok tt;
     parse_known_args := fun _ _ _ => Ok [];
     is_file := fun _ => true;
     dirname := fun _ => "/pkg";
     utils_file := "/pkg/utils.py" |}.

(** ** Further readings of the handler *)

(** The handler that [__init__] makes for another digest. *)
Definition with_digest (hd : DockerHandler) (docker_digest : value) : DockerHandler :=
  {| _docker_registry := _docker_registry hd;
     _image_name := _image_name hd;
     _docker_tag := _docker_tag hd;
     _docker_digest := docker_digest;
     _docker_mount_file := _docker_mount_file hd;
     docker_exec_command := docker_exec_command hd;
     initialized := initialized hd;
     _container := _container hd |}.

(** A configuration that is a list. *)
Definition host_list_config : host := example_host (fun _ => Ok (VList [])).

Definition env_docker_disable_yes : environ :=
  fun k => if String.eqb k "TAO_DOCKER_DISABLE" then Some "yes" else None.



(** A host of a CI machine: the docker configuration holds the login to
    "nvcr.io", the mounts file binds "/data", no image is held locally. *)
Definition host_ci : host :=
  make_host (fun _ => true)
            (fun path =>
               if String.eqb path "~/.docker/config.json" then Ok docker_config_example
               else Ok (VDict [("Mounts", VList [mount_entry "/data" "/workspace"])]))
            [] (fun _ => Ok tt).

(** * Properties *)

Unset Implicit Arguments.

(** ** Task.from_config and the digest key *)

Lemma forallb_mandatory_digest (ks : list string) :
  existsb (String.eqb "docker_digest") ks = true ->
  forallb (fun key => str_in key TaskM.mandatory_args) ks = false.
Proof.
  induction ks as [|k ks IH]; cbn [existsb forallb]; intro H; [discriminate|].
  destruct (String.eqb "docker_digest" k) eqn:E.
  - apply String.eqb_eq in E. subst k. reflexivity.
  - cbn [orb] in H. rewrite (IH H). apply andb_false_r.
Qed.

Lemma forallb_mandatory_no_digest (ks : list string) :
  forallb (fun key => str_in key TaskM.mandatory_args) ks = true ->
  str_in "docker_digest" ks = false.
Proof.
  intro H. unfold str_in.
  destruct (existsb (String.eqb "docker_digest") ks) eqn:E; [|reflexivity].
  rewrite (forallb_mandatory_digest _ E) in H. discriminate.
Qed.

(** C9: a configuration dictionary that has the key "docker_digest" makes
    [Task.from_config] fail its key assertion, and therefore every Task that
    [from_config] returns has [docker_digest = None]. *)
Theorem from_config_docker_digest (env : environ) :
  (forall d : dict, dict_mem "docker_digest" d = true ->
     TaskM.from_config env (VDict d) = Raise AssertionError) /\
  (forall (config_data : value) (t : Task),
     TaskM.from_config env config_data = Ok t -> docker_digest t = VNone).
Proof.
  split.
  - intros d H. unfold TaskM.from_config. cbn [is_dict py_assert rbind keys].
    unfold dict_mem, str_in in H. rewrite (forallb_mandatory_digest _ H). reflexivity.
  - intros cfg t. unfold TaskM.from_config.
    destruct cfg; cbn [is_dict py_assert rbind keys]; try discriminate.
    destruct (forallb _ (dict_keys d)) eqn:F; cbn [rbind]; [|discriminate].
    unfold getitem.
    repeat match goal with
           | |- context [dict_get ?k d] =>
               destruct (dict_get k d); cbn [rbind]; [|discriminate]
           end.
    cbn [TaskM.optional_args foldM].
    rewrite (forallb_mandatory_no_digest _ F). cbn [rbind].
    intro H. injection H as <-. reflexivity.
Qed.

Lemma from_config_docker_digest_witness :
  TaskM.from_config no_env
    (VDict [("name", VStr "train"); ("docker_image", VStr "img");
            ("docker_tag", VStr "v1"); ("docker_registry", VStr "nvcr.io");
            ("docker_digest", VStr "sha256:0")]) = Raise AssertionError /\
  docker_digest
    (mkTask (VStr "train") (VStr "img") (VStr "v1") (VStr "nvcr.io") VNone) = VNone.
Proof.
  split.
  - apply (proj1 (from_config_docker_digest no_env)). reflexivity.
  - apply (proj2 (from_config_docker_digest no_env)
             (VDict [("name", VStr "train"); ("docker_image", VStr "img");
                     ("docker_tag", VStr "v1"); ("docker_registry", VStr "nvcr.io")])).
    reflexivity.
Defined.

(** ** Lists of strings, dictionaries *)

Lemma str_in_In (k : string) (l : list string) : str_in k l = true <-> In k l.
Proof.
  unfold str_in. rewrite existsb_exists. split.
  - intros [x [Hx E]]. apply String.eqb_eq in E. now subst.
  - intro H. exists k. split; [assumption | apply String.eqb_refl].
Qed.

Lemma str_in_not_In (k : string) (l : list string) : str_in k l = false <-> ~ In k l.
Proof.
  rewrite <- str_in_In. destruct (str_in k l); split; congruence.
Qed.

Lemma sget_mem {V} (k : string) (d : sdict V) (v : V) :
  sget k d = Some v -> str_in k (map fst d) = true.
Proof.
  induction d as [|[k' v'] d IH]; cbn [sget map fst]; [discriminate|].
  unfold str_in. cbn [existsb]. destruct (String.eqb k k'); [reflexivity|].
  intro H. now apply IH.
Qed.

Lemma sget_not_mem {V} (k : string) (d : sdict V) :
  str_in k (map fst d) = false -> sget k d = None.
Proof.
  intro H. destruct (sget k d) eqn:E; [|reflexivity].
  apply sget_mem in E. congruence.
Qed.

Lemma sset_keys {V} (k : string) (v : V) (d : sdict V) :
  map fst (sset k v d) = set_add k (map fst d).
Proof.
  unfold set_add, str_in.
  induction d as [|[k' v'] d IH]; cbn [sset map fst existsb]; [reflexivity|].
  destruct (String.eqb k k'); cbn [map fst orb]; [reflexivity|].
  rewrite IH. destruct (existsb (String.eqb k) (map fst d)); reflexivity.
Qed.

Lemma sget_sset_same {V} (k : string) (v : V) (d : sdict V) :
  sget k (sset k v d) = Some v.
Proof.
  induction d as [|[k' v'] d IH]; cbn [sset sget].
  - now rewrite String.eqb_refl.
  - destruct (String.eqb k k') eqn:E; cbn [sget]; rewrite E; [reflexivity | exact IH].
Qed.

Lemma sget_sset_other {V} (k k0 : string) (v : V) (d : sdict V) :
  k0 <> k -> sget k0 (sset k v d) = sget k0 d.
Proof.
  intro N. induction d as [|[k' v'] d IH]; cbn [sset sget].
  - apply String.eqb_neq in N. now rewrite N.
  - destruct (String.eqb k k') eqn:E; cbn [sget].
    + apply String.eqb_eq in E. subst k'.
      apply String.eqb_neq in N. now rewrite N.
    + now rewrite IH.
Qed.

Lemma set_add_In (k x : string) (l : list string) :
  In x (set_add k l) <-> x = k \/ In x l.
Proof.
  unfold set_add. destruct (str_in k l) eqn:E.
  - apply str_in_In in E. split; [now right | intros [->|H]; assumption].
  - rewrite in_app_iff. cbn [In]. split; [intros [H|[H|[]]] | intros [H|H]]; auto.
Qed.

Lemma fold_set_add_NoDup (ks acc : list string) :
  NoDup (acc ++ ks) ->
  fold_left (fun a k => set_add k a) ks acc = (acc ++ ks)%list.
Proof.
  revert acc. induction ks as [|k ks IH]; intros acc H; cbn [fold_left].
  - now rewrite app_nil_r.
  - assert (E : set_add k acc = (acc ++ [k])%list).
    { unfold set_add. destruct (str_in k acc) eqn:S; [|reflexivity].
      apply str_in_In in S. apply NoDup_remove_2 in H.
      exfalso. apply H. apply in_or_app. now left. }
    rewrite E, IH; rewrite <- app_assoc; [reflexivity | exact H].
Qed.

Lemma fold_set_add_In (ks acc : list string) (x : string) :
  In x (fold_left (fun a k => set_add k a) ks acc) <-> In x acc \/ In x ks.
Proof.
  revert acc. induction ks as [|k ks IH]; intro acc; cbn [fold_left In].
  - tauto.
  - rewrite IH, set_add_In. intuition congruence.
Qed.

(** ** Numbers *)

Lemma num_eqb_unique (v : value) (a b : Z) :
  num_eqb v a = true -> num_eqb v b = true -> a = b.
Proof.
  unfold num_eqb. destruct (as_num v) as [q|]; [|discriminate].
  intros Ha Hb. apply Qeq_bool_iff in Ha, Hb.
  apply inject_Z_injective. now rewrite <- Ha, <- Hb.
Qed.

(** ** The result monad *)

Lemma foldM_raise_at {A B} (f : A -> B -> result A) (l : list B) (x : B) :
  In x l -> (forall a, exists e, f a x = Raise e) ->
  forall a, exists e, foldM f a l = Raise e.
Proof.
  intros Hin Hx. induction l as [|y l IH]; [destruct Hin|].
  intro a. cbn [foldM]. destruct (f a y) as [a'|e] eqn:E.
  - cbn [rbind]. destruct Hin as [->|Hin].
    + destruct (Hx a) as [e' He']. congruence.
    + now apply IH.
  - exists e. reflexivity.
Qed.

(** ** The format version *)

Lemma parse_config_rejects (env : environ) (d : dict) :
  (dict_mem "format_version" d = false ->
   parse_config env (VDict d)
   = Raise (KeyError "format is a required key in the launcher config.")) /\
  (forall v, dict_get "format_version" d = Some v ->
     num_eqb v 1 = false -> num_eqb v 2 = false -> num_eqb v 3 = false ->
     parse_config env (VDict d) = Raise NotImplementedError).
Proof.
  unfold parse_config, dict_mem, dict_get. cbn [keys rbind]. unfold dict_keys.
  split.
  - intros ->. reflexivity.
  - intros v Hv H1 H2 H3.
    rewrite (sget_mem _ _ _ Hv). cbn [negb getitem]. unfold dict_get.
    rewrite Hv. cbn [rbind].
    now rewrite H1, H2, H3.
Qed.


(** C2: a configuration dictionary without "format_version", or whose
    "format_version" is none of 1.0, 2.0 and 3.0, makes
    [parse_launcher_config] (of both instance classes) raise instead of
    returning a task map, and a run of [main] on such a configuration file
    ends with that exception uncaught: no call is made and the exit status
    is 1. *)
Theorem unsupported_format_version_is_fatal (h : host) (env : environ) (d : dict) :
  rejected_version d ->
  exists e,
    (e = KeyError "format is a required key in the launcher config."
     \/ e = NotImplementedError) /\
    LocalInstance.parse_launcher_config env (VDict d) = Raise e /\
    WHLInstance.parse_launcher_config env (VDict d) = Raise e /\
    forall path args,
      get_config_file h "tao" = Ok path ->
      read_json h path = Ok (VDict d) ->
      exists e', main h env args = (Raise e', []) /\ exit_status (Raise e') = 1.
Proof.
  intro R.
  assert (P : exists e,
             (e = KeyError "format is a required key in the launcher config."
              \/ e = NotImplementedError) /\
             parse_config env (VDict d) = Raise e).
  { destruct (parse_config_rejects env d) as [P1 P2].
    destruct R as [R | [v [Hv [H1 [H2 H3]]]]].
    - eexists; split; [left; reflexivity | now apply P1].
    - eexists; split; [right; reflexivity | now apply (P2 v)]. }
  destruct P as [e [He P]]. exists e.
  unfold LocalInstance.parse_launcher_config, WHLInstance.parse_launcher_config.
  repeat split; try assumption.
  intros path args Hp Hr. unfold main. rewrite Hp. cbn [rbind].
  unfold get_launcher.
  destruct (str_in _ ["0"; "1"]); cbn [py_assert rbind];
    [|eexists; split; reflexivity].
  assert (L : exists e', load_config_file h path = Raise e' /\ exit_status (Raise e') = 1
                \/ load_config_file h path = Ok (VDict d)).
  { unfold load_config_file. destruct (path_exists h path); cbn [py_assert rbind].
    - exists e. now right.
    - exists AssertionError. left. split; reflexivity. }
  destruct L as [e' L].
  assert (X : exit_status (Raise e) = 1) by (destruct He as [-> | ->]; reflexivity).
  destruct (String.eqb _ "1");
    unfold WHLInstance.from_config, LocalInstance.from_config,
      WHLInstance.load_config, LocalInstance.load_config,
      WHLInstance.parse_launcher_config, LocalInstance.parse_launcher_config;
    destruct L as [[L E] | L]; rewrite L; cbn [rbind];
    try (exists e'; (split; [reflexivity | exact E]));
    rewrite P; cbn [rbind]; exists e; (split; [reflexivity | exact X]).
Qed.

Lemma unsupported_format_version_is_fatal_witness :
  rejected_version config_v4 /\
  exists e',
    main (example_host (fun _ => Ok (VDict config_v4))) no_env ["list"]
    = (Raise e', []) /\ exit_status (Raise e') = 1.
Proof.
  assert (R : rejected_version config_v4).
  { right. exists (VNum 4). repeat split; reflexivity. }
  split; [exact R|].
  destruct (unsupported_format_version_is_fatal
              (example_host (fun _ => Ok (VDict config_v4))) no_env config_v4 R)
    as [e [_ [_ [_ F]]]].
  apply (F "~/.tao/config.json" ["list"]); reflexivity.
Defined.

(** ** Top-level keys of the task map *)

Lemma group_fold_keys (env : environ) (groups : dict) :
  forall tm0 im0 tm im,
    foldM (group_step_v3 env) (tm0, im0) groups = Ok (tm, im) ->
    map fst tm = fold_left (fun a k => set_add k a) (map fst groups) (map fst tm0).
Proof.
  induction groups as [|[g gd] groups IH]; intros tm0 im0 tm im; cbn [foldM].
  - intro H. injection H as <- _. reflexivity.
  - unfold group_step_v3 at 1. cbn [rbind snd fst map fold_left].
    destruct (getitem gd "dockers") as [dk|]; cbn [rbind]; [|discriminate].
    destruct (items dk) as [its|]; cbn [rbind]; [|discriminate].
    destruct (foldM (image_step_v3 env) ([], im0) its) as [[lm im1]|];
      cbn [rbind fst snd]; [|discriminate].
    intro H. apply IH in H. now rewrite sset_keys in H.
Qed.

(** ** Equality of keys *)

Lemma Qeq_bool_sym (p q : Q) : Qeq_bool p q = Qeq_bool q p.
Proof.
  destruct (Qeq_bool p q) eqn:E, (Qeq_bool q p) eqn:F; try reflexivity.
  - apply Qeq_bool_iff in E. symmetry in E. apply Qeq_bool_iff in E. congruence.
  - apply Qeq_bool_iff in F. symmetry in F. apply Qeq_bool_iff in F. congruence.
Qed.

Lemma Qeq_bool_trans (p q r : Q) :
  Qeq_bool p q = true -> Qeq_bool q r = true -> Qeq_bool p r = true.
Proof.
  rewrite !Qeq_bool_iff. intros H1 H2. now rewrite H1.
Qed.

Lemma key_eqb_sym (a b : value) : key_eqb a b = key_eqb b a.
Proof.
  destruct a, b; cbn [key_eqb as_num]; try reflexivity;
    try apply Qeq_bool_sym; apply String.eqb_sym.
Qed.

Lemma key_eqb_trans (a b c : value) :
  key_eqb a b = true -> key_eqb b c = true -> key_eqb a c = true.
Proof.
  destruct a, b; cbn [key_eqb as_num]; try discriminate;
    destruct c; cbn [key_eqb as_num]; try discriminate; try reflexivity;
    try apply Qeq_bool_trans.
  intros H1 H2. apply String.eqb_eq in H1, H2. subst. apply String.eqb_refl.
Qed.

Lemma key_eqb_congr (q k k' : value) :
  key_eqb k k' = true -> key_eqb q k = key_eqb q k'.
Proof.
  intro H. destruct (key_eqb q k) eqn:E, (key_eqb q k') eqn:F; try reflexivity.
  - rewrite (key_eqb_trans _ _ _ E H) in F. discriminate.
  - rewrite key_eqb_sym in H. rewrite (key_eqb_trans _ _ _ F H) in E. discriminate.
Qed.

(** ** Lookups in the task dictionaries *)

Lemma pd_get_set (q k : value) (t : Task) (d : pydict) :
  pd_get q (pd_set k t d) = if key_eqb q k then Some t else pd_get q d.
Proof.
  induction d as [|[k' t'] d IH]; cbn [pd_set pd_get]; [reflexivity|].
  destruct (key_eqb k k') eqn:E; cbn [pd_get].
  - rewrite (key_eqb_congr q _ _ E). destruct (key_eqb q k'); reflexivity.
  - rewrite IH. destruct (key_eqb q k') eqn:F; [|reflexivity].
    destruct (key_eqb q k) eqn:G; [|reflexivity].
    rewrite key_eqb_sym in G. rewrite (key_eqb_trans _ _ _ G F) in E. discriminate.
Qed.

Lemma pd_get_congr (q k : value) (d : pydict) :
  key_eqb q k = true -> pd_get q d = pd_get k d.
Proof.
  intro H. induction d as [|[k' t'] d IH]; cbn [pd_get]; [reflexivity|].
  rewrite IH. rewrite key_eqb_sym in H.
  rewrite (key_eqb_sym q k'), (key_eqb_sym k k'), (key_eqb_congr k' _ _ H).
  reflexivity.
Qed.

Lemma pd_get_app (q : value) (d1 d2 : pydict) :
  pd_get q (d1 ++ d2)%list = match pd_get q d1 with
                        | Some t => Some t
                        | None => pd_get q d2
                        end.
Proof.
  induction d1 as [|[k t] d1 IH]; cbn [app pd_get]; [reflexivity|].
  destruct (key_eqb q k); [reflexivity | exact IH].
Qed.

Lemma pd_uniq_set (k : value) (t : Task) (d : pydict) :
  pd_uniq d -> pd_uniq (pd_set k t d).
Proof.
  induction d as [|[k' t'] d IH]; cbn [pd_set pd_uniq pd_get].
  - auto.
  - intros [H U]. destruct (key_eqb k k') eqn:E; cbn [pd_uniq].
    + auto.
    + split; [|auto]. rewrite pd_get_set, key_eqb_sym, E. exact H.
Qed.

Lemma pd_uniq_fold (l : list (value * Task)) (d : pydict) :
  pd_uniq d -> pd_uniq (fold_left pset l d).
Proof.
  revert d. induction l as [|kt l IH]; intros d U; cbn [fold_left]; [exact U|].
  apply IH. now apply pd_uniq_set.
Qed.

Lemma pd_get_fold (q : value) (l : list (value * Task)) (d : pydict) :
  pd_get q (fold_left pset l d) = match pd_get q (rev l) with
                                  | Some t => Some t
                                  | None => pd_get q d
                                  end.
Proof.
  revert d. induction l as [|[k t] l IH]; intro d; cbn [fold_left rev]; [reflexivity|].
  rewrite IH, pd_get_app. unfold pset. cbn [fst snd pd_get]. rewrite pd_get_set.
  destruct (pd_get q (rev l)); [reflexivity|].
  destruct (key_eqb q k); reflexivity.
Qed.

Lemma pd_get_update (q : value) (d comp : pydict) :
  pd_uniq comp ->
  pd_get q (update d comp) = match pd_get q comp with
                             | Some t => Some t
                             | None => pd_get q d
                             end.
Proof.
  unfold update. revert d.
  induction comp as [|[k t] comp IH]; intros d U; cbn [fold_left pd_get]; [reflexivity|].
  destruct U as [H U]. rewrite (IH _ U). cbn [fst snd]. rewrite pd_get_set.
  destruct (key_eqb q k) eqn:E; [|reflexivity].
  now rewrite (pd_get_congr _ _ comp E), H.
Qed.

(** Storing a comprehension built from [assigns] into [d]. *)
Lemma pd_get_update_assigns (q : value) (d : pydict) (l : list (value * Task)) :
  pd_get q (update d (fold_left pset l []))
  = match pd_get q (rev l) with
    | Some t => Some t
    | None => pd_get q d
    end.
Proof.
  rewrite pd_get_update by (apply pd_uniq_fold; exact I).
  rewrite pd_get_fold. cbn [pd_get]. destruct (pd_get q (rev l)); reflexivity.
Qed.

(** ** The dict comprehensions *)

Lemma str_list_map (ts : list value) (names : list string) :
  str_list ts = Some names -> ts = map VStr names.
Proof.
  revert names. induction ts as [|v ts IH]; intros names; cbn [str_list].
  - intro H. injection H as <-. reflexivity.
  - destruct v; try discriminate.
    destruct (str_list ts) as [ns|]; cbn [option_map]; [|discriminate].
    intro H. injection H as <-. cbn [map]. now rewrite (IH ns).
Qed.

Lemma sget_of_mem {V} (k : string) (d : sdict V) :
  str_in k (map fst d) = true -> exists v, sget k d = Some v.
Proof.
  intro H. destruct (sget k d) as [v|] eqn:E; [now exists v|].
  induction d as [|[k' v'] d IH]; [discriminate|].
  unfold str_in in H. cbn [map fst existsb sget] in *.
  destruct (String.eqb k k'); [discriminate|]. now apply IH.
Qed.

Lemma digest_lookup (d : dict) :
  (if str_in "docker_digest" (dict_keys d)
   then getitem (VDict d) "docker_digest" else Ok VNone) = Ok (digest_entry d).
Proof.
  unfold digest_entry, getitem, dict_get, dict_keys.
  destruct (str_in "docker_digest" (map fst d)) eqn:E.
  - destruct (sget_of_mem _ _ E) as [v ->]. reflexivity.
  - now rewrite (sget_not_mem _ _ E).
Qed.

Lemma tasks_loop (f : pydict -> value -> result pydict) (mk : string -> Task)
    (names : list string) :
  (forall comp t, f comp (VStr t) = Ok (pd_set (VStr t) (mk t) comp)) ->
  forall acc,
    foldM f acc (map VStr names)
    = Ok (fold_left pset (map (fun t => (VStr t, mk t)) names) acc).
Proof.
  intro Hf. induction names as [|t names IH]; intro acc; cbn [map foldM fold_left].
  - reflexivity.
  - rewrite Hf. cbn [rbind]. apply IH.
Qed.

Lemma comprehension_v1 (env : environ) (image : string) (data : value)
    (ls : list listing) :
  image_listings_v1 image data = Some ls ->
  tasks_comprehension_v1 env image data = Ok (fold_left pset (assigns env ls) []).
Proof.
  unfold image_listings_v1, tasks_comprehension_v1.
  destruct data as [ | | | | |d]; try discriminate.
  unfold getitem.
  destruct (dict_get "tasks" d) as [tv|]; [|discriminate].
  destruct tv as [ | | | |ts| ]; try discriminate.
  destruct (dict_get "docker_tag" d) as [tag|]; [|discriminate].
  destruct (dict_get "docker_registry" d) as [reg|]; [|discriminate].
  destruct (str_list ts) as [names|] eqn:S; cbn [option_map]; [|discriminate].
  intro H. injection H as <-. cbn [rbind iter keys].
  rewrite (str_list_map _ _ S).
  rewrite (tasks_loop _ (fun t => TaskM.init env (VStr t) (VStr image) tag reg
                                    (digest_entry d))).
  - unfold assigns. rewrite map_map. reflexivity.
  - intros comp t. cbn [rbind].
    change (match dict_get "docker_digest" d with
            | Some x => Ok x
            | None => Raise (KeyError "docker_digest")
            end) with (getitem (VDict d) "docker_digest").
    rewrite digest_lookup. reflexivity.
Qed.

Lemma tag_tasks_loop (env : environ) (digest_of : value -> result value)
    (image tag : string) (tag_data : value) (ls : list listing) :
  (forall d, digest_of (VDict d) = Ok (digest_entry d)) ->
  tag_listings image tag tag_data = Some ls ->
  exists ts,
    getitem tag_data "tasks" = Ok (VList ts) /\
    forall acc,
      foldM (fun comp task =>
               registry <- getitem tag_data "docker_registry" ;;
               digest <- digest_of tag_data ;;
               setitem comp task
                 (TaskM.init env task (VStr image) (VStr tag) registry digest))%result
            acc ts
      = Ok (fold_left pset (assigns env ls) acc).
Proof.
  intros Hd. unfold tag_listings.
  destruct tag_data as [ | | | | |d]; try discriminate.
  unfold getitem.
  destruct (dict_get "tasks" d) as [tv|]; [|discriminate].
  destruct tv as [ | | | |ts| ]; try discriminate.
  destruct (dict_get "docker_registry" d) as [reg|]; [|discriminate].
  destruct (str_list ts) as [names|] eqn:S; cbn [option_map]; [|discriminate].
  intro H. injection H as <-. exists ts. split; [reflexivity|].
  intro acc. rewrite (str_list_map _ _ S).
  rewrite (tasks_loop _ (fun t => TaskM.init env (VStr t) (VStr image) (VStr tag) reg
                                    (digest_entry d))).
  - unfold assigns. rewrite map_map. reflexivity.
  - intros comp t. cbn [rbind]. rewrite Hd. reflexivity.
Qed.

Lemma nodupb_NoDup (l : list string) : nodupb l = true -> NoDup l.
Proof.
  induction l as [|x l IH]; cbn [nodupb]; intro H; constructor;
    apply andb_true_iff in H; destruct H as [H1 H2].
  - apply negb_true_iff in H1. now apply str_in_not_In.
  - now apply IH.
Qed.

Lemma sget_NoDup_In {V} (d : sdict V) (k : string) (v : V) :
  NoDup (map fst d) -> In (k, v) d -> sget k d = Some v.
Proof.
  induction d as [|[k' v'] d IH]; cbn [map fst sget In]; intros N H; [destruct H|].
  inversion N as [|? ? Hn N']; subst.
  destruct H as [H|H].
  - injection H as -> ->. now rewrite String.eqb_refl.
  - destruct (String.eqb k k') eqn:E.
    + apply String.eqb_eq in E. subst k'. exfalso. apply Hn.
      apply in_map_iff. now exists (k, v).
    + now apply IH.
Qed.

Lemma fold_left_pset_app (a b : list (value * Task)) (acc : pydict) :
  fold_left pset (a ++ b) acc = fold_left pset b (fold_left pset a acc).
Proof. apply fold_left_app. Qed.

Lemma assigns_app (env : environ) (a b : list listing) :
  assigns env (a ++ b) = (assigns env a ++ assigns env b)%list.
Proof. apply map_app. Qed.

(** The comprehension over the tags of one image, formats 2.0 and 3.0. *)
Lemma comprehension_tags (env : environ) (digest_of : value -> result value)
    (image : string) (image_data : value) (ls : list listing) :
  (forall d, digest_of (VDict d) = Ok (digest_entry d)) ->
  image_listings_tags image image_data = Some ls ->
  tasks_comprehension_tags env digest_of image image_data
  = Ok (fold_left pset (assigns env ls) []).
Proof.
  intros Hd. unfold image_listings_tags, tasks_comprehension_tags.
  destruct image_data as [ | | | | |tags]; try discriminate.
  destruct (nodupb (dict_keys tags)) eqn:N; [|discriminate].
  apply nodupb_NoDup in N. cbn [keys rbind]. unfold dict_keys in *.
  assert (G : forall sub ls' acc,
             (forall k v, In (k, v) sub -> sget k tags = Some v) ->
             concat_map_opt (fun e => tag_listings image (fst e) (snd e)) sub = Some ls' ->
             foldM (fun comp tag =>
                      tag_data <- getitem (VDict tags) tag ;;
                      tasks_v <- getitem tag_data "tasks" ;;
                      tasks <- iter tasks_v ;;
                      foldM (fun comp task =>
                               registry <- getitem tag_data "docker_registry" ;;
                               digest <- digest_of tag_data ;;
                               setitem comp task
                                 (TaskM.init env task (VStr image) (VStr tag)
                                    registry digest))
                            comp tasks)%result
                   acc (map fst sub)
             = Ok (fold_left pset (assigns env ls') acc)).
  { induction sub as [|[tag td] sub IH]; intros ls' acc Hin; cbn [concat_map_opt map fst snd foldM].
    - intro H. injection H as <-. reflexivity.
    - destruct (tag_listings image tag td) as [l1|] eqn:T; [|discriminate].
      destruct (concat_map_opt _ sub) as [l2|] eqn:C; [|discriminate].
      intro H. injection H as <-.
      unfold getitem at 1. unfold dict_get. rewrite (Hin tag td) by now left.
      cbn [rbind].
      destruct (tag_tasks_loop env digest_of image tag td l1 Hd T) as [ts [G1 G2]].
      rewrite G1. cbn [rbind iter]. rewrite G2. cbn [rbind].
      rewrite (IH l2); [|intros; apply Hin; now right | reflexivity].
      now rewrite assigns_app, fold_left_pset_app. }
  intro H. apply G; [|exact H].
  intros k v. now apply sget_NoDup_In.
Qed.

(** ** The loops over images and task groups *)

Lemma foldM_map {A B C} (f : A -> B -> result A) (g : C -> B) (l : list C) (a : A) :
  foldM f a (map g l) = foldM (fun a c => f a (g c)) a l.
Proof.
  revert a. induction l as [|c l IH]; intro a; cbn [map foldM]; [reflexivity|].
  destruct (f a (g c)); cbn [rbind]; [apply IH | reflexivity].
Qed.

Lemma images_loop (env : environ)
    (step : pydict * list string -> string * value -> result (pydict * list string))
    (per_image : string -> value -> option (list listing)) (sub : dict) :
  (forall st e ls, In e sub -> per_image (fst e) (snd e) = Some ls ->
     step st e = Ok (update (fst st) (fold_left pset (assigns env ls) []),
                     set_add (fst e) (snd st))) ->
  forall ls st,
    concat_map_opt (fun e => per_image (fst e) (snd e)) sub = Some ls ->
    exists lm im, foldM step st sub = Ok (lm, im) /\ overlays env ls (fst st) lm.
Proof.
  induction sub as [|e sub IH]; intros Hstep ls st; cbn [concat_map_opt foldM].
  - intro H. injection H as <-. exists (fst st), (snd st). split.
    + now destruct st.
    + intro q. reflexivity.
  - destruct (per_image (fst e) (snd e)) as [l1|] eqn:P1; [|discriminate].
    destruct (concat_map_opt _ sub) as [l2|] eqn:C; [|discriminate].
    intro H. injection H as <-.
    rewrite (Hstep st e l1) by (auto; now left). cbn [rbind].
    destruct (IH (fun st e ls H => Hstep st e ls (or_intror H)) l2
                 (update (fst st) (fold_left pset (assigns env l1) []),
                  set_add (fst e) (snd st)) eq_refl) as [lm [im [F O]]].
    exists lm, im. split; [exact F|].
    intro q. rewrite (O q). cbn [fst]. rewrite pd_get_update_assigns.
    rewrite assigns_app, rev_app_distr, pd_get_app.
    destruct (pd_get q (rev (assigns env l2))); reflexivity.
Qed.

Lemma image_step_v1_ok (env : environ) (ds : dict) (st : pydict * list string)
    (e : string * value) (ls : list listing) :
  NoDup (map fst ds) -> In e ds ->
  image_listings_v1 (fst e) (snd e) = Some ls ->
  image_step_v1 env (VDict ds) st (fst e)
  = Ok (update (fst st) (fold_left pset (assigns env ls) []),
        set_add (fst e) (snd st)).
Proof.
  intros N Hin L. destruct e as [image data]. cbn [fst snd] in *.
  unfold image_step_v1, getitem at 1, dict_get.
  rewrite (sget_NoDup_In _ _ _ N Hin). cbn [rbind].
  rewrite (comprehension_v1 env _ _ _ L).
  unfold image_listings_v1 in L.
  destruct data as [ | | | | |d]; try discriminate.
  cbn [keys rbind].
  destruct (dict_get "tasks" d) as [tv|] eqn:T; [|discriminate].
  unfold dict_get in T. unfold dict_keys. rewrite (sget_mem _ _ _ T).
  reflexivity.
Qed.

Lemma image_is_dict (image : string) (data : value) (ls : list listing) :
  image_listings_tags image data = Some ls -> is_dict data = true.
Proof. destruct data; try discriminate. reflexivity. Qed.

Lemma image_step_v2_ok (env : environ) (ds : dict) (st : pydict * list string)
    (e : string * value) (ls : list listing) :
  NoDup (map fst ds) -> In e ds ->
  image_listings_tags (fst e) (snd e) = Some ls ->
  image_step_v2 env (VDict ds) st (fst e)
  = Ok (update (fst st) (fold_left pset (assigns env ls) []),
        set_add (fst e) (snd st)).
Proof.
  intros N Hin L. destruct e as [image data]. cbn [fst snd] in *.
  unfold image_step_v2, getitem at 1, dict_get.
  rewrite (sget_NoDup_In _ _ _ N Hin). cbn [rbind].
  rewrite (image_is_dict _ _ _ L). cbn [negb].
  rewrite (comprehension_tags env digest_v2 _ _ _ (fun d => digest_lookup d) L).
  reflexivity.
Qed.

Lemma image_step_v3_ok (env : environ) (st : pydict * list string)
    (e : string * value) (ls : list listing) :
  image_listings_tags (fst e) (snd e) = Some ls ->
  image_step_v3 env st e
  = Ok (update (fst st) (fold_left pset (assigns env ls) []),
        set_add (fst e) (snd st)).
Proof.
  intros L. destruct e as [image data]. cbn [fst snd] in *.
  unfold image_step_v3.
  rewrite (image_is_dict _ _ _ L). cbn [negb].
  rewrite (comprehension_tags env digest_v3 _ _ _ (fun d => eq_refl) L).
  reflexivity.
Qed.

(** Formats 1.0 and 2.0: the loop over [config_data["dockers"].keys()]. *)
Lemma dockers_loop (env : environ)
    (step : value -> pydict * list string -> string -> result (pydict * list string))
    (per_image : string -> value -> option (list listing)) (dockers : value)
    (ls : list listing) :
  (forall ds st e ls, NoDup (map fst ds) -> In e ds ->
     per_image (fst e) (snd e) = Some ls ->
     step (VDict ds) st (fst e)
     = Ok (update (fst st) (fold_left pset (assigns env ls) []),
           set_add (fst e) (snd st))) ->
  dockers_listings per_image dockers = Some ls ->
  exists images lm im,
    keys dockers = Ok images /\
    foldM (step dockers) ([], []) images = Ok (lm, im) /\
    forall q, pd_get q lm = pd_get q (rev (assigns env ls)).
Proof.
  intros Hstep. unfold dockers_listings.
  destruct dockers as [ | | | | |ds]; try discriminate.
  destruct (nodupb (dict_keys ds)) eqn:N; [|discriminate].
  apply nodupb_NoDup in N. intro C.
  destruct (images_loop env (fun st e => step (VDict ds) st (fst e)) per_image ds
              (fun st e ls H => Hstep ds st e ls N H) ls ([], []) C)
    as [lm [im [F O]]].
  exists (dict_keys ds), lm, im. split; [reflexivity|]. split.
  - unfold dict_keys. now rewrite foldM_map.
  - intro q. rewrite (O q). cbn [fst pd_get].
    destruct (pd_get q (rev (assigns env ls))); reflexivity.
Qed.

(** Format 3.0: the loop over [config_data["task_group"].items()]. *)
Lemma groups_loop (env : environ) (groups : dict) :
  NoDup (map fst groups) ->
  forall gls tm0 im0,
    groups_listings groups = Some gls ->
    exists tm im,
      foldM (group_step_v3 env) (tm0, im0) groups = Ok (tm, im) /\
      (forall g, ~ In g (map fst groups) -> sget g tm = sget g tm0) /\
      (forall g gl, sget g gls = Some gl ->
         exists lm, sget g tm = Some lm /\
                    forall q, pd_get q lm = pd_get q (rev (assigns env gl))).
Proof.
  induction groups as [|[g0 gd] groups IH]; intros N gls tm0 im0;
    cbn [groups_listings foldM].
  - intro H. injection H as <-. exists tm0, im0.
    repeat split; auto. intros g gl H. discriminate.
  - destruct (group_listings gd) as [l0|] eqn:G; [|discriminate].
    destruct (groups_listings groups) as [r|] eqn:R; [|discriminate].
    intro H. injection H as <-.
    cbn [map fst] in N. inversion N as [|? ? Hn N']; subst.
    unfold group_listings in G.
    destruct gd as [ | | | | |gdict]; try discriminate.
    unfold group_step_v3 at 1, getitem.
    destruct (dict_get "dockers" gdict) as [dockers|]; [|discriminate].
    cbn [rbind snd].
    unfold dockers_listings in G.
    destruct dockers as [ | | | | |ds]; try discriminate.
    destruct (nodupb (dict_keys ds)); [|discriminate].
    cbn [items rbind].
    destruct (images_loop env (image_step_v3 env) image_listings_tags ds
                (fun st e ls _ H => image_step_v3_ok env st e ls H) l0 ([], im0) G)
      as [lm0 [im1 [F O]]].
    rewrite F. cbn [rbind fst snd].
    destruct (IH N' r (sset g0 lm0 tm0) im1 eq_refl) as [tm [im [F' [K P]]]].
    exists tm, im. split; [exact F'|]. split.
    + intros g Hg. cbn [map fst In] in Hg.
      rewrite K by tauto. apply sget_sset_other. intro E. apply Hg. now left.
    + intros g gl. cbn [sget].
      destruct (String.eqb g g0) eqn:E.
      * apply String.eqb_eq in E. subst g0. intro H. injection H as <-.
        exists lm0. split.
        -- rewrite (K g Hn). apply sget_sset_same.
        -- intro q. rewrite (O q). cbn [fst pd_get].
           destruct (pd_get q (rev (assigns env l0))); reflexivity.
      * apply P.
Qed.

(** A valid configuration is parsed, and each group's dictionary binds a key
    to the Task of the last listing that names it. *)
Lemma parse_config_lookup (env : environ) (config_data : value)
    (ls : sdict (list listing)) :
  config_listings config_data = Some ls ->
  exists tm images,
    parse_config env config_data = Ok (tm, images) /\
    forall g gl, sget g ls = Some gl ->
      exists lm, sget g tm = Some lm /\
                 forall q, pd_get q lm = pd_get q (rev (assigns env gl)).
Proof.
  unfold config_listings, parse_config.
  destruct config_data as [ | | | | |c]; try discriminate.
  destruct (dict_get "format_version" c) as [version|] eqn:V; [|discriminate].
  cbn [keys rbind]. unfold dict_get in V. unfold dict_keys.
  rewrite (sget_mem _ _ _ V). cbn [negb]. unfold getitem at 1, dict_get.
  rewrite V. cbn [rbind].
  assert (D : forall step per_image dockers l,
             (forall ds st e ls, NoDup (map fst ds) -> In e ds ->
                per_image (fst e) (snd e) = Some ls ->
                step (VDict ds) st (fst e)
                = Ok (update (fst st) (fold_left pset (assigns env ls) []),
                      set_add (fst e) (snd st))) ->
             dockers_listings per_image dockers = Some l ->
             exists tm images,
               (images <- keys dockers ;;
                r <- foldM (step dockers) ([], []) images ;;
                Ok (sset "container_actions" (fst r) [], snd r))%result
               = Ok (tm, images) /\
               forall g gl, sget g [("container_actions", l)] = Some gl ->
                 exists lm, sget g tm = Some lm /\
                            forall q, pd_get q lm = pd_get q (rev (assigns env gl))).
  { intros step per_image dockers l Hstep L.
    destruct (dockers_loop env step per_image dockers l Hstep L)
      as [images [lm [im [K [F O]]]]].
    exists [("container_actions", lm)], im. rewrite K. cbn [rbind]. rewrite F.
    cbn [rbind fst snd sset]. split; [reflexivity|].
    intros g gl. cbn [sget]. destruct (String.eqb g "container_actions"); [|discriminate].
    intro H. injection H as <-. exists lm. split; [reflexivity | exact O]. }
  destruct (num_eqb version 1).
  { unfold getitem, dict_get. destruct (sget "dockers" c) as [dockers|]; [|discriminate].
    destruct (dockers_listings image_listings_v1 dockers) as [l|] eqn:L;
      cbn [option_map]; [|discriminate].
    intro H. injection H as <-. cbn [rbind].
    apply (D (image_step_v1 env) image_listings_v1 dockers l); [|exact L].
    intros. now apply image_step_v1_ok. }
  destruct (num_eqb version 2).
  { unfold getitem, dict_get. destruct (sget "dockers" c) as [dockers|]; [|discriminate].
    destruct (dockers_listings image_listings_tags dockers) as [l|] eqn:L;
      cbn [option_map]; [|discriminate].
    intro H. injection H as <-. cbn [rbind].
    apply (D (image_step_v2 env) image_listings_tags dockers l); [|exact L].
    intros. now apply image_step_v2_ok. }
  destruct (num_eqb version 3); [|discriminate].
  unfold getitem, dict_get. destruct (sget "task_group" c) as [tg|]; [|discriminate].
  destruct tg as [ | | | | |groups]; try discriminate.
  destruct (nodupb (map fst groups)) eqn:N; [|discriminate].
  apply nodupb_NoDup in N. intro G. cbn [rbind items].
  destruct (groups_loop env groups N ls [] [] G) as [tm [im [F [_ P]]]].
  exists tm, im. split; [exact F | exact P].
Qed.

(** ** Grouping of the task map *)

Lemma pd_get_mem (q : value) (d : pydict) (t : Task) :
  pd_get q d = Some t -> pd_mem q d = true.
Proof.
  unfold pd_mem. induction d as [|[k t'] d IH]; cbn [pd_get map fst existsb];
    [discriminate|].
  destruct (key_eqb q k); [reflexivity | exact IH].
Qed.

Lemma listed_task_assigned (env : environ) (gl : list listing) (L : listing) :
  In L gl -> exists t, pd_get (VStr (l_task L)) (rev (assigns env gl)) = Some t.
Proof.
  induction gl as [|L' gl IH]; intro H; [destruct H|].
  cbn [assigns map rev]. rewrite pd_get_app.
  fold (assigns env gl).
  destruct (pd_get (VStr (l_task L)) (rev (assigns env gl))) as [t|] eqn:E;
    [now exists t|].
  destruct H as [->|H]; [|destruct (IH H) as [t Ht]; congruence].
  cbn [pd_get key_eqb]. rewrite String.eqb_refl. eexists; reflexivity.
Qed.

(** C3: the task map that [parse_launcher_config] returns has one top-level
    key, "container_actions", for format versions 1.0 and 2.0, and for format
    version 3.0 its top-level keys are the keys of the "task_group" section
    of the configuration (the same keys, and in the same order when the
    section has no repeated key, as every Python dict has); in each case
    every task that a valid configuration lists in a group is a key of that
    group's dictionary. *)
Theorem task_map_grouping (env : environ) (config_data : value)
    (tm : task_map_t) (images : list string) (version : value) :
  LocalInstance.parse_launcher_config env config_data = Ok (tm, images) ->
  getitem config_data "format_version" = Ok version ->
  (num_eqb version 1 = true \/ num_eqb version 2 = true ->
   exists lm, tm = [("container_actions", lm)]) /\
  (num_eqb version 3 = true ->
   exists groups,
     getitem config_data "task_group" = Ok (VDict groups) /\
     (forall k, In k (map fst tm) <-> In k (dict_keys groups)) /\
     (NoDup (dict_keys groups) -> map fst tm = dict_keys groups)) /\
  (forall ls g gl L,
     config_listings config_data = Some ls ->
     sget g ls = Some gl -> In L gl ->
     exists lm, sget g tm = Some lm /\ pd_mem (VStr (l_task L)) lm = true).
Proof.
  intros P0 V. split; [|split].
  3:{ intros ls g gl L C Hg HL.
      destruct (parse_config_lookup env config_data ls C) as [tm' [images' [P' K]]].
      unfold LocalInstance.parse_launcher_config in P0. rewrite P0 in P'.
      injection P' as <- <-.
      destruct (K g gl Hg) as [lm [Hlm Q]]. exists lm. split; [exact Hlm|].
      destruct (listed_task_assigned env gl L HL) as [t Ht].
      apply (pd_get_mem _ _ t). now rewrite Q. }
  all: revert P0 V; unfold LocalInstance.parse_launcher_config, parse_config;
    intros P V;
    (destruct (keys config_data) as [ks|]; cbn [rbind] in P; [|discriminate]);
    (destruct (negb (str_in "format_version" ks)); [discriminate|]);
    rewrite V in P; cbn [rbind] in P.
  - intros H12.
    assert (B : exists dockers step,
               (dockers' <- getitem config_data "dockers" ;;
                imgs <- keys dockers' ;;
                r <- foldM (step dockers') ([], []) imgs ;;
                Ok (sset "container_actions" (fst r) [], snd r))%result
               = Ok (tm, images) /\ dockers = tt).
    { destruct (num_eqb version 1).
      - exists tt, (image_step_v1 env). now split.
      - destruct H12 as [H|H]; [discriminate|]. rewrite H in P.
        exists tt, (image_step_v2 env). now split. }
    destruct B as [_ [step [B _]]].
    destruct (getitem config_data "dockers") as [dk|]; cbn [rbind] in B; [|discriminate].
    destruct (keys dk) as [imgs|]; cbn [rbind] in B; [|discriminate].
    destruct (foldM (step dk) ([], []) imgs) as [[lm im]|]; cbn [rbind fst snd] in B;
      [|discriminate].
    injection B as <- _. exists lm. reflexivity.
  - intro H3.
    destruct (num_eqb version 1) eqn:E1.
    { pose proof (num_eqb_unique _ _ _ E1 H3). discriminate. }
    destruct (num_eqb version 2) eqn:E2.
    { pose proof (num_eqb_unique _ _ _ E2 H3). discriminate. }
    rewrite H3 in P.
    destruct (getitem config_data "task_group") as [tg|]; cbn [rbind] in P; [|discriminate].
    destruct tg as [ | | | | |groups]; cbn [items rbind] in P; try discriminate.
    exists groups. split; [reflexivity|].
    apply group_fold_keys in P. cbn [map] in P. rewrite P. unfold dict_keys. split.
    + intro k. rewrite fold_set_add_In. cbn [In]. tauto.
    + intro N. now rewrite fold_set_add_NoDup.
Qed.


Lemma task_map_grouping_witness :
  (exists lm, fst (match LocalInstance.parse_launcher_config no_env config_v2 with
                   | Ok r => r
                   | Raise _ => ([], [])
                   end) = [("container_actions", lm)]) /\
  map fst (fst (match LocalInstance.parse_launcher_config no_env config_v3 with
                | Ok r => r
                | Raise _ => ([], [])
                end)) = ["model"; "dataset"].
Proof.
  split.
  - destruct (LocalInstance.parse_launcher_config no_env config_v2)
      as [[tm images]|] eqn:P; [|discriminate P].
    apply (proj1 (task_map_grouping no_env config_v2 tm images (VNum 2) P eq_refl)).
    right. reflexivity.
  - destruct (LocalInstance.parse_launcher_config no_env config_v3)
      as [[tm images]|] eqn:P; [|discriminate P].
    destruct (proj1 (proj2 (task_map_grouping no_env config_v3 tm images (VNum 3)
                              P eq_refl)) eq_refl) as [groups [G [_ E]]].
    vm_compute in G. injection G as <-. cbn [fst]. rewrite E; [reflexivity|].
    repeat constructor; cbn [In]; intuition discriminate.
Defined.

(** ** The Task selected for a task name *)

Lemma pd_get_none (q : value) (d : pydict) :
  (forall kt, In kt d -> key_eqb q (fst kt) = false) -> pd_get q d = None.
Proof.
  induction d as [|[k t] d IH]; intro H; cbn [pd_get]; [reflexivity|].
  pose proof (H (k, t) (or_introl eq_refl)) as E. cbn [fst] in E. rewrite E.
  apply IH. intros kt Hk. apply H. now right.
Qed.

Lemma last_listing_lookup (env : environ) (pre post : list listing) (L : listing) :
  (forall L', In L' post -> l_task L' <> l_task L) ->
  pd_get (VStr (l_task L)) (rev (assigns env (pre ++ L :: post)))
  = Some (task_of env L).
Proof.
  intro H. rewrite assigns_app, rev_app_distr. cbn [assigns map rev].
  rewrite <- !app_assoc, pd_get_app. rewrite pd_get_none.
  - cbn [app pd_get key_eqb]. now rewrite String.eqb_refl.
  - intros kt Hk. apply in_rev, in_map_iff in Hk. destruct Hk as [L' [<- HL]].
    cbn [fst key_eqb]. apply String.eqb_neq. intro E. now apply (H L' HL).
Qed.

(** C1, amended: a valid configuration of format version 1.0, 2.0 or 3.0 is
    parsed into a task map in which each listed task name is a key of its
    group's dictionary, bound to a Task with that name and with the image and
    the tag of the last listing of the name in the group (its only listing
    when it is listed once); the Task's registry is the value of
    OVERRIDE_REGISTRY when that variable is set, and the registry of that
    listing otherwise. *)
Theorem parse_selects_last_listing (env : environ) (config_data : value) :
  valid_config config_data = true ->
  exists ls tm images,
    config_listings config_data = Some ls /\
    LocalInstance.parse_launcher_config env config_data = Ok (tm, images) /\
    forall g gl pre L post,
      sget g ls = Some gl ->
      gl = (pre ++ L :: post)%list ->
      (forall L', In L' post -> l_task L' <> l_task L) ->
      exists lm t,
        sget g tm = Some lm /\
        pd_get (VStr (l_task L)) lm = Some t /\
        name t = VStr (l_task L) /\
        docker_image t = VStr (l_image L) /\
        docker_tag t = l_tag L /\
        docker_registry t = match OVERRIDE_REGISTRY env with
                            | Some r => VStr r
                            | None => l_registry L
                            end.
Proof.
  unfold valid_config.
  destruct (config_listings config_data) as [ls|] eqn:C; [intros _ | discriminate].
  destruct (parse_config_lookup env config_data ls C) as [tm [images [P K]]].
  exists ls, tm, images. repeat split; try assumption.
  intros g gl pre L post Hg -> Hpost.
  destruct (K g _ Hg) as [lm [Hlm Q]].
  exists lm, (task_of env L). split; [exact Hlm|]. split.
  - rewrite Q. now apply last_listing_lookup.
  - repeat split.
Qed.

Lemma parse_selects_last_listing_witness :
  valid_config config_v1_twice = true /\
  exists tm images lm t,
    LocalInstance.parse_launcher_config env_override config_v1_twice = Ok (tm, images) /\
    sget "container_actions" tm = Some lm /\
    pd_get (VStr "train") lm = Some t /\
    docker_image t = VStr "tao-pyt" /\
    docker_tag t = VStr "v5.1" /\
    docker_registry t = VStr "stg.nvcr.io".
Proof.
  split; [reflexivity|].
  destruct (parse_selects_last_listing env_override config_v1_twice eq_refl)
    as [ls [tm [images [C [P K]]]]].
  vm_compute in C. injection C as <-.
  destruct (K "container_actions" _
              [mkListing "train" "tao-tf" (VStr "v5.0") (VStr "nvcr.io") VNone;
               mkListing "evaluate" "tao-tf" (VStr "v5.0") (VStr "nvcr.io") VNone]
              (mkListing "train" "tao-pyt" (VStr "v5.1") (VStr "nvcr.io") VNone)
              [] eq_refl eq_refl (fun L' H => match H with end))
    as [lm [t [H1 [H2 [_ [H3 [H4 H5]]]]]]].
  exists tm, images, lm, t. repeat split; assumption.
Defined.

(** The claim C1 as it is written fails: with OVERRIDE_REGISTRY set, the
    registry of the Task is not the one of the listing; and a task name
    listed under two images is bound to the second image only. *)
Lemma parse_not_each_listing :
  ~ maps_each_listing env_override config_v1 /\
  ~ maps_each_listing no_env config_v1_twice.
Proof.
  split; intro H.
  - destruct (H _ eq_refl) as [tm [images [P K]]].
    vm_compute in P. injection P as <- <-.
    destruct (K "container_actions" _
                (mkListing "train" "tao-tf" (VStr "v5.0") (VStr "nvcr.io") VNone)
                eq_refl (or_introl eq_refl))
      as [lm [t [H1 [H2 [_ [_ H5]]]]]].
    vm_compute in H1. injection H1 as <-.
    vm_compute in H2. injection H2 as <-.
    discriminate H5.
  - destruct (H _ eq_refl) as [tm [images [P K]]].
    vm_compute in P. injection P as <- <-.
    destruct (K "container_actions" _
                (mkListing "train" "tao-tf" (VStr "v5.0") (VStr "nvcr.io") VNone)
                eq_refl (or_introl eq_refl))
      as [lm [t [H1 [H2 [H3 _]]]]].
    vm_compute in H1. injection H1 as <-.
    vm_compute in H2. injection H2 as <-.
    discriminate H3.
Qed.

(** ** The mounts file *)






(** ** Volume bindings *)

Lemma descriptors_map (h : host) (mounts : list value) (pairs : list (string * string)) :
  descriptors mounts = Some pairs ->
  forall volumes,
    foldM (fun volumes mount =>
             src <- getitem mount "source" ;;
             source_path <- (match src with
                             | VStr p => Ok (realpath h p)
                             | _ => Raise TypeError
                             end) ;;
             dst <- getitem mount "destination" ;;
             destination_path <- (match dst with
                                  | VStr p => Ok (realpath h p)
                                  | _ => Raise TypeError
                                  end) ;;
             Ok (sset source_path
                   {| bind := destination_path; mode := "rw" |} volumes))%result
          volumes mounts
    = Ok (fold_left (bind_mount h) pairs volumes).
Proof.
  revert pairs. induction mounts as [|m mounts IH]; intros pairs; cbn [descriptors].
  - intro H. injection H as <-. reflexivity.
  - destruct (descriptor m) as [[s t]|] eqn:D; [|discriminate].
    destruct (descriptors mounts) as [ps|]; [|discriminate].
    intro H. injection H as <-. intro volumes. cbn [foldM fold_left].
    unfold descriptor in D. destruct m as [ | | | | |d]; try discriminate.
    unfold getitem.
    destruct (dict_get "source" d) as [sv|]; [|discriminate].
    destruct sv; try discriminate.
    destruct (dict_get "destination" d) as [tv|]; [|discriminate].
    destruct tv; try discriminate.
    injection D as -> ->. cbn [rbind]. now apply IH.
Qed.

Lemma Forall_sset {V} (P : string * V -> Prop) (k : string) (v : V) (d : sdict V) :
  (forall k', P (k', v)) -> Forall P d -> Forall P (sset k v d).
Proof.
  intros Hv. induction d as [|[k' v'] d IH]; intro F; cbn [sset].
  - constructor; [apply Hv | constructor].
  - inversion F; subst. destruct (String.eqb k k'); constructor; auto.
Qed.

Lemma bind_mounts_rw (h : host) (pairs : list (string * string)) (volumes : sdict volume) :
  Forall (fun kv => mode (snd kv) = "rw") volumes ->
  Forall (fun kv => mode (snd kv) = "rw") (fold_left (bind_mount h) pairs volumes).
Proof.
  revert volumes. induction pairs as [|p pairs IH]; intros volumes F; cbn [fold_left].
  - exact F.
  - apply IH. unfold bind_mount. apply Forall_sset; [reflexivity | exact F].
Qed.

Lemma bind_mounts_other (h : host) (k : string) (pairs : list (string * string))
    (volumes : sdict volume) :
  (forall p, In p pairs -> realpath h (fst p) <> k) ->
  sget k (fold_left (bind_mount h) pairs volumes) = sget k volumes.
Proof.
  revert volumes. induction pairs as [|p pairs IH]; intros volumes H; cbn [fold_left].
  - reflexivity.
  - rewrite IH by (intros; apply H; now right).
    unfold bind_mount. apply sget_sset_other. intro E. apply (H p); [now left | auto].
Qed.

(** C10, amended: for a list of mount descriptors [formatted_mounts] returns
    a volumes map in which every binding has mode "rw", whatever else the
    descriptors say, and in which the real path of a descriptor's source is
    bound to the real path of its destination when no later descriptor has
    the same source real path (the last descriptor of a source wins). *)
Theorem formatted_mounts_rw (h : host) (mounts : list value)
    (pairs : list (string * string)) :
  descriptors mounts = Some pairs ->
  exists volumes,
    DockerHandlerM.formatted_mounts h (VList mounts) = Ok volumes /\
    Forall (fun kv => mode (snd kv) = "rw") volumes /\
    forall pre s t post,
      pairs = (pre ++ (s, t) :: post)%list ->
      (forall p, In p post -> realpath h (fst p) <> realpath h s) ->
      sget (realpath h s) volumes = Some (rw (realpath h t)).
Proof.
  intro D. exists (fold_left (bind_mount h) pairs []).
  unfold DockerHandlerM.formatted_mounts. cbn [is_list py_assert rbind iter].
  rewrite (descriptors_map h mounts pairs D). split; [reflexivity|]. split.
  - apply bind_mounts_rw. constructor.
  - intros pre s t post -> H.
    rewrite fold_left_app. cbn [fold_left].
    rewrite bind_mounts_other by exact H.
    unfold bind_mount at 1. cbn [fst snd]. apply sget_sset_same.
Qed.

Lemma formatted_mounts_rw_witness :
  descriptors [mount_entry "/data" "/workspace"; mount_entry "/data" "/results"]
  = Some [("/data", "/workspace"); ("/data", "/results")] /\
  exists volumes,
    DockerHandlerM.formatted_mounts host_missing
      (VList [mount_entry "/data" "/workspace"; mount_entry "/data" "/results"])
    = Ok volumes /\
    sget "/data" volumes = Some (rw "/results").
Proof.
  split; [reflexivity|].
  destruct (formatted_mounts_rw host_missing
              [mount_entry "/data" "/workspace"; mount_entry "/data" "/results"]
              _ eq_refl) as [volumes [F [_ B]]].
  exists volumes. split; [exact F|].
  apply (B [("/data", "/workspace")] "/data" "/results" [] eq_refl).
  intros p [].
Defined.

(** The claim C10 as it is written fails for two descriptors with the same
    source: only the second destination is bound. *)
Lemma formatted_mounts_not_every_mount :
  ~ binds_every_mount host_missing
      [mount_entry "/data" "/workspace"; mount_entry "/data" "/results"].
Proof.
  intro H. destruct (H _ eq_refl) as [volumes [F B]].
  vm_compute in F. injection F as <-.
  specialize (B "/data" "/workspace" (or_introl eq_refl)).
  vm_compute in B. discriminate B.
Qed.

(** ** Computations on the state *)

Lemma mbind_run {A B} (m : M A) (k : A -> M B) (st : pystate) :
  mbind m k st = match m st with
                 | (Ok a, st') => k a st'
                 | (Raise e, st') => (Raise e, st')
                 end.
Proof. reflexivity. Qed.

Lemma writes_same {A} (P : event -> Prop) (m : M A) :
  (forall st, snd (m st) = st) -> writes P m.
Proof.
  intros H st. rewrite H. split; [reflexivity|].
  exists []. split; [now rewrite app_nil_r | constructor].
Qed.

Lemma writes_ret {A} (P : event -> Prop) (a : A) : writes P (ret a).
Proof. now apply writes_same. Qed.

Lemma writes_raise {A} (P : event -> Prop) (e : exn) : writes P (@raise A e).
Proof. now apply writes_same. Qed.

Lemma writes_sys_exit {A} (P : event -> Prop) (code : Z) : writes P (@sys_exit A code).
Proof. now apply writes_same. Qed.

Lemma writes_lift {A} (P : event -> Prop) (r : result A) : writes P (lift r).
Proof. now apply writes_same. Qed.

Lemma writes_get_self (P : event -> Prop) : writes P get_self.
Proof. now apply writes_same. Qed.

Lemma writes_emit (P : event -> Prop) (ev : event) : P ev -> writes P (emit ev).
Proof.
  intros H st. split; [reflexivity|]. exists [ev]. split; [reflexivity|].
  now constructor.
Qed.

Lemma writes_bind {A B} (P : event -> Prop) (m : M A) (k : A -> M B) :
  writes P m -> (forall a, writes P (k a)) -> writes P (mbind m k).
Proof.
  intros Wm Wk st. rewrite mbind_run.
  destruct (Wm st) as [S [new [E F]]].
  destruct (m st) as [[a|e] st1]; cbn [snd] in *.
  - destruct (Wk a st1) as [S' [new' [E' F']]]. split; [congruence|].
    exists (new ++ new')%list. split.
    + now rewrite E', E, app_assoc.
    + apply Forall_app. now split.
  - split; [exact S|]. now exists new.
Qed.

Lemma writes_try_except {A} (P : event -> Prop) (body : M A)
    (handler : exn -> option (M A)) :
  writes P body ->
  (forall e hd, handler e = Some hd -> writes P hd) ->
  writes P (try_except body handler).
Proof.
  intros Wb Wh st. unfold try_except.
  destruct (Wb st) as [S [new [E F]]].
  destruct (body st) as [[a|e] st1]; cbn [snd] in *.
  - split; [exact S|]. now exists new.
  - destruct (handler e) as [hd|] eqn:H.
    + destruct (Wh e hd H st1) as [S' [new' [E' F']]]. split; [congruence|].
      exists (new ++ new')%list. split.
      * now rewrite E', E, app_assoc.
      * apply Forall_app. now split.
    + split; [exact S|]. now exists new.
Qed.

Lemma writes_try_finally {A} (P : event -> Prop) (body : M A) (final : M unit) :
  writes P body -> writes P final -> writes P (try_finally body final).
Proof.
  intros Wb Wf st. unfold try_finally.
  destruct (Wb st) as [S [new [E F]]].
  destruct (body st) as [r st1]; cbn [snd] in *.
  destruct (Wf st1) as [S' [new' [E' F']]].
  assert (G : self (snd (final st1)) = self st /\
              exists n, events (snd (final st1)) = (events st ++ n)%list /\ Forall P n).
  { split; [congruence|]. exists (new ++ new')%list. split.
    - now rewrite E', E, app_assoc.
    - apply Forall_app. now split. }
  destruct (final st1) as [[u|e] st2]; exact G.
Qed.

Lemma writes_for_each {B} (P : event -> Prop) (l : list B) (body : B -> M unit) :
  (forall x, writes P (body x)) -> writes P (for_each l body).
Proof.
  intro H. induction l as [|x l IH]; cbn [for_each].
  - apply writes_ret.
  - apply writes_bind; [apply H | intro; exact IH].
Qed.

Lemma writes_for_fold {A B} (P : event -> Prop) (body : A -> B -> M A)
    (l : list B) :
  (forall a x, writes P (body a x)) -> forall a, writes P (for_fold body a l).
Proof.
  intro H. induction l as [|x l IH]; intro a; cbn [for_fold].
  - apply writes_ret.
  - apply writes_bind; [apply H | intro; apply IH].
Qed.

Lemma writes_only_api_error {A} (P : event -> Prop) (recover : string -> M A) :
  (forall explanation, writes P (recover explanation)) ->
  forall e hd, DockerHandlerM.only_api_error recover e = Some hd -> writes P hd.
Proof.
  intros W e hd. destruct e; cbn [DockerHandlerM.only_api_error]; try discriminate.
  intro H. injection H as <-. apply W.
Qed.

Lemma writes_only_assertion_error {A} (P : event -> Prop) (recover : M A) :
  writes P recover ->
  forall e hd, LocalInstance.only_assertion_error recover e = Some hd -> writes P hd.
Proof.
  intros W e hd. destruct e; cbn [LocalInstance.only_assertion_error]; try discriminate.
  intro H. now injection H as <-.
Qed.

(** One step of a proof that a computation only [writes] allowed events. *)
Ltac writes_step :=
  match goal with
  | |- forall e hd, DockerHandlerM.only_api_error _ e = Some hd -> _ =>
      apply writes_only_api_error
  | |- forall e hd, LocalInstance.only_assertion_error _ e = Some hd -> _ =>
      apply writes_only_assertion_error
  | |- forall _, _ => intro
  | |- writes _ (ret _) => apply writes_ret
  | |- writes _ (raise _) => apply writes_raise
  | |- writes _ (sys_exit _) => apply writes_sys_exit
  | |- writes _ (lift _) => apply writes_lift
  | |- writes _ get_self => apply writes_get_self
  | |- writes _ (emit _) => apply writes_emit; exact I
  | |- writes _ (mbind _ _) => apply writes_bind
  | |- writes _ (try_except _ _) => apply writes_try_except
  | |- writes _ (try_finally _ _) => apply writes_try_finally
  | |- writes _ (for_each _ _) => apply writes_for_each
  | |- writes _ (for_fold _ _ _) => apply writes_for_fold
  | |- writes _ (if ?b then _ else _) => destruct b
  | |- writes _ (match ?x with _ => _ end) => destruct x
  | |- writes _ (let (_, _) := ?x in _) => destruct x
  end.

Ltac writes_auto := repeat writes_step.

(** ** The events of the docker handler *)

Section HandlerEvents.

Variable h : host.
Variable P : event -> Prop.
Hypothesis P_print : forall text, P (EvPrint text).
Hypothesis P_exec : forall command, P (EvExec command).
Hypothesis P_stop : forall c, P (EvStop c).

Lemma stop_container_writes (hd : DockerHandler) :
  writes P (DockerHandlerM.stop_container h hd).
Proof.
  unfold DockerHandlerM.stop_container. destruct (_container hd).
  - apply writes_bind; [apply writes_emit, P_stop | intro; apply writes_lift].
  - apply writes_raise.
Qed.

Lemma stop_if_container_writes (hd : DockerHandler) :
  writes P (DockerHandlerM.stop_if_container h hd).
Proof.
  unfold DockerHandlerM.stop_if_container. destruct (_container hd).
  - apply stop_container_writes.
  - apply writes_ret.
Qed.

Lemma on_called_process_error_writes (hd : DockerHandler) :
  forall e m, DockerHandlerM.on_called_process_error h hd e = Some m -> writes P m.
Proof.
  intros e m. destruct e; cbn [DockerHandlerM.on_called_process_error];
    try discriminate.
  intro H. injection H as <-. destruct output as [o|]; [|apply writes_ret].
  apply writes_bind; [apply writes_emit, P_print | intro].
  apply writes_bind; [apply stop_if_container_writes | intro].
  apply writes_sys_exit.
Qed.

Lemma exec_writes (hd : DockerHandler) (command : string) :
  writes P (try_except
              (mbind (emit (EvExec command)) (fun _ => lift (check_call h command)))
              (DockerHandlerM.on_called_process_error h hd)).
Proof.
  apply writes_try_except; [|apply on_called_process_error_writes].
  apply writes_bind; [apply writes_emit, P_exec | intro; apply writes_lift].
Qed.

Lemma exec_and_stop_writes (hd : DockerHandler) (tty : value) (command : string) :
  writes P (DockerHandlerM.exec_and_stop h hd tty command).
Proof.
  unfold DockerHandlerM.exec_and_stop.
  apply writes_bind; [destruct (_container hd); [apply writes_ret | apply writes_raise]|].
  intro cid. apply writes_try_finally;
    [apply exec_writes | apply stop_if_container_writes].
Qed.

Lemma start_container_writes (hd : DockerHandler) (volumes : sdict volume)
    (env_vars : list string) (docker_options : value) :
  (forall c, P (EvStart c)) ->
  writes P (DockerHandlerM.start_container h hd volumes env_vars docker_options).
Proof.
  intro P_start. unfold DockerHandlerM.start_container.
  apply writes_bind; [apply writes_lift | intro docker_args].
  apply writes_try_except.
  - apply writes_bind; [apply writes_lift | intro].
    apply writes_bind; [apply writes_lift | intro].
    apply writes_bind; [apply writes_emit, P_start | intro; apply writes_ret].
  - apply writes_only_api_error. intro explanation.
    apply writes_bind; [apply writes_emit, P_print | intro; apply writes_sys_exit].
Qed.

Lemma start_from_mounts_file_writes (hd : DockerHandler) :
  (forall c, P (EvStart c)) ->
  writes P (DockerHandlerM.start_from_mounts_file h hd).
Proof.
  intro P_start. unfold DockerHandlerM.start_from_mounts_file.
  apply writes_bind; [apply writes_lift | intros [[mount_data env_vars] docker_options]].
  apply writes_bind; [apply writes_lift | intro].
  apply writes_bind; [apply writes_lift | intro].
  apply writes_bind; [apply writes_lift | intro ks].
  apply writes_bind;
    [destruct (str_in "tty" ks); [apply writes_lift | apply writes_ret] | intro].
  apply writes_bind; [now apply start_container_writes | intro; apply writes_ret].
Qed.

Lemma pull_writes (hd : DockerHandler) :
  (forall repository tag, P (EvPull repository tag)) ->
  writes P (DockerHandlerM.pull h hd).
Proof.
  intro P_pull. unfold DockerHandlerM.pull. apply writes_try_except.
  - apply writes_bind; [apply writes_emit, P_print | intro].
    apply writes_bind; [apply writes_emit, P_pull | intro; apply writes_lift].
  - apply writes_only_api_error. intro explanation.
    apply writes_bind; [apply writes_emit, P_print | intro; apply writes_sys_exit].
Qed.

End HandlerEvents.

(** ** The image check and the pull *)

Lemma image_in_list_present (h : host) (hd : DockerHandler) (l : list string) :
  initialized hd = true ->
  DockerHandlerM.image_in_list h hd l
  = Ok (existsb (fun image =>
                   match inspect_repo_tags h image with
                   | Some repo_tags =>
                       str_in (py_str h (_docker_registry hd) ++ "/"
                               ++ py_str h (_image_name hd) ++ ":"
                               ++ py_str h (_docker_tag hd)) repo_tags
                   | None => false
                   end) l).
Proof.
  intro I.
  set (f := fun image : string =>
              match inspect_repo_tags h image with
              | Some repo_tags =>
                  str_in (py_str h (_docker_registry hd) ++ "/"
                          ++ py_str h (_image_name hd) ++ ":"
                          ++ py_str h (_docker_tag hd)) repo_tags
              | None => false
              end).
  induction l as [|image l IH]; cbn [DockerHandlerM.image_in_list].
  - reflexivity.
  - change (existsb f (image :: l)) with (f image || existsb f l).
    unfold f at 1.
    destruct (inspect_repo_tags h image) as [[|t ts]|]; try exact IH.
    unfold DockerHandlerM.docker_image_name. rewrite I. cbn [negb rbind].
    destruct (str_in _ (t :: ts)); [reflexivity | exact IH].
Qed.

Lemma no_pull_in (new : list event) (repository : string) (tag : value) :
  Forall no_pull new -> ~ In (EvPull repository tag) new.
Proof.
  intros F H. rewrite Forall_forall in F. exact (F _ H).
Qed.

Lemma pull_trace (h : host) (hd : DockerHandler) (st : pystate) :
  exists rest,
    events (snd (DockerHandlerM.pull h hd st))
    = (events st
       ++ EvPrint ("Pulling from repository: "
                   ++ py_str h (_docker_registry hd) ++ "/" ++ py_str h (_image_name hd))
       :: EvPull (py_str h (_docker_registry hd) ++ "/" ++ py_str h (_image_name hd))
                 (_docker_tag hd)
       :: rest)%list /\
    Forall no_pull rest.
Proof.
  unfold DockerHandlerM.pull, try_except, mbind, emit, lift. cbn [events self].
  destruct (api_pull h _ (_docker_tag hd)) as [u|e]; cbn [events snd].
  - exists []. rewrite <- app_assoc. split; [reflexivity | constructor].
  - destruct e; cbn [DockerHandlerM.only_api_error events snd];
      try (exists []; rewrite <- app_assoc; split; [reflexivity | constructor]).
    unfold sys_exit, raise. cbn [events snd].
    eexists [EvPrint _]. rewrite <- !app_assoc. split; [reflexivity|].
    repeat constructor.
Qed.

Lemma run_container_pulls (h : host) (hd : DockerHandler) (task_command : string)
    (st : pystate) :
  initialized hd = true ->
  exists new,
    events (snd (DockerHandlerM.run_container h hd task_command st))
    = (events st ++ new)%list /\
    if image_present h hd then Forall no_pull new
    else exists rest,
        new = EvPrint ("Pulling from repository: " ++ py_str h (_docker_registry hd)
                       ++ "/" ++ py_str h (_image_name hd))
              :: EvPull (py_str h (_docker_registry hd) ++ "/"
                         ++ py_str h (_image_name hd)) (_docker_tag hd)
              :: rest /\
        Forall no_pull rest.
Proof.
  intro I. unfold DockerHandlerM.run_container.
  rewrite mbind_run. unfold lift at 1, DockerHandlerM._check_image_exists.
  rewrite (image_in_list_present h hd _ I). fold (image_present h hd).
  rewrite mbind_run.
  assert (R : forall st1, exists new,
             events (snd (mbind (DockerHandlerM.start_from_mounts_file h hd)
                            (fun started =>
                               DockerHandlerM.exec_and_stop h (fst started)
                                 (snd started) task_command) st1))
             = (events st1 ++ new)%list /\ Forall no_pull new).
  { assert (W : writes no_pull
                  (mbind (DockerHandlerM.start_from_mounts_file h hd)
                     (fun started =>
                        DockerHandlerM.exec_and_stop h (fst started)
                          (snd started) task_command))).
    { apply writes_bind.
      - apply start_from_mounts_file_writes; intros; exact Logic.I.
      - intro. apply exec_and_stop_writes; intros; exact Logic.I. }
    intro st1. exact (proj2 (W st1)). }
  destruct (image_present h hd); cbn [negb].
  - cbn [ret]. exact (R st).
  - destruct (pull_trace h hd st) as [rest [E1 F1]].
    destruct (DockerHandlerM.pull h hd st) as [[u|e] st1]; cbn [snd] in *.
    + destruct (R st1) as [new2 [E2 F2]].
      eexists. split.
      * rewrite E2, E1, <- app_assoc. cbn [app]. reflexivity.
      * exists (rest ++ new2)%list. split; [reflexivity|].
        apply Forall_app. now split.
    + eexists. split; [exact E1|]. exists rest. now split.
Qed.

(** C6: [run_container] calls the registry ([APIClient.pull]) for the
    repository "registry/name" and the tag of the handler exactly when the
    image "registry/name:tag" is not among the repository tags of the local
    image list at the time of the call, and it makes no other pull; when the
    image is absent the pull is made before any container is started, and
    when it is present the run makes no pull at all. *)
Theorem pull_iff_image_absent (h : host) (hd : DockerHandler)
    (task_command : string) (st : pystate) :
  initialized hd = true ->
  exists new,
    events (snd (DockerHandlerM.run_container h hd task_command st))
    = (events st ++ new)%list /\
    (In (EvPull (py_str h (_docker_registry hd) ++ "/" ++ py_str h (_image_name hd))
                (_docker_tag hd)) new
     <-> image_present h hd = false) /\
    (forall repository tag,
       In (EvPull repository tag) new ->
       repository = py_str h (_docker_registry hd) ++ "/" ++ py_str h (_image_name hd) /\
       tag = _docker_tag hd) /\
    (forall pre c post,
       new = (pre ++ EvStart c :: post)%list ->
       image_present h hd = false ->
       In (EvPull (py_str h (_docker_registry hd) ++ "/" ++ py_str h (_image_name hd))
                  (_docker_tag hd)) pre).
Proof.
  intro I. destruct (run_container_pulls h hd task_command st I) as [new [E S]].
  exists new. split; [exact E|].
  destruct (image_present h hd).
  - split; [|split].
    + split; [|discriminate]. intro H. exfalso. exact (no_pull_in _ _ _ S H).
    + intros repository tag H. exfalso. exact (no_pull_in _ _ _ S H).
    + discriminate.
  - destruct S as [rest [-> F]]. split; [|split].
    + split; [reflexivity|]. intros _. right. now left.
    + intros repository tag [H|[H|H]].
      * discriminate H.
      * injection H as <- <-. now split.
      * exfalso. exact (no_pull_in _ _ _ F H).
    + intros pre c post H _. destruct pre as [|x [|y pre]]; cbn [app] in H.
      * discriminate H.
      * injection H as _ H. discriminate H.
      * injection H as _ <- _. right. now left.
Qed.

Lemma pull_iff_image_absent_witness :
  (initialized (handler_example (host_run false (Ok tt))) = true /\
   exists new,
     events (snd (DockerHandlerM.run_container (host_run false (Ok tt))
                    (handler_example (host_run false (Ok tt))) "train" state0))
     = new /\
     In (EvPull "nvcr.io/nvidia/tao/tao-toolkit" (VStr "5.0.0-tf1.15.5")) new) /\
  (forall repository tag,
     ~ In (EvPull repository tag)
          (events (snd (DockerHandlerM.run_container (host_run true (Ok tt))
                          (handler_example (host_run true (Ok tt))) "train" state0)))).
Proof.
  split.
  - split; [reflexivity|].
    destruct (pull_iff_image_absent (host_run false (Ok tt))
                (handler_example (host_run false (Ok tt))) "train" state0 eq_refl)
      as [new [E [[_ A] _]]].
    exists new. split; [exact E|]. exact (A eq_refl).
  - intros repository tag H.
    destruct (pull_iff_image_absent (host_run true (Ok tt))
                (handler_example (host_run true (Ok tt))) "train" state0 eq_refl)
      as [new [E [[A _] [U _]]]].
    cbn [state0 events app] in E. rewrite E in H.
    destruct (U repository tag H) as [-> ->].
    assert (X : image_present (host_run true (Ok tt))
                  (handler_example (host_run true (Ok tt))) = false)
      by exact (A H).
    vm_compute in X. discriminate X.
Defined.

(** ** Start and stop of the container *)






(** ** The instance is only read *)

Section InstanceEvents.

Variable h : host.
Variable env : environ.

Lemma run_container_writes (hd : DockerHandler) (command : string) :
  writes any_event (DockerHandlerM.run_container h hd command).
Proof.
  unfold DockerHandlerM.run_container.
  apply writes_bind; [apply writes_lift | intro present].
  apply writes_bind.
  - destruct (negb present); [|apply writes_ret].
    apply pull_writes; intros; exact I.
  - intros _. apply writes_bind.
    + apply start_from_mounts_file_writes; intros; exact I.
    + intro. apply exec_and_stop_writes; intros; exact I.
Qed.

Lemma run_container_on_ci_writes (hd : DockerHandler) (command : string) :
  writes any_event (DockerHandlerM.run_container_on_ci h hd command).
Proof.
  unfold DockerHandlerM.run_container_on_ci.
  apply writes_bind; [apply writes_lift | intro present].
  apply writes_bind.
  - destruct (negb present); [|apply writes_ret].
    apply pull_writes; intros; exact I.
  - intros _.
    apply writes_bind; [apply writes_lift | intros [[mount_data env_vars] docker_options]].
    apply writes_bind; [apply writes_lift | intro].
    apply writes_bind; [apply writes_lift | intro].
    apply writes_bind; [apply writes_lift | intro].
    apply writes_bind; [apply writes_lift | intro].
    apply exec_writes; intros; exact I.
Qed.

Lemma handler_map_writes : writes any_event (LocalInstance.handler_map h env).
Proof. unfold LocalInstance.handler_map. writes_auto. Qed.

Lemma docker_client_writes : writes any_event (LocalInstance._docker_client h env).
Proof.
  unfold LocalInstance._docker_client.
  apply writes_bind; [apply handler_map_writes | writes_auto].
Qed.

Lemma get_running_containers_writes :
  writes any_event (LocalInstance._get_running_containers h env).
Proof.
  unfold LocalInstance._get_running_containers.
  apply writes_bind; [apply handler_map_writes | intro].
  apply writes_bind; [apply writes_lift | intro].
  apply writes_bind; [apply docker_client_writes | intro].
  apply writes_for_fold. intros acc c.
  apply writes_bind; [apply handler_map_writes | intro; apply writes_ret].
Qed.

Lemma stop_writes (c : container) : writes any_event (LocalInstance.stop h c).
Proof. unfold LocalInstance.stop. writes_auto. Qed.

Lemma kill_containers_writes (container_ids kill_all : value) :
  writes any_event (LocalInstance.kill_containers h env container_ids kill_all).
Proof.
  unfold LocalInstance.kill_containers. destruct (truthy kill_all).
  - apply writes_bind; [apply get_running_containers_writes | intro].
    apply writes_for_each. apply stop_writes.
  - destruct container_ids; try (apply writes_emit; exact I).
    apply writes_for_each. intro idx.
    apply writes_bind; [apply docker_client_writes | intro].
    apply writes_bind; [apply writes_lift | apply stop_writes].
Qed.

Lemma list_running_jobs_writes :
  writes any_event (LocalInstance.list_running_jobs h env).
Proof.
  unfold LocalInstance.list_running_jobs.
  apply writes_bind; [apply get_running_containers_writes | intro].
  unfold LocalInstance.pretty_print. writes_auto.
Qed.

Lemma print_information_writes (verbose : value) :
  writes any_event (LocalInstance.print_information h verbose).
Proof. unfold LocalInstance.print_information. writes_auto. Qed.

Lemma local_launch_command_writes (task_group : string) (task : value)
    (args : pyargs) :
  writes any_event (LocalInstance.launch_command h env task_group task args).
Proof.
  unfold LocalInstance.launch_command.
  apply writes_bind; [apply writes_get_self | intro inst].
  destruct (str_in task_group (map fst (task_map inst))).
  - destruct (sget task_group (task_map inst)) as [tm|]; [|apply writes_raise].
    destruct (pd_mem task tm); [|apply writes_ret].
    destruct args as [tokens|ns]; [|apply writes_raise].
    destruct (pd_get task tm) as [t|]; [|apply writes_raise].
    apply writes_bind; [apply writes_lift | intro].
    apply writes_bind; [apply handler_map_writes | intro hm].
    destruct (sget _ hm) as [docker_handler|]; [|apply writes_raise].
    apply writes_bind; [apply writes_lift | intro].
    destruct (env "CI_PROJECT_DIR");
      [apply run_container_on_ci_writes | apply run_container_writes].
  - apply writes_bind; [apply writes_lift | intro].
    destruct args as [tokens|ns]; [apply writes_raise|].
    destruct (String.eqb task_group "list"); [apply list_running_jobs_writes|].
    destruct (String.eqb task_group "stop").
    { apply writes_bind; [apply writes_lift | intro].
      apply writes_bind; [apply writes_lift | intro].
      apply kill_containers_writes. }
    destruct (String.eqb task_group "info"); [|apply writes_raise].
    apply writes_bind; [apply writes_lift | intro].
    apply writes_bind; [apply print_information_writes | intro; apply writes_ret].
Qed.

Lemma whl_launch_command_writes (task_group : string) (task : value)
    (args : pyargs) :
  writes any_event (WHLInstance.launch_command h task_group task args).
Proof.
  unfold WHLInstance.launch_command.
  apply writes_bind; [apply writes_get_self | intro inst].
  destruct (str_in task_group (map fst (task_map inst))); [|apply writes_raise].
  destruct (sget task_group (task_map inst)) as [tm|]; [|apply writes_raise].
  destruct (pd_mem task tm); [|apply writes_raise].
  destruct args as [[|arg0 rest]|ns]; try apply writes_raise.
  apply writes_try_except.
  - writes_auto.
  - intros e m. destruct e; cbn [WHLInstance.on_called_process_error];
      try discriminate.
    intro H. injection H as <-. destruct output; writes_auto.
Qed.

End InstanceEvents.

(** C7: no operation of a launcher instance changes the instance: after
    [launch_command] (of either class), [list_running_jobs],
    [kill_containers] and [print_information] the instance, hence its
    [task_map] and every field of every Task in it, is what it was before. *)
Theorem instance_is_not_mutated (h : host) (env : environ) (st : pystate) :
  (forall task_group task args,
     self (snd (LocalInstance.launch_command h env task_group task args st)) = self st) /\
  self (snd (LocalInstance.list_running_jobs h env st)) = self st /\
  (forall container_ids kill_all,
     self (snd (LocalInstance.kill_containers h env container_ids kill_all st))
     = self st) /\
  (forall verbose,
     self (snd (LocalInstance.print_information h verbose st)) = self st) /\
  (forall task_group task args,
     self (snd (WHLInstance.launch_command h task_group task args st)) = self st).
Proof.
  repeat split; intros.
  - apply local_launch_command_writes.
  - apply list_running_jobs_writes.
  - apply kill_containers_writes.
  - apply print_information_writes.
  - apply whl_launch_command_writes.
Qed.

(** ** The built-in task groups *)

Lemma get_launcher_instance (h : host) (env : environ) (file : string)
    (kind : launcher_kind) (inst : instance) (supported : list string) :
  get_launcher h env file = Ok (kind, inst, supported) ->
  instance_handler_tasks inst = INSTANCE_HANDLER_TASKS /\
  match kind with
  | LocalKind =>
      (env "TAO_DOCKER_DISABLE" = None \/ env "TAO_DOCKER_DISABLE" = Some "0") /\
      supported = (CLI_TASKS ++ dl_tasks inst)%list
  | WHLKind => env "TAO_DOCKER_DISABLE" = Some "1"
  end.
Proof.
  unfold get_launcher.
  set (disable := match env "TAO_DOCKER_DISABLE" with Some v => v | None => "0" end).
  assert (D : (env "TAO_DOCKER_DISABLE" = None \/ env "TAO_DOCKER_DISABLE" = Some disable)).
  { unfold disable. destruct (env "TAO_DOCKER_DISABLE"); auto. }
  destruct (str_in disable ["0"; "1"]) eqn:V; cbn [py_assert rbind]; [|discriminate].
  destruct (String.eqb disable "1") eqn:E.
  - apply String.eqb_eq in E.
    unfold WHLInstance.from_config.
    destruct (WHLInstance.load_config h file); cbn [rbind]; [|discriminate].
    destruct (WHLInstance.parse_launcher_config env a); cbn [rbind]; [|discriminate].
    intro H. injection H as <- <- <-. split; [reflexivity|].
    destruct D as [D|D]; [|now rewrite <- E].
    unfold disable in E. rewrite D in E. discriminate E.
  - unfold LocalInstance.from_config.
    destruct (LocalInstance.load_config h file); cbn [rbind]; [|discriminate].
    destruct (LocalInstance.parse_launcher_config env a); cbn [rbind]; [|discriminate].
    intro H. injection H as <- <- <-. split; [reflexivity|]. split; [|reflexivity].
    destruct D as [D|D]; [now left | right].
    rewrite D. f_equal.
    apply str_in_In in V. destruct V as [V|[V|[]]]; [now symmetry|].
    rewrite <- V, String.eqb_refl in E. discriminate E.
Qed.

(** C8, amended: the instance that [get_launcher] returns in docker mode
    (TAO_DOCKER_DISABLE unset or "0") has "list", "stop" and "info" among its
    supported tasks, and its [launch_command] with one of these groups that
    is not also a task group of the configuration, given the parsed
    Namespace of the group, is the built-in operation
    ([list_running_jobs], [kill_containers] with [container_id] and [all],
    [print_information] with [verbose]); the instance returned in wheel mode
    (TAO_DOCKER_DISABLE "1") has no built-in group: for such a group its
    [launch_command] raises NotImplementedError. *)
Theorem builtin_groups_by_mode (h : host) (env : environ) (file : string)
    (kind : launcher_kind) (inst : instance) (supported : list string)
    (st : pystate) (task : value) (ns : sdict value) :
  get_launcher h env file = Ok (kind, inst, supported) ->
  self st = inst ->
  match kind with
  | LocalKind =>
      (env "TAO_DOCKER_DISABLE" = None \/ env "TAO_DOCKER_DISABLE" = Some "0") /\
      (forall g, In g ["list"; "stop"; "info"] -> In g supported) /\
      (str_in "list" (map fst (task_map inst)) = false ->
       launch_command h env LocalKind "list" task (ArgNamespace ns) st
       = LocalInstance.list_running_jobs h env st) /\
      (str_in "stop" (map fst (task_map inst)) = false ->
       forall ids all,
         sget "container_id" ns = Some ids -> sget "all" ns = Some all ->
         launch_command h env LocalKind "stop" task (ArgNamespace ns) st
         = LocalInstance.kill_containers h env ids all st) /\
      (str_in "info" (map fst (task_map inst)) = false ->
       forall verbose,
         sget "verbose" ns = Some verbose ->
         launch_command h env LocalKind "info" task (ArgNamespace ns) st
         = mbind (LocalInstance.print_information h verbose) (fun _ => ret tt) st)
  | WHLKind =>
      env "TAO_DOCKER_DISABLE" = Some "1" /\
      forall g args,
        In g ["list"; "stop"; "info"] ->
        str_in g (map fst (task_map inst)) = false ->
        launch_command h env WHLKind g task args st = (Raise NotImplementedError, st)
  end.
Proof.
  intros G S. destruct (get_launcher_instance h env file kind inst supported G) as [T K].
  destruct kind.
  - destruct K as [K ->]. split; [exact K|]. split.
    { intros g Hg. apply in_or_app. now left. }
    unfold launch_command, LocalInstance.launch_command.
    rewrite !mbind_run. cbn [get_self]. rewrite S, T.
    repeat split.
    + intros ->. rewrite mbind_run. reflexivity.
    + intros -> ids all Hi Ha. rewrite mbind_run.
      change (lift (py_assert (str_in "stop" INSTANCE_HANDLER_TASKS)) st)
        with (Ok tt, st).
      change ("stop" =? "list") with false. change ("stop" =? "stop") with true.
      cbv iota. rewrite !mbind_run. unfold lift at 1, getattr at 1.
      rewrite Hi. rewrite mbind_run. unfold lift at 1, getattr at 1.
      rewrite Ha. reflexivity.
    + intros -> verbose Hv. rewrite mbind_run.
      change (lift (py_assert (str_in "info" INSTANCE_HANDLER_TASKS)) st)
        with (Ok tt, st).
      change ("info" =? "list") with false. change ("info" =? "stop") with false.
      change ("info" =? "info") with true.
      cbv iota. rewrite !mbind_run. unfold lift at 1, getattr at 1.
      rewrite Hv. reflexivity.
  - split; [exact K|]. intros g args _ N.
    unfold launch_command, WHLInstance.launch_command.
    rewrite mbind_run. cbn [get_self]. rewrite S, N. reflexivity.
Qed.

Lemma builtin_groups_by_mode_witness :
  (exists inst supported,
     get_launcher (example_host (fun _ => Ok config_v1)) no_env "config.json"
     = Ok (LocalKind, inst, supported) /\
     In "list" supported /\
     launch_command (example_host (fun _ => Ok config_v1)) no_env LocalKind "list"
       VNone (ArgNamespace []) {| self := inst; events := [] |}
     = LocalInstance.list_running_jobs (example_host (fun _ => Ok config_v1)) no_env
         {| self := inst; events := [] |}) /\
  (exists inst supported,
     get_launcher (example_host (fun _ => Ok config_v1)) env_whl "config.json"
     = Ok (WHLKind, inst, supported) /\
     fst (launch_command (example_host (fun _ => Ok config_v1)) env_whl WHLKind "list"
            VNone (ArgNamespace []) {| self := inst; events := [] |})
     = Raise NotImplementedError).
Proof.
  split.
  - destruct (get_launcher (example_host (fun _ => Ok config_v1)) no_env "config.json")
      as [[[kind inst] supported]|] eqn:G; [|discriminate G].
    assert (kind = LocalKind) by (vm_compute in G; now injection G as <- _ _).
    subst kind. exists inst, supported. split; [reflexivity|].
    destruct (builtin_groups_by_mode (example_host (fun _ => Ok config_v1)) no_env
                "config.json" LocalKind inst supported
                {| self := inst; events := [] |} VNone [] G eq_refl)
      as [_ [Hs [Hl _]]].
    split; [apply Hs; now left|]. apply Hl.
    vm_compute in G. injection G as <- _. reflexivity.
  - destruct (get_launcher (example_host (fun _ => Ok config_v1)) env_whl "config.json")
      as [[[kind inst] supported]|] eqn:G; [|discriminate G].
    assert (kind = WHLKind) by (vm_compute in G; now injection G as <- _ _).
    subst kind. exists inst, supported. split; [reflexivity|].
    destruct (builtin_groups_by_mode (example_host (fun _ => Ok config_v1)) env_whl
                "config.json" WHLKind inst supported
                {| self := inst; events := [] |} VNone [] G eq_refl)
      as [_ Hw].
    rewrite (Hw "list" (ArgNamespace []) (or_introl eq_refl)); [reflexivity|].
    vm_compute in G. injection G as <- _. reflexivity.
Defined.

(** The claim C8 as it is written fails for the instance that [get_launcher]
    returns in wheel mode: "list" is refused, nothing is printed. *)
Lemma whl_instance_refuses_builtin_groups :
  ~ dispatches_builtin_groups (example_host (fun _ => Ok config_v1)) env_whl
      "config.json".
Proof.
  intro H.
  destruct (get_launcher (example_host (fun _ => Ok config_v1)) env_whl "config.json")
    as [[[kind inst] supported]|] eqn:G; [|discriminate G].
  destruct (H kind inst supported G VNone [] {| self := inst; events := [] |} eq_refl)
    as [L _].
  vm_compute in G. injection G as <- <- _.
  vm_compute in L. discriminate L.
Qed.

(** * Further properties *)

(** ** Malformed images *)

Lemma rbind_raise {A B} (r : result A) (k : A -> result B) :
  (exists e, r = Raise e) -> exists e, rbind r k = Raise e.
Proof. intros [e ->]. now exists e. Qed.

Lemma parse_config_dispatch (env : environ) (c : dict) (version : value) :
  dict_get "format_version" c = Some version ->
  parse_config env (VDict c)
  = (if num_eqb version 1 then
       dockers <- getitem (VDict c) "dockers" ;;
       images <- keys dockers ;;
       r <- foldM (image_step_v1 env dockers) ([], []) images ;;
       Ok (sset "container_actions" (fst r) [], snd r)
     else if num_eqb version 2 then
       dockers <- getitem (VDict c) "dockers" ;;
       images <- keys dockers ;;
       r <- foldM (image_step_v2 env dockers) ([], []) images ;;
       Ok (sset "container_actions" (fst r) [], snd r)
     else if num_eqb version 3 then
       task_group <- getitem (VDict c) "task_group" ;;
       groups <- items task_group ;;
       foldM (group_step_v3 env) ([], []) groups
     else Raise NotImplementedError)%result.
Proof.
  unfold dict_get. intro V. unfold parse_config. cbn [keys rbind].
  unfold dict_keys at 1. rewrite (sget_mem _ _ _ V). cbn [negb].
  unfold getitem at 1, dict_get. rewrite V. reflexivity.
Qed.

(** X1: in a format 1.0 configuration, an image whose data is a dictionary
    without the key "tasks" makes [parse_launcher_config] raise; the
    exception is NotImplementedError when that image is the first one. *)
Theorem v1_image_without_tasks (env : environ) (c ds d : dict)
    (version : value) (image : string) :
  dict_get "format_version" c = Some version ->
  num_eqb version 1 = true ->
  dict_get "dockers" c = Some (VDict ds) ->
  dict_get image ds = Some (VDict d) ->
  dict_mem "tasks" d = false ->
  (exists e, LocalInstance.parse_launcher_config env (VDict c) = Raise e) /\
  (forall rest, ds = (image, VDict d) :: rest ->
     LocalInstance.parse_launcher_config env (VDict c) = Raise NotImplementedError).
Proof.
  intros V V1 D I T.
  assert (S : forall st, image_step_v1 env (VDict ds) st image
                         = Raise NotImplementedError).
  { intro st. unfold image_step_v1, getitem. rewrite I.
    cbn [rbind keys]. unfold dict_mem in T. now rewrite T. }
  unfold LocalInstance.parse_launcher_config.
  rewrite (parse_config_dispatch env c version V), V1.
  unfold getitem. rewrite D. cbn [rbind keys]. split.
  - apply rbind_raise. apply (foldM_raise_at _ _ image).
    + apply str_in_In. exact (sget_mem _ _ _ I).
    + intro st. exists NotImplementedError. apply S.
  - intros rest E. rewrite E at 2. cbn [dict_keys map fst foldM]. now rewrite S.
Qed.

Lemma v1_image_without_tasks_witness :
  exists e,
    LocalInstance.parse_launcher_config no_env (VDict config_v1_no_tasks) = Raise e.
Proof.
  exact (proj1 (v1_image_without_tasks no_env config_v1_no_tasks
                  [("tao-tf", image_entry_v1 ["train"] "v5.0");
                   ("tao-pyt", VDict [("docker_tag", VStr "v5.1")])]
                  [("docker_tag", VStr "v5.1")] (VNum 1) "tao-pyt"
                  eq_refl eq_refl eq_refl eq_refl eq_refl)).
Defined.

(** X2: in a format 2.0 or 3.0 configuration, an image whose data is not a
    dictionary makes [parse_launcher_config] raise (ValueError, unless an
    earlier image or group already failed). *)
Theorem image_data_not_a_dict (env : environ) (c : dict) (version : value)
    (image : string) (data : value) :
  dict_get "format_version" c = Some version ->
  num_eqb version 1 = false ->
  is_dict data = false ->
  (num_eqb version 2 = true ->
   forall ds,
     dict_get "dockers" c = Some (VDict ds) ->
     dict_get image ds = Some data ->
     exists e, LocalInstance.parse_launcher_config env (VDict c) = Raise e) /\
  (num_eqb version 2 = false -> num_eqb version 3 = true ->
   forall groups g gd ds,
     dict_get "task_group" c = Some (VDict groups) ->
     In (g, VDict gd) groups ->
     dict_get "dockers" gd = Some (VDict ds) ->
     In (image, data) ds ->
     exists e, LocalInstance.parse_launcher_config env (VDict c) = Raise e).
Proof.
  intros V V1 N.
  unfold LocalInstance.parse_launcher_config.
  rewrite (parse_config_dispatch env c version V), V1. split.
  - intros -> ds D I. unfold getitem at 1. rewrite D. cbn [rbind keys].
    apply rbind_raise. apply (foldM_raise_at _ _ image).
    + apply str_in_In. exact (sget_mem _ _ _ I).
    + intro st. exists ValueError.
      unfold image_step_v2, getitem. rewrite I. cbn [rbind].
      now rewrite N.
  - intros -> -> groups g gd ds G Hg D Hi.
    unfold getitem at 1. rewrite G. cbn [rbind items].
    apply (foldM_raise_at _ _ (g, VDict gd) Hg). intro st.
    unfold group_step_v3, getitem. rewrite D. cbn [rbind items].
    apply rbind_raise. apply (foldM_raise_at _ _ (image, data) Hi).
    intro st'. exists ValueError. unfold image_step_v3. now rewrite N.
Qed.

Lemma image_data_not_a_dict_witness :
  (exists e,
     LocalInstance.parse_launcher_config no_env (VDict config_v2_list) = Raise e) /\
  (exists e,
     LocalInstance.parse_launcher_config no_env (VDict config_v3_list) = Raise e).
Proof.
  split.
  - exact (proj1 (image_data_not_a_dict no_env config_v2_list (VNum 2) "tao-tf"
                    (VList [VStr "v5.0"]) eq_refl eq_refl eq_refl)
             eq_refl _ eq_refl eq_refl).
  - exact (proj2 (image_data_not_a_dict no_env config_v3_list (VNum 3) "tao-tf"
                    (VStr "v5.0") eq_refl eq_refl eq_refl)
             eq_refl eq_refl _ "model"
             [("dockers", VDict [("tao-tf", VStr "v5.0")])]
             _ eq_refl (or_introl eq_refl) eq_refl (or_introl eq_refl)).
Defined.

(** ** The set of docker images *)

Lemma set_add_NoDup (k : string) (l : list string) :
  NoDup l -> NoDup (set_add k l).
Proof.
  intro N. unfold set_add. destruct (str_in k l) eqn:E; [exact N|].
  apply str_in_not_In in E.
  apply NoDup_app; [exact N | repeat constructor; intros [] | ].
  intros x Hx [<-|[]]. now apply E.
Qed.

(** A loop whose body adds the names [contrib x] to the set of images. *)
Lemma images_of_loop {S X} (step : S * list string -> X -> result (S * list string))
    (contrib : X -> list string) (l : list X) :
  (forall st x r, step st x = Ok r ->
     (NoDup (snd st) -> NoDup (snd r)) /\
     (forall y, In y (snd r) <-> In y (snd st) \/ In y (contrib x))) ->
  forall st r, foldM step st l = Ok r ->
    (NoDup (snd st) -> NoDup (snd r)) /\
    (forall y, In y (snd r) <-> In y (snd st) \/ In y (flat_map contrib l)).
Proof.
  intro H. induction l as [|x l IH]; intros st r; cbn [foldM flat_map].
  - intro E. injection E as <-. split; [auto|]. intro y. cbn [In]. tauto.
  - destruct (step st x) as [st1|] eqn:E; cbn [rbind]; [|discriminate].
    intro F. destruct (H st x st1 E) as [N1 I1]. destruct (IH st1 r F) as [N2 I2].
    split; [auto|]. intro y. rewrite I2, I1, in_app_iff. tauto.
Qed.

Lemma image_step_adds (env : environ) (st r : pydict * list string)
    (image : string) (comp : result pydict) :
  (comp <- comp ;; Ok (update (fst st) comp, set_add image (snd st)))%result = Ok r ->
  (NoDup (snd st) -> NoDup (snd r)) /\
  (forall y, In y (snd r) <-> In y (snd st) \/ In y [image]).
Proof.
  destruct comp as [cp|]; cbn [rbind]; [|discriminate].
  intro E. injection E as <-. cbn [snd]. split; [apply set_add_NoDup|].
  intro y. rewrite set_add_In. cbn [In]. intuition congruence.
Qed.

Lemma image_step_v1_adds (env : environ) (dockers : value)
    (st : pydict * list string) (image : string) (r : pydict * list string) :
  image_step_v1 env dockers st image = Ok r ->
  (NoDup (snd st) -> NoDup (snd r)) /\
  (forall y, In y (snd r) <-> In y (snd st) \/ In y [image]).
Proof.
  unfold image_step_v1.
  destruct (getitem dockers image) as [dd|]; cbn [rbind]; [|discriminate].
  destruct (keys dd) as [ks|]; cbn [rbind]; [|discriminate].
  destruct (negb (str_in "tasks" ks)); [discriminate|].
  apply (image_step_adds env).
Qed.

Lemma image_step_v2_adds (env : environ) (dockers : value)
    (st : pydict * list string) (image : string) (r : pydict * list string) :
  image_step_v2 env dockers st image = Ok r ->
  (NoDup (snd st) -> NoDup (snd r)) /\
  (forall y, In y (snd r) <-> In y (snd st) \/ In y [image]).
Proof.
  unfold image_step_v2.
  destruct (getitem dockers image) as [dd|]; cbn [rbind]; [|discriminate].
  destruct (negb (is_dict dd)); [discriminate|].
  apply (image_step_adds env).
Qed.

Lemma image_step_v3_adds (env : environ) (st : pydict * list string)
    (e : string * value) (r : pydict * list string) :
  image_step_v3 env st e = Ok r ->
  (NoDup (snd st) -> NoDup (snd r)) /\
  (forall y, In y (snd r) <-> In y (snd st) \/ In y [fst e]).
Proof.
  unfold image_step_v3. destruct e as [image data]. cbn [fst].
  destruct (negb (is_dict data)); [discriminate|].
  apply (image_step_adds env).
Qed.

Lemma flat_map_singleton {X} (f : X -> string) (l : list X) :
  flat_map (fun x => [f x]) l = map f l.
Proof.
  induction l as [|x l IH]; cbn [flat_map map app]; [reflexivity | now rewrite IH].
Qed.

Lemma group_step_v3_adds (env : environ) (st : task_map_t * list string)
    (e : string * value) (r : task_map_t * list string) :
  group_step_v3 env st e = Ok r ->
  (NoDup (snd st) -> NoDup (snd r)) /\
  (forall y, In y (snd r) <->
             In y (snd st) \/
             In y (match getitem (snd e) "dockers" with
                   | Ok dockers => dockers_image_names dockers
                   | Raise _ => []
                   end)).
Proof.
  unfold group_step_v3. destruct e as [g gd]. cbn [snd].
  destruct (getitem gd "dockers") as [dockers|]; cbn [rbind]; [|discriminate].
  destruct dockers as [ | | | | |ds]; cbn [items rbind]; try discriminate.
  destruct (foldM (image_step_v3 env) ([], snd st) ds) as [r1|] eqn:F;
    cbn [rbind]; [|discriminate].
  intro E. injection E as <-. cbn [snd dockers_image_names].
  destruct (images_of_loop (image_step_v3 env) (fun e => [fst e]) ds
              (image_step_v3_adds env) _ _ F) as [N I].
  cbn [snd] in N, I. split; [exact N|].
  intro y. rewrite I, flat_map_singleton. reflexivity.
Qed.

(** X3: the set of docker images that [parse_launcher_config] returns holds
    each image name of the configuration once: the keys of "dockers" for
    formats 1.0 and 2.0, the keys of the "dockers" section of every task
    group for format 3.0, and nothing else. *)
Theorem docker_images_are_the_config_images (env : environ) (config_data : value)
    (tm : task_map_t) (images : list string) :
  LocalInstance.parse_launcher_config env config_data = Ok (tm, images) ->
  NoDup images /\
  forall image, In image images <-> In image (config_image_names config_data).
Proof.
  unfold LocalInstance.parse_launcher_config, parse_config, config_image_names.
  destruct config_data as [ | | | | |c]; cbn [keys rbind]; try discriminate.
  destruct (negb (str_in "format_version" (dict_keys c))); [discriminate|].
  unfold getitem at 1. destruct (dict_get "format_version" c) as [version|];
    cbn [rbind]; [|discriminate].
  assert (D : forall step,
             (forall dockers st image r, step dockers st image = Ok r ->
                (NoDup (snd st) -> NoDup (snd r)) /\
                (forall y, In y (snd r) <-> In y (snd st) \/ In y [image])) ->
             (dockers <- getitem (VDict c) "dockers" ;;
              imgs <- keys dockers ;;
              r <- foldM (step dockers) ([], []) imgs ;;
              Ok (sset "container_actions" (fst r) [], snd r))%result
             = Ok (tm, images) ->
             NoDup images /\
             forall image, In image images <->
               In image match dict_get "dockers" c with
                        | Some dockers => dockers_image_names dockers
                        | None => []
                        end).
  { intros step Hs. unfold getitem.
    destruct (dict_get "dockers" c) as [dockers|]; cbn [rbind]; [|discriminate].
    destruct dockers as [ | | | | |ds]; cbn [keys rbind]; try discriminate.
    destruct (foldM (step (VDict ds)) ([], []) (dict_keys ds)) as [r|] eqn:F;
      cbn [rbind]; [|discriminate].
    intro E. injection E as _ <-.
    destruct (images_of_loop (step (VDict ds)) (fun image => [image]) (dict_keys ds)
                (Hs (VDict ds)) _ _ F) as [N I].
    cbn [snd] in N, I. split; [apply N; constructor|].
    intro y. rewrite I, flat_map_singleton, map_id. cbn [In dockers_image_names].
    tauto. }
  destruct (num_eqb version 1); cbn [orb].
  { apply D. intros dockers st image r. apply image_step_v1_adds. }
  destruct (num_eqb version 2); cbn [orb].
  { apply D. intros dockers st image r. apply image_step_v2_adds. }
  destruct (num_eqb version 3); [|discriminate].
  unfold getitem at 1.
  destruct (dict_get "task_group" c) as [tg|]; cbn [rbind]; [|discriminate].
  destruct tg as [ | | | | |groups]; cbn [items rbind]; try discriminate.
  intro F.
  destruct (images_of_loop (group_step_v3 env) _ groups (group_step_v3_adds env) _ _ F)
    as [N I].
  cbn [snd] in N, I. split; [apply N; constructor|].
  intro y. rewrite I. cbn [In]. tauto.
Qed.

Lemma docker_images_are_the_config_images_witness :
  exists tm images,
    LocalInstance.parse_launcher_config no_env config_v3 = Ok (tm, images) /\
    NoDup images /\ (In "tao-ds" images <-> In "tao-ds" ["tao-tf"; "tao-ds"]).
Proof.
  destruct (LocalInstance.parse_launcher_config no_env config_v3)
    as [[tm images]|] eqn:P; [|discriminate P].
  exists tm, images. split; [reflexivity|].
  destruct (docker_images_are_the_config_images no_env config_v3 tm images P)
    as [N I].
  split; [exact N | exact (I "tao-ds")].
Defined.

(** ** Task.from_config *)

(** X4: on a dictionary whose keys are all among name, docker_image,
    docker_tag and docker_registry, [Task.from_config] returns the Task of
    the four entries (with no digest, and with the registry replaced by
    OVERRIDE_REGISTRY when that is set) when all four are present, and raises
    KeyError for the first missing one otherwise. *)
Theorem from_config_mandatory_keys (env : environ) (d : dict) :
  forallb (fun key => str_in key TaskM.mandatory_args) (dict_keys d) = true ->
  TaskM.from_config env (VDict d)
  = match dict_get "name" d with
    | None => Raise (KeyError "name")
    | Some a_name =>
        match dict_get "docker_image" d with
        | None => Raise (KeyError "docker_image")
        | Some a_image =>
            match dict_get "docker_tag" d with
            | None => Raise (KeyError "docker_tag")
            | Some a_tag =>
                match dict_get "docker_registry" d with
                | None => Raise (KeyError "docker_registry")
                | Some a_registry =>
                    Ok (TaskM.init env a_name a_image a_tag a_registry VNone)
                end
            end
        end
    end.
Proof.
  intro F. unfold TaskM.from_config. cbn [is_dict py_assert rbind keys].
  rewrite F. cbn [rbind]. unfold getitem.
  destruct (dict_get "name" d); cbn [rbind]; [|reflexivity].
  destruct (dict_get "docker_image" d); cbn [rbind]; [|reflexivity].
  destruct (dict_get "docker_tag" d); cbn [rbind]; [|reflexivity].
  destruct (dict_get "docker_registry" d); cbn [rbind]; [|reflexivity].
  cbn [TaskM.optional_args foldM].
  rewrite (forallb_mandatory_no_digest _ F). reflexivity.
Qed.

Lemma from_config_mandatory_keys_witness :
  TaskM.from_config env_override (VDict task_config_example)
  = Ok (mkTask (VStr "train") (VStr "tao-tf") (VStr "v5.0") (VStr "stg.nvcr.io") VNone).
Proof.
  rewrite (from_config_mandatory_keys env_override task_config_example eq_refl).
  reflexivity.
Defined.

(** X5: [get_config] and [from_config] do not round-trip: the dictionary
    that [Task.get_config] returns always has the key "docker_digest", so
    [Task.from_config] refuses it with AssertionError, for every Task. *)
Theorem get_config_is_refused_by_from_config (env : environ) (t : Task) :
  TaskM.from_config env (VDict (TaskM.get_config t)) = Raise AssertionError.
Proof.
  unfold TaskM.from_config, TaskM.get_config.
  cbn [is_dict py_assert rbind keys dict_keys map fst].
  rewrite forallb_mandatory_digest; [reflexivity|].
  cbn [existsb]. rewrite !String.eqb_refl, !orb_true_r. reflexivity.
Qed.

(** ** What the mounts file yields *)

Lemma foldM_invariant {A B} (P : A -> Prop) (f : A -> B -> result A) (l : list B) :
  (forall a x a', P a -> f a x = Ok a' -> P a') ->
  forall a r, P a -> foldM f a l = Ok r -> P r.
Proof.
  intro H. induction l as [|x l IH]; intros a r Pa; cbn [foldM].
  - intro E. now injection E as <-.
  - destruct (f a x) as [a'|] eqn:E; cbn [rbind]; [|discriminate].
    apply IH. exact (H a x a' Pa E).
Qed.

Lemma mount_step_resolves (h : host) (mount_points mount_points' : list value)
    (mount : value) :
  Forall (resolved_mount h) mount_points ->
  DockerHandlerM.mount_step h mount_points mount = Ok mount_points' ->
  Forall (resolved_mount h) mount_points'.
Proof.
  intro F. unfold DockerHandlerM.mount_step.
  destruct mount as [ | | | | |d]; cbn [keys rbind]; try discriminate.
  destruct (str_in "source" (dict_keys d) && str_in "destination" (dict_keys d));
    cbn [py_assert rbind]; [|discriminate].
  unfold getitem at 1.
  destruct (dict_get "source" d) as [src|]; cbn [rbind]; [|discriminate].
  destruct src as [ | | |s| | ]; cbn [DockerHandlerM.realpath_expanduser rbind];
    try discriminate.
  cbn [vset rbind]. unfold getitem, dict_get.
  rewrite sget_sset_other by discriminate.
  destruct (sget "destination" d) as [dst|]; cbn [rbind]; [|discriminate].
  destruct dst as [ | | |t| | ]; cbn [DockerHandlerM.realpath_expanduser rbind];
    try discriminate.
  destruct (path_exists h (realpath h (expanduser h s))) eqn:X; cbn [negb];
    [|discriminate].
  intro E. injection E as <-. apply Forall_app. split; [exact F|].
  constructor; [|constructor].
  eexists. exists (realpath h (expanduser h s)), (realpath h (expanduser h t)).
  split; [reflexivity|]. unfold dict_get. repeat split.
  - rewrite sget_sset_other by discriminate. apply sget_sset_same.
  - apply sget_sset_same.
  - exact X.
Qed.

Lemma env_step_binding (h : host) (env_vars env_vars' : list value) (entry : value) :
  Forall env_binding env_vars ->
  DockerHandlerM.env_step env_vars entry = Ok env_vars' ->
  Forall env_binding env_vars'.
Proof.
  intro F. unfold DockerHandlerM.env_step.
  destruct entry as [ | | | | |d]; cbn [keys rbind]; try discriminate.
  destruct (str_in "variable" (dict_keys d)) eqn:E1; cbn [andb py_assert rbind];
    [|discriminate].
  destruct (str_in "value" (dict_keys d)) eqn:E2; cbn [py_assert rbind];
    [|discriminate].
  intro E. injection E as <-. apply Forall_app. split; [exact F|].
  constructor; [|constructor]. exists d. now repeat split.
Qed.

Lemma mount_env_data_post (h : host) (hd : DockerHandler)
    (mount_points env_vars : list value) (docker_options : value) :
  DockerHandlerM._get_mount_env_data h hd
  = Ok (mount_points, env_vars, docker_options) ->
  Forall (resolved_mount h) mount_points /\ Forall env_binding env_vars.
Proof.
  unfold DockerHandlerM._get_mount_env_data.
  destruct (negb (path_exists h (_docker_mount_file hd))).
  { intro E. injection E as <- <- _. split; constructor. }
  destruct (DockerHandlerM._load_mounts_file h _) as [data|]; cbn [rbind];
    [|discriminate].
  destruct (keys data); cbn [rbind]; [|discriminate].
  destruct (py_assert _); cbn [rbind]; [|discriminate].
  destruct (items data) as [entries|]; cbn [rbind]; [|discriminate].
  intro F.
  refine (foldM_invariant
            (fun st : list value * list value * value =>
               Forall (resolved_mount h) (fst (fst st)) /\
               Forall env_binding (snd (fst st)))
            (DockerHandlerM.mounts_file_step h (_docker_mount_file hd)) entries _
            ([], [], VDict []) (mount_points, env_vars, docker_options) _ F).
  2:{ split; constructor. }
  intros [[mp ev] dopt] [key val] [[mp' ev'] dopt'] [Pm Pe].
  cbn [fst snd] in *. unfold DockerHandlerM.mounts_file_step.
  destruct (String.eqb key "Mounts").
  { destruct (iter val) as [mounts|]; cbn [rbind]; [|discriminate].
    destruct (foldM (DockerHandlerM.mount_step h) mp mounts) as [mp1|] eqn:M;
      cbn [rbind]; [|discriminate].
    intro E. injection E as <- <- _. split; [|exact Pe].
    exact (foldM_invariant (Forall (resolved_mount h)) _ mounts
             (fun a x a' => mount_step_resolves h a a' x) mp mp1 Pm M). }
  destruct (String.eqb key "Envs").
  { destruct (iter val) as [envs|]; cbn [rbind]; [|discriminate].
    destruct (foldM DockerHandlerM.env_step ev envs) as [ev1|] eqn:M;
      cbn [rbind]; [|discriminate].
    intro E. injection E as <- <- _. split; [exact Pm|].
    exact (foldM_invariant (Forall env_binding) _ envs
             (fun a x a' => env_step_binding h a a' x) ev ev1 Pe M). }
  destruct (String.eqb key "DockerOptions"); [|discriminate].
  intro E. injection E as <- <- _. now split.
Qed.

(** X6: without a mounts file [_get_mount_env_data] returns no mount, no
    variable and empty options; and whatever it returns, every mount point
    has a string source that exists on the host and a string destination,
    and every environment entry has the keys "variable" and "value". *)
Theorem mount_env_data_is_checked (h : host) (hd : DockerHandler) :
  (path_exists h (_docker_mount_file hd) = false ->
   DockerHandlerM._get_mount_env_data h hd = Ok ([], [], VDict [])) /\
  (forall mount_points env_vars docker_options,
     DockerHandlerM._get_mount_env_data h hd
     = Ok (mount_points, env_vars, docker_options) ->
     Forall (resolved_mount h) mount_points /\ Forall env_binding env_vars).
Proof.
  split.
  - intro X. unfold DockerHandlerM._get_mount_env_data. now rewrite X.
  - apply mount_env_data_post.
Qed.

Lemma mount_env_data_is_checked_witness :
  exists mount_points env_vars docker_options,
    DockerHandlerM._get_mount_env_data host_mounts_envs
      (handler_example host_mounts_envs)
    = Ok (mount_points, env_vars, docker_options) /\
    Forall (resolved_mount host_mounts_envs) mount_points /\
    Forall env_binding env_vars.
Proof.
  destruct (DockerHandlerM._get_mount_env_data host_mounts_envs
              (handler_example host_mounts_envs))
    as [[[mp ev] dopt]|] eqn:E; [|discriminate E].
  exists mp, ev, dopt. split; [reflexivity|].
  exact (proj2 (mount_env_data_is_checked host_mounts_envs
                  (handler_example host_mounts_envs)) mp ev dopt E).
Defined.

Lemma resolved_descriptors (h : host) (mounts : list value) :
  Forall (resolved_mount h) mounts -> exists pairs, descriptors mounts = Some pairs.
Proof.
  induction 1 as [|m mounts [d [s [t [-> [S [T _]]]]]] _ [ps IH]]; cbn [descriptors].
  - now exists [].
  - unfold descriptor. rewrite S, T, IH. eexists; reflexivity.
Qed.

Lemma formatted_envs_bindings (h : host) (entries : list value) :
  Forall env_binding entries ->
  forall acc, exists envs,
    foldM (fun env_vars item =>
             variable <- getitem item "variable" ;;
             val <- getitem item "value" ;;
             Ok (env_vars ++ [(py_str h variable ++ "=" ++ py_str h val)%string])%list)%result
          acc entries = Ok envs /\
    length envs = (length acc + length entries)%nat.
Proof.
  induction 1 as [|e entries [d [-> [V1 V2]]] _ IH]; intro acc; cbn [foldM].
  - exists acc. split; [reflexivity | cbn [length]; now rewrite Nat.add_0_r].
  - unfold dict_mem, dict_keys in V1, V2.
    destruct (sget_of_mem _ _ V1) as [x Hx]. destruct (sget_of_mem _ _ V2) as [y Hy].
    unfold getitem, dict_get. rewrite Hx. cbn [rbind]. rewrite Hy. cbn [rbind].
    destruct (IH (acc ++ [(py_str h x ++ "=" ++ py_str h y)%string])%list)
      as [envs [E L]].
    exists envs. split; [exact E|].
    rewrite L, length_app. cbn [length]. now rewrite <- Nat.add_assoc.
Qed.

(** X7: the mount points and the environment entries that
    [_get_mount_env_data] returns are always accepted by [formatted_mounts]
    and [formatted_envs]: neither raises, every volume binding has mode
    "rw", and there is one "variable=value" string per environment entry. *)
Theorem mounts_file_bindings_are_formatted (h : host) (hd : DockerHandler)
    (mount_points env_vars : list value) (docker_options : value) :
  DockerHandlerM._get_mount_env_data h hd
  = Ok (mount_points, env_vars, docker_options) ->
  exists volumes envs,
    DockerHandlerM.formatted_mounts h (VList mount_points) = Ok volumes /\
    Forall (fun kv => mode (snd kv) = "rw") volumes /\
    DockerHandlerM.formatted_envs h (VList env_vars) = Ok envs /\
    length envs = length env_vars.
Proof.
  intro E. destruct (mount_env_data_post h hd _ _ _ E) as [Pm Pe].
  destruct (resolved_descriptors h mount_points Pm) as [pairs D].
  destruct (formatted_envs_bindings h env_vars Pe []) as [envs [Fe L]].
  exists (fold_left (bind_mount h) pairs []), envs.
  unfold DockerHandlerM.formatted_mounts, DockerHandlerM.formatted_envs.
  cbn [is_list py_assert rbind iter].
  rewrite (descriptors_map h mount_points pairs D).
  repeat split; try assumption.
  apply bind_mounts_rw. constructor.
Qed.

Lemma mounts_file_bindings_are_formatted_witness :
  exists volumes envs,
    DockerHandlerM.formatted_mounts host_mounts_envs
      (VList [VDict [("source", VStr "/data"); ("destination", VStr "/workspace");
                     ("mode", VStr "ro")]]) = Ok volumes /\
    DockerHandlerM.formatted_envs host_mounts_envs
      (VList [VDict [("variable", VStr "PYTHONPATH"); ("value", VStr "/workspace")]])
    = Ok envs /\
    length envs = 1%nat.
Proof.
  destruct (mounts_file_bindings_are_formatted host_mounts_envs
              (handler_example host_mounts_envs) _ _ _ eq_refl)
    as [volumes [envs [F1 [_ [F2 L]]]]].
  exists volumes, envs. repeat split; assumption.
Defined.

(** ** Docker options *)

(** X8: the keyword arguments that [get_docker_option_args] returns are all
    among the valid docker arguments (user, ports, shm_size, ulimits,
    privileged, network, tty); options with any other key are refused. *)
Theorem docker_option_args_are_valid (h : host) (docker_options : value) :
  (forall docker_args,
     DockerHandlerM.get_docker_option_args h docker_options = Ok docker_args ->
     forall key, In key (map fst docker_args) -> In key VALID_DOCKER_ARGS) /\
  (forall d key val,
     docker_options = VDict d -> In (key, val) d ->
     str_in key VALID_DOCKER_ARGS = false ->
     exists e, DockerHandlerM.get_docker_option_args h docker_options = Raise e).
Proof.
  split.
  - intros docker_args. unfold DockerHandlerM.get_docker_option_args.
    assert (G : forall entries,
               foldM (fun docker_args entry =>
                        let '(key, val) := entry in
                        py_assert (str_in key VALID_DOCKER_ARGS) ;;;
                        if String.eqb key "ulimits" then
                          py_assert (is_dict val) ;;;
                          params <- items val ;;
                          limits <- foldM (fun acc p =>
                                      lim <- DockerHandlerM.get_docker_ulimits h
                                               (fst p) (snd p) ;;
                                      Ok (acc ++ [lim])%list) [] params ;;
                          Ok (sset key (VList limits) docker_args)
                        else Ok (sset key val docker_args))%result
                     [] entries = Ok docker_args ->
               forall key, In key (map fst docker_args) -> In key VALID_DOCKER_ARGS).
    { intros entries F.
      refine (foldM_invariant
                (fun args : sdict value =>
                   forall key, In key (map fst args) -> In key VALID_DOCKER_ARGS)
                _ entries _ [] docker_args _ F).
      2:{ intros key []. }
      intros args [k v] args' P.
      destruct (str_in k VALID_DOCKER_ARGS) eqn:V; cbn [py_assert rbind];
        [|discriminate].
      apply str_in_In in V.
      assert (S : forall x, forall key, In key (map fst (sset k x args)) ->
                            In key VALID_DOCKER_ARGS).
      { intros x key. rewrite sset_keys, set_add_In. intros [->|H]; auto. }
      destruct (String.eqb k "ulimits").
      - destruct (py_assert (is_dict v)); cbn [rbind]; [|discriminate].
        destruct (items v) as [params|]; cbn [rbind]; [|discriminate].
        destruct (foldM _ [] params); cbn [rbind]; [|discriminate].
        intro E. injection E as <-. apply S.
      - intro E. injection E as <-. apply S. }
    destruct docker_options as [ | | | | |d]; cbn [items rbind]; try discriminate.
    + intro E. injection E as <-. intros key [].
    + apply G.
  - intros d key val -> Hin V. unfold DockerHandlerM.get_docker_option_args.
    cbn [items rbind]. apply (foldM_raise_at _ _ (key, val) Hin).
    intro args. rewrite V. exists AssertionError. reflexivity.
Qed.

Lemma docker_option_args_are_valid_witness :
  (exists docker_args,
     DockerHandlerM.get_docker_option_args host_mounts_envs
       (VDict [("shm_size", VStr "16G"); ("user", VStr "1000:1000")]) = Ok docker_args /\
     forall key, In key (map fst docker_args) -> In key VALID_DOCKER_ARGS) /\
  (exists e,
     DockerHandlerM.get_docker_option_args host_mounts_envs
       (VDict [("shm_size", VStr "16G"); ("gpus", VStr "all")]) = Raise e).
Proof.
  split.
  - eexists. split; [reflexivity|].
    exact (proj1 (docker_option_args_are_valid host_mounts_envs
                    (VDict [("shm_size", VStr "16G"); ("user", VStr "1000:1000")]))
             _ eq_refl).
  - exact (proj2 (docker_option_args_are_valid host_mounts_envs
                    (VDict [("shm_size", VStr "16G"); ("gpus", VStr "all")]))
             _ "gpus" (VStr "all") eq_refl (or_intror (or_introl eq_refl)) eq_refl).
Defined.

(** ** The stages of run_container *)

Lemma add_events_nil (st : pystate) : add_events st [] = st.
Proof. destruct st. unfold add_events. cbn [self events]. now rewrite app_nil_r. Qed.

Lemma add_events_app (st : pystate) (a b : list event) :
  add_events (add_events st a) b = add_events st (a ++ b).
Proof. unfold add_events. cbn [self events]. now rewrite app_assoc. Qed.

Lemma start_container_outcome (h : host) (hd : DockerHandler) (volumes : sdict volume)
    (env_vars : list string) (docker_options : value) (st : pystate) :
  match DockerHandlerM.start_container h hd volumes env_vars docker_options st with
  | (Ok hd', st') =>
      exists c req,
        containers_run h req = Ok c /\
        hd' = set_container hd (Some c) /\ st' = add_events st [EvStart c]
  | (Raise _, st') =>
      exists new, st' = add_events st new /\ Forall before_start new
  end.
Proof.
  assert (N : exists new, st = add_events st new /\ Forall before_start new).
  { exists []. split; [now rewrite add_events_nil | constructor]. }
  assert (Q : forall text, exists new,
             add_events st [EvPrint text] = add_events st new /\
             Forall before_start new).
  { intro text. eexists. split; [reflexivity | repeat constructor]. }
  unfold DockerHandlerM.start_container. rewrite mbind_run. unfold lift at 1.
  destruct (DockerHandlerM.get_docker_option_args h docker_options) as [docker_args|e];
    [|exact N].
  unfold try_except. rewrite mbind_run. unfold lift at 1.
  destruct (DockerHandlerM.docker_image_name h hd) as [image|e].
  2:{ destruct e; cbn [DockerHandlerM.only_api_error]; try exact N. apply Q. }
  rewrite mbind_run. unfold lift at 1.
  match goal with
  | |- context [containers_run h ?r] =>
      destruct (containers_run h r) as [c|e] eqn:R; [exists c, r; now repeat split|]
  end.
  destruct e; cbn [DockerHandlerM.only_api_error]; try exact N. apply Q.
Qed.

Lemma start_from_mounts_file_outcome (h : host) (hd : DockerHandler) (st : pystate) :
  match DockerHandlerM.start_from_mounts_file h hd st with
  | (Ok started, st') =>
      exists c req,
        containers_run h req = Ok c /\
        fst started = set_container hd (Some c) /\ st' = add_events st [EvStart c]
  | (Raise _, st') =>
      exists new, st' = add_events st new /\ Forall before_start new
  end.
Proof.
  assert (N : exists new, st = add_events st new /\ Forall before_start new).
  { exists []. split; [now rewrite add_events_nil | constructor]. }
  unfold DockerHandlerM.start_from_mounts_file.
  rewrite mbind_run. unfold lift at 1.
  destruct (DockerHandlerM._get_mount_env_data h hd)
    as [[[mount_data env_vars] docker_options]|e]; [|exact N].
  rewrite mbind_run. unfold lift at 1.
  destruct (DockerHandlerM.formatted_mounts h _) as [volumes|e]; [|exact N].
  rewrite mbind_run. unfold lift at 1.
  destruct (DockerHandlerM.formatted_envs h _) as [env_variables|e]; [|exact N].
  rewrite mbind_run. unfold lift at 1.
  destruct (keys docker_options) as [ks|e]; [|exact N].
  rewrite mbind_run.
  assert (T : exists r,
             (if str_in "tty" ks then lift (getitem docker_options "tty")
              else ret (VBool true)) st = (r, st)).
  { destruct (str_in "tty" ks); eexists; reflexivity. }
  destruct T as [[tty|e] ->]; [|exact N].
  rewrite mbind_run.
  pose proof (start_container_outcome h hd volumes env_variables docker_options st) as S.
  destruct (DockerHandlerM.start_container h hd volumes env_variables docker_options st)
    as [[hd'|e] st']; exact S.
Qed.

(** Either [run_container] ends with an exception before any container is
    started, or it starts one and goes on with the forwarded command. *)
Lemma run_container_stages (h : host) (hd : DockerHandler) (task_command : string)
    (st : pystate) :
  (exists e new,
     DockerHandlerM.run_container h hd task_command st = (Raise e, add_events st new) /\
     Forall before_start new) \/
  (exists pre c req tty,
     Forall before_start pre /\
     containers_run h req = Ok c /\
     DockerHandlerM.run_container h hd task_command st
     = DockerHandlerM.exec_and_stop h (set_container hd (Some c)) tty task_command
         (add_events st (pre ++ [EvStart c]))).
Proof.
  remember (DockerHandlerM.run_container h hd task_command st) as R eqn:ER.
  unfold DockerHandlerM.run_container in ER. rewrite mbind_run in ER.
  unfold lift at 1 in ER.
  destruct (DockerHandlerM._check_image_exists h hd) as [present|e].
  2:{ left. exists e, []. split; [now rewrite add_events_nil | constructor]. }
  rewrite mbind_run in ER.
  assert (W : writes before_start
                (if negb present then DockerHandlerM.pull h hd else ret tt)).
  { destruct (negb present); [|apply writes_ret].
    apply pull_writes; intros; exact I. }
  destruct (W st) as [S1 [n1 [E1 F1]]].
  destruct ((if negb present then DockerHandlerM.pull h hd else ret tt) st)
    as [[u|e] st1]; cbn [snd] in S1, E1.
  2:{ left. exists e, n1. split; [|exact F1]. rewrite ER.
      destruct st1. unfold add_events. cbn [self events] in *. now subst. }
  assert (X1 : st1 = add_events st n1).
  { destruct st1. unfold add_events. cbn [self events] in *. now subst. }
  subst st1. rewrite mbind_run in ER.
  pose proof (start_from_mounts_file_outcome h hd (add_events st n1)) as S.
  destruct (DockerHandlerM.start_from_mounts_file h hd (add_events st n1))
    as [[started|e] st2].
  - destruct S as [c [req [Rq [H ->]]]]. right.
    exists n1, c, req, (snd started). repeat split; try assumption.
    now rewrite ER, H, add_events_app.
  - destruct S as [n2 [-> F2]]. left. exists e, (n1 ++ n2)%list.
    split; [now rewrite ER, add_events_app | apply Forall_app; now split].
Qed.

Lemma exec_and_stop_outcome (h : host) (hd : DockerHandler) (c : container)
    (tty : value) (task_command : string) (st : pystate) :
  container_stop h c = Ok tt ->
  DockerHandlerM.exec_and_stop h (set_container hd (Some c)) tty task_command st
  = let line := docker_exec_line hd (if truthy tty then "-it" else "-i") c
                  task_command in
    match check_call h line with
    | Ok _ | Raise (CalledProcessError None) =>
        (Ok tt, add_events st [EvExec line; EvStop c])
    | Raise (CalledProcessError (Some o)) =>
        (Raise (SystemExit (-1)),
         add_events st [EvExec line;
                        EvPrint ("TAO command run failed with error: " ++ o);
                        EvStop c; EvStop c])
    | Raise e => (Raise e, add_events st [EvExec line; EvStop c])
    end.
Proof.
  intro S. unfold DockerHandlerM.exec_and_stop.
  cbn [_container set_container docker_exec_command].
  rewrite mbind_run. cbn [ret].
  fold (docker_exec_line hd (if truthy tty then "-it" else "-i") c task_command).
  cbv zeta.
  set (line := docker_exec_line hd (if truthy tty then "-it" else "-i") c task_command).
  unfold try_finally, try_except, DockerHandlerM.stop_if_container,
    DockerHandlerM.stop_container.
  cbn [_container set_container].
  unfold mbind at 1. cbn [emit]. unfold lift at 1.
  destruct (check_call h line) as [[]|e];
    [| destruct e as [ | | | | | | | | | |output| ]; [..|destruct output as [o|]|] ];
    cbn [DockerHandlerM.on_called_process_error];
    unfold DockerHandlerM.stop_if_container, DockerHandlerM.stop_container,
      mbind, emit, lift, sys_exit, raise, ret, add_events;
    do 3 (cbn [_container set_container self events]; rewrite ?S);
    cbn [app]; rewrite <- ?app_assoc; reflexivity.
Qed.

Lemma exec_and_stop_trace (h : host) (hd : DockerHandler) (c : container)
    (tty : value) (task_command : string) (st : pystate) :
  exists rest,
    snd (DockerHandlerM.exec_and_stop h (set_container hd (Some c)) tty task_command st)
    = add_events st
        (EvExec (docker_exec_line hd (if truthy tty then "-it" else "-i") c task_command)
         :: rest) /\
    Forall after_exec rest.
Proof.
  unfold DockerHandlerM.exec_and_stop.
  cbn [_container set_container docker_exec_command].
  rewrite mbind_run. cbn [ret].
  fold (docker_exec_line hd (if truthy tty then "-it" else "-i") c task_command).
  set (line := docker_exec_line hd (if truthy tty then "-it" else "-i") c task_command).
  assert (W : writes after_exec
                (DockerHandlerM.stop_if_container h (set_container hd (Some c)))).
  { apply stop_if_container_writes. intros; exact I. }
  assert (B : exists r rest,
             try_except
               (mbind (emit (EvExec line)) (fun _ => lift (check_call h line)))
               (DockerHandlerM.on_called_process_error h (set_container hd (Some c))) st
             = (r, add_events st (EvExec line :: rest)) /\ Forall after_exec rest).
  { unfold try_except. rewrite mbind_run. cbn [emit]. unfold lift at 1.
    change {| self := self st; events := (events st ++ [EvExec line])%list |}
      with (add_events st [EvExec line]).
    destruct (check_call h line) as [u|e].
    - exists (Ok u), []. split; [reflexivity | constructor].
    - destruct (DockerHandlerM.on_called_process_error h _ e) as [m|] eqn:H.
      + pose proof (on_called_process_error_writes h after_exec
                      (fun _ => I) (fun _ => I) _ e m H) as Wm.
        destruct (Wm (add_events st [EvExec line])) as [S1 [n [E1 F1]]].
        destruct (m (add_events st [EvExec line])) as [r st1]. cbn [snd] in *.
        exists r, n. split; [|exact F1]. f_equal.
        destruct st1. unfold add_events in *. cbn [self events] in *. subst.
        now rewrite <- app_assoc.
      + exists (Raise e), []. split; [reflexivity | constructor]. }
  destruct B as [r [rest [B F]]]. unfold try_finally. rewrite B.
  destruct (W (add_events st (EvExec line :: rest))) as [S2 [n2 [E2 F2]]].
  destruct (DockerHandlerM.stop_if_container h _ (add_events st (EvExec line :: rest)))
    as [r2 st2]. cbn [snd] in *.
  exists (rest ++ n2)%list. split; [|apply Forall_app; now split].
  assert (st2 = add_events st (EvExec line :: rest ++ n2)).
  { destruct st2. unfold add_events in *. cbn [self events] in *. subst.
    now rewrite <- app_assoc. }
  destruct r2; cbn [snd]; assumption.
Qed.

(** ** Failures before the container is started *)

(** X9: when the image is not present locally and the registry refuses the
    pull with an APIError, [run_container] prints "Docker pull failed."
    followed by the text of the error and exits with code 1: no container
    is started and no command is executed. *)
Theorem refused_pull_exits (h : host) (hd : DockerHandler) (task_command : string)
    (st : pystate) (explanation : string) :
  initialized hd = true ->
  image_present h hd = false ->
  api_pull h (py_str h (_docker_registry hd) ++ "/" ++ py_str h (_image_name hd))
    (_docker_tag hd) = Raise (APIError explanation) ->
  DockerHandlerM.run_container h hd task_command st
  = (Raise (SystemExit 1),
     add_events st
       [EvPrint ("Pulling from repository: "
                 ++ py_str h (_docker_registry hd) ++ "/" ++ py_str h (_image_name hd));
        EvPull (py_str h (_docker_registry hd) ++ "/" ++ py_str h (_image_name hd))
               (_docker_tag hd);
        EvPrint ("Docker pull failed. " ++ explanation)]).
Proof.
  intros I A P. unfold DockerHandlerM.run_container.
  rewrite mbind_run. unfold lift at 1, DockerHandlerM._check_image_exists.
  rewrite (image_in_list_present h hd _ I). fold (image_present h hd). rewrite A.
  cbn [negb]. rewrite mbind_run.
  unfold DockerHandlerM.pull, try_except. rewrite !mbind_run. cbn [emit].
  rewrite mbind_run. cbn [emit]. unfold lift. rewrite P.
  cbn [DockerHandlerM.only_api_error]. rewrite mbind_run. cbn [emit].
  unfold sys_exit, raise, add_events. cbn [self events].
  now rewrite <- !app_assoc.
Qed.

Lemma refused_pull_exits_witness :
  DockerHandlerM.run_container host_pull_refused
    (handler_example host_pull_refused) "train" state0
  = (Raise (SystemExit 1),
     add_events state0
       [EvPrint "Pulling from repository: nvcr.io/nvidia/tao/tao-toolkit";
        EvPull "nvcr.io/nvidia/tao/tao-toolkit" (VStr "5.0.0-tf1.15.5");
        EvPrint "Docker pull failed. refused"]).
Proof.
  exact (refused_pull_exits host_pull_refused (handler_example host_pull_refused)
           "train" state0 "refused" eq_refl eq_refl eq_refl).
Defined.



(** ** The forwarded command *)

(** X11: [run_container] executes a command only right after it started a
    container, and the command line is "bash -c 'docker exec OPT ID CMD'"
    with the id of that container, the task command, and "-it" or "-i" for
    OPT. *)
Theorem command_runs_in_started_container (h : host) (hd : DockerHandler)
    (task_command : string) (st : pystate) (new : list event) (line : string) :
  snd (DockerHandlerM.run_container h hd task_command st) = add_events st new ->
  In (EvExec line) new ->
  exists pre c opt post,
    new = (pre ++ EvStart c :: EvExec line :: post)%list /\
    line = docker_exec_line hd opt c task_command /\
    (opt = "-it" \/ opt = "-i").
Proof.
  assert (NB : forall l, Forall before_start l -> ~ In (EvExec line) l).
  { intros l F H. rewrite Forall_forall in F. exact (F _ H). }
  assert (NA : forall l, Forall after_exec l -> ~ In (EvExec line) l).
  { intros l F H. rewrite Forall_forall in F. exact (F _ H). }
  assert (INJ : forall a b, add_events st a = add_events st b -> a = b).
  { intros a b H. unfold add_events in H. injection H as H.
    now apply app_inv_head in H. }
  destruct (run_container_stages h hd task_command st)
    as [[e [n [-> F]]] | [pre [c [req [tty [F [_ ->]]]]]]]; cbn [snd].
  - intros E H. apply INJ in E. subst n. exfalso. exact (NB _ F H).
  - destruct (exec_and_stop_trace h hd c tty task_command
                (add_events st (pre ++ [EvStart c]))) as [rest [-> Fr]].
    rewrite add_events_app. intros E H. apply INJ in E. subst new.
    rewrite <- app_assoc in H. cbn [app] in H.
    exists pre, c, (if truthy tty then "-it" else "-i"), rest.
    apply in_app_or in H. destruct H as [H|[H|[H|H]]].
    + exfalso. exact (NB _ F H).
    + discriminate H.
    + injection H as <-. rewrite <- app_assoc. cbn [app].
      repeat split. destruct (truthy tty); auto.
    + exfalso. exact (NA _ Fr H).
Qed.

Lemma command_runs_in_started_container_witness :
  exists pre c opt post,
    [EvStart container_example; EvExec "bash -c 'docker exec -it c0 train'";
     EvStop container_example]
    = (pre ++ EvStart c :: EvExec "bash -c 'docker exec -it c0 train'" :: post)%list /\
    "bash -c 'docker exec -it c0 train'"
    = docker_exec_line (handler_example (host_run true (Ok tt))) opt c "train" /\
    (opt = "-it" \/ opt = "-i").
Proof.
  exact (command_runs_in_started_container (host_run true (Ok tt))
           (handler_example (host_run true (Ok tt))) "train" state0
           [EvStart container_example; EvExec "bash -c 'docker exec -it c0 train'";
            EvStop container_example]
           "bash -c 'docker exec -it c0 train'" eq_refl (or_intror (or_introl eq_refl))).
Defined.

(** X12: the outcome of a run that started container [c], when the engine
    accepts the stop.  If the forwarded command succeeds, or fails with a
    CalledProcessError that carries no output (what [check_call] raises),
    [run_container] returns normally: the failure is swallowed.  If the
    error carries an output, the container is stopped twice and the run ends
    with [sys.exit(-1)], exit status 255. *)
Theorem forwarded_command_outcome (h : host) (hd : DockerHandler)
    (task_command : string) (st : pystate) (new : list event) (c : container) :
  snd (DockerHandlerM.run_container h hd task_command st) = add_events st new ->
  In (EvStart c) new ->
  container_stop h c = Ok tt ->
  ((forall line, check_call h line = Ok tt \/
                 check_call h line = Raise (CalledProcessError None)) ->
   fst (DockerHandlerM.run_container h hd task_command st) = Ok tt) /\
  (forall o,
     (forall line, check_call h line = Raise (CalledProcessError (Some o))) ->
     fst (DockerHandlerM.run_container h hd task_command st) = Raise (SystemExit (-1)) /\
     exit_status (fst (DockerHandlerM.run_container h hd task_command st)) = 255 /\
     exists pre line,
       new = (pre ++ [EvExec line;
                      EvPrint ("TAO command run failed with error: " ++ o);
                      EvStop c; EvStop c])%list).
Proof.
  assert (INJ : forall a b, add_events st a = add_events st b -> a = b).
  { intros a b H. unfold add_events in H. injection H as H.
    now apply app_inv_head in H. }
  destruct (run_container_stages h hd task_command st)
    as [[e [n [-> F]]] | [pre [c0 [req [tty [F [_ E0]]]]]]]; cbn [snd].
  { intros E H. apply INJ in E. subst n. exfalso.
    rewrite Forall_forall in F. exact (F _ H). }
  intros E H S.
  assert (c0 = c).
  { destruct (exec_and_stop_trace h hd c0 tty task_command
                (add_events st (pre ++ [EvStart c0]))) as [rest [T Fr]].
    rewrite E0, T, add_events_app in E. apply INJ in E. subst new.
    rewrite <- app_assoc in H. cbn [app] in H.
    apply in_app_or in H. destruct H as [H|[H|[H|H]]].
    - exfalso. rewrite Forall_forall in F. exact (F _ H).
    - now injection H.
    - discriminate H.
    - exfalso. rewrite Forall_forall in Fr. exact (Fr _ H). }
  subst c0. rewrite E0 in *.
  rewrite (exec_and_stop_outcome h hd c tty task_command _ S) in *.
  cbv zeta in *. split.
  - intro C. match goal with |- context [check_call h ?l] => destruct (C l) as [-> | ->] end;
      reflexivity.
  - intros o C. rewrite C in *. cbn [fst snd] in *. repeat split.
    rewrite add_events_app in E. apply INJ in E. subst new.
    eexists (pre ++ [EvStart c])%list, _. reflexivity.
Qed.

Lemma forwarded_command_outcome_witness :
  fst (DockerHandlerM.run_container (host_run true (Raise (CalledProcessError None)))
         (handler_example (host_run true (Raise (CalledProcessError None))))
         "train" state0) = Ok tt /\
  fst (DockerHandlerM.run_container
         (host_run true (Raise (CalledProcessError (Some "boom"))))
         (handler_example (host_run true (Raise (CalledProcessError (Some "boom")))))
         "train" state0) = Raise (SystemExit (-1)).
Proof.
  split.
  - apply (proj1 (forwarded_command_outcome
                    (host_run true (Raise (CalledProcessError None)))
                    (handler_example (host_run true (Raise (CalledProcessError None))))
                    "train" state0
                    [EvStart container_example;
                     EvExec "bash -c 'docker exec -it c0 train'";
                     EvStop container_example]
                    container_example eq_refl (or_introl eq_refl) eq_refl)).
    intro line. right. reflexivity.
  - apply (proj2 (forwarded_command_outcome
                    (host_run true (Raise (CalledProcessError (Some "boom"))))
                    (handler_example
                       (host_run true (Raise (CalledProcessError (Some "boom")))))
                    "train" state0
                    [EvStart container_example;
                     EvExec "bash -c 'docker exec -it c0 train'";
                     EvPrint "TAO command run failed with error: boom";
                     EvStop container_example; EvStop container_example]
                    container_example eq_refl (or_introl eq_refl) eq_refl) "boom").
    intro line. reflexivity.
Defined.

(** ** The cleanup after the forwarded command *)





(** ** The run on a CI machine *)

Lemma writes_add_events {A} (P : event -> Prop) (m : M A) :
  writes P m ->
  forall st, exists new, snd (m st) = add_events st new /\ Forall P new.
Proof.
  intros W st. destruct (W st) as [S [new [E F]]]. exists new. split; [|exact F].
  destruct (snd (m st)). unfold add_events. cbn [self events] in *. now subst.
Qed.

Lemma run_container_on_ci_quiet (h : host) (hd : DockerHandler)
    (task_command : string) :
  _container hd = None ->
  writes no_container_call (DockerHandlerM.run_container_on_ci h hd task_command).
Proof.
  intro C. unfold DockerHandlerM.run_container_on_ci.
  apply writes_bind; [apply writes_lift | intro present].
  apply writes_bind.
  { destruct (negb present); [|apply writes_ret]. apply pull_writes; intros; exact I. }
  intros _.
  apply writes_bind; [apply writes_lift | intros [[mount_data env_vars] docker_options]].
  apply writes_bind; [apply writes_lift | intro].
  apply writes_bind; [apply writes_lift | intro].
  apply writes_bind; [apply writes_lift | intro].
  apply writes_bind; [apply writes_lift | intro].
  apply writes_try_except.
  - apply writes_bind; [apply writes_emit; exact I | intro; apply writes_lift].
  - intros e m. destruct e; cbn [DockerHandlerM.on_called_process_error];
      try discriminate.
    intro H. injection H as <-. destruct output; [|apply writes_ret].
    apply writes_bind; [apply writes_emit; exact I | intro].
    unfold DockerHandlerM.stop_if_container. rewrite C.
    apply writes_bind; [apply writes_ret | intro; apply writes_sys_exit].
Qed.

(** X13: [run_container_on_ci], on a handler that holds no container (as
    every new handler), neither starts nor stops a container through the
    SDK: the calls it makes are prints, the pull and the execution of a
    command line. *)
Theorem ci_run_makes_no_container_call (h : host) (hd : DockerHandler)
    (task_command : string) (st : pystate) :
  _container hd = None ->
  exists new,
    snd (DockerHandlerM.run_container_on_ci h hd task_command st) = add_events st new /\
    Forall no_container_call new.
Proof.
  intro C. apply writes_add_events. now apply run_container_on_ci_quiet.
Qed.

Lemma ci_run_makes_no_container_call_witness :
  exists new,
    snd (DockerHandlerM.run_container_on_ci (host_run true (Ok tt))
           (handler_example (host_run true (Ok tt))) "train" state0)
    = add_events state0 new /\
    Forall no_container_call new.
Proof.
  exact (ci_run_makes_no_container_call (host_run true (Ok tt))
           (handler_example (host_run true (Ok tt))) "train" state0 eq_refl).
Defined.

(** ** The handler map *)

Lemma add_handler_facts (h : host) (env : environ) (hm : sdict DockerHandler)
    (entry : value * Task) :
  (forall k hd, sget k hm = Some hd -> sget k (add_handler h env hm entry) = Some hd) /\
  (exists hd, sget (handler_key h (snd entry)) (add_handler h env hm entry) = Some hd) /\
  ((forall k hd, sget k hm = Some hd -> fresh_handler h k hd) ->
   forall k hd, sget k (add_handler h env hm entry) = Some hd -> fresh_handler h k hd).
Proof.
  unfold add_handler.
  destruct (str_in (handler_key h (snd entry)) (map fst hm)) eqn:E.
  - split; [|split]; [auto | exact (sget_of_mem _ _ E) | auto].
  - pose proof (sget_not_mem _ _ E) as N. split; [|split].
    + intros k hd H. rewrite sget_sset_other; [exact H|]. intros ->. congruence.
    + eexists. apply sget_sset_same.
    + intros Inv k hd.
      destruct (String.eqb k (handler_key h (snd entry))) eqn:K.
      * apply String.eqb_eq in K. subst k. rewrite sget_sset_same.
        intro H. injection H as <-. repeat split.
      * apply String.eqb_neq in K. rewrite sget_sset_other by exact K. apply Inv.
Qed.

Lemma group_handlers_facts (h : host) (env : environ) (lm : pydict) :
  forall hm,
    (forall k hd, sget k hm = Some hd ->
       sget k (fold_left (add_handler h env) lm hm) = Some hd) /\
    (forall entry, In entry lm ->
       exists hd, sget (handler_key h (snd entry))
                    (fold_left (add_handler h env) lm hm) = Some hd) /\
    ((forall k hd, sget k hm = Some hd -> fresh_handler h k hd) ->
     forall k hd, sget k (fold_left (add_handler h env) lm hm) = Some hd ->
       fresh_handler h k hd).
Proof.
  induction lm as [|e lm IH]; intro hm; cbn [fold_left].
  - split; [|split]; [auto | intros entry [] | auto].
  - destruct (add_handler_facts h env hm e) as [M [[hd0 C] I]].
    destruct (IH (add_handler h env hm e)) as [M' [C' I']].
    split; [|split].
    + intros k hd H. apply M', M, H.
    + intros entry [<-|H]; [exists hd0; apply M', C | now apply C'].
    + intro Inv. apply I', I, Inv.
Qed.

Lemma handlers_facts (h : host) (env : environ) (tm : task_map_t) :
  forall hm,
    let r := fold_left (fun hm (group : string * pydict) =>
                          fold_left (add_handler h env) (snd group) hm) tm hm in
    (forall k hd, sget k hm = Some hd -> sget k r = Some hd) /\
    (forall g lm entry, In (g, lm) tm -> In entry lm ->
       exists hd, sget (handler_key h (snd entry)) r = Some hd) /\
    ((forall k hd, sget k hm = Some hd -> fresh_handler h k hd) ->
     forall k hd, sget k r = Some hd -> fresh_handler h k hd).
Proof.
  induction tm as [|[g0 lm0] tm IH]; intro hm; cbn [fold_left snd].
  - split; [|split]; [auto | intros g lm entry [] | auto].
  - destruct (group_handlers_facts h env lm0 hm) as [M [C I]].
    destruct (IH (fold_left (add_handler h env) lm0 hm)) as [M' [C' I']].
    split; [|split].
    + intros k hd H. apply M', M, H.
    + intros g lm entry [E|H] He.
      * injection E as <- <-. destruct (C entry He) as [hd Hd].
        exists hd. apply M', Hd.
      * exact (C' g lm entry H He).
    + intro Inv. apply I', I, Inv.
Qed.

Lemma handlers_of_fresh (h : host) (env : environ) (tm : task_map_t) :
  forall key hd, sget key (handlers_of h env tm) = Some hd -> fresh_handler h key hd.
Proof.
  destruct (handlers_facts h env tm []) as [_ [_ I]].
  apply I. intros k hd H. discriminate H.
Qed.

Lemma handler_map_run (h : host) (env : environ) (st : pystate) :
  LocalInstance.handler_map h env st
  = (match task_map (self st) with
     | [] => Raise AssertionError
     | _ => Ok (handlers_of h env (task_map (self st)))
     end, st).
Proof.
  unfold LocalInstance.handler_map. rewrite mbind_run. cbn [get_self].
  rewrite mbind_run. unfold lift.
  destruct (task_map (self st)); reflexivity.
Qed.

(** X14: the handler map of an instance has a handler for every task of the
    task map, stored under the key "image:tag" of the task, so that the
    lookup that [launch_command] makes never fails; every handler of the map
    is initialized, holds no container, and its image name and tag give the
    key under which it is stored. *)
Theorem handler_map_covers_tasks (h : host) (env : environ) (st : pystate)
    (hm : sdict DockerHandler) :
  fst (LocalInstance.handler_map h env st) = Ok hm ->
  (forall g lm k t, In (g, lm) (task_map (self st)) -> In (k, t) lm ->
     exists hd, sget (handler_key h t) hm = Some hd) /\
  (forall key hd, sget key hm = Some hd -> fresh_handler h key hd).
Proof.
  rewrite handler_map_run. cbn [fst].
  destruct (task_map (self st)) as [|g0 tm0] eqn:T; [discriminate|].
  intro E. injection E as <-. rewrite <- T.
  destruct (handlers_facts h env (task_map (self st)) []) as [_ [C I]]. split.
  - intros g lm k t Hg Ht. exact (C g lm (k, t) Hg Ht).
  - apply I. intros k hd H. discriminate H.
Qed.

Lemma handler_map_covers_tasks_witness :
  exists hm hd,
    fst (LocalInstance.handler_map (host_run true (Ok tt)) no_env state_v1) = Ok hm /\
    sget "tao-tf:v5.0" hm = Some hd /\
    fresh_handler (host_run true (Ok tt)) "tao-tf:v5.0" hd.
Proof.
  destruct (fst (LocalInstance.handler_map (host_run true (Ok tt)) no_env state_v1))
    as [hm|] eqn:E; [|discriminate E].
  destruct (handler_map_covers_tasks (host_run true (Ok tt)) no_env state_v1 hm E)
    as [C F].
  destruct (C "container_actions" _ (VStr "train")
              (mkTask (VStr "train") (VStr "tao-tf") (VStr "v5.0") (VStr "nvcr.io") VNone)
              (or_introl eq_refl) (or_introl eq_refl)) as [hd Hd].
  exists hm, hd. split; [reflexivity|]. split; [exact Hd | exact (F _ _ Hd)].
Defined.

(** X15: with CI_PROJECT_DIR set, [launch_command] of the docker instance
    for a task group of the configuration never starts or stops a container
    through the SDK, whatever the task and its arguments. *)
Theorem ci_launch_makes_no_container_call (h : host) (env : environ)
    (task_group : string) (task : value) (args : pyargs) (st : pystate) (dir : string) :
  env "CI_PROJECT_DIR" = Some dir ->
  str_in task_group (map fst (task_map (self st))) = true ->
  exists new,
    snd (LocalInstance.launch_command h env task_group task args st)
    = add_events st new /\
    Forall no_container_call new.
Proof.
  intros CI G.
  assert (N : exists new, st = add_events st new /\ Forall no_container_call new).
  { exists []. split; [now rewrite add_events_nil | constructor]. }
  unfold LocalInstance.launch_command. rewrite mbind_run. cbn [get_self]. rewrite G.
  destruct (sget task_group (task_map (self st))) as [tm|]; [|exact N].
  destruct (pd_mem task tm); [|exact N].
  destruct args as [tokens|ns]; [|exact N].
  destruct (pd_get task tm) as [t|]; [|exact N].
  rewrite mbind_run. unfold lift at 1.
  destruct (docker_logged_in h env (docker_registry t)); [|exact N].
  rewrite mbind_run.
  rewrite handler_map_run.
  destruct (task_map (self st)) as [|g0 tm0]; [exact N|].
  pose proof (handlers_of_fresh h env (g0 :: tm0)) as F.
  destruct (sget _ (handlers_of h env (g0 :: tm0))) as [docker_handler|] eqn:K;
    [|exact N].
  rewrite mbind_run. unfold lift at 1.
  destruct (DockerHandlerM.docker_image_name h docker_handler); [|exact N].
  rewrite CI. apply writes_add_events. apply run_container_on_ci_quiet.
  exact (proj1 (F _ _ K)).
Qed.

(** On [host_ci] the docker login and the mounts file are accepted and
    the image is pulled: the run reaches the "docker run" command line, and
    no container is started or stopped through the SDK. *)
Lemma ci_launch_makes_no_container_call_witness :
  (exists new,
     snd (LocalInstance.launch_command host_ci env_ci
            "container_actions" (VStr "train") (ArgList ["--help"]) state_v1)
     = add_events state_v1 new /\
     Forall no_container_call new) /\
  LocalInstance.launch_command host_ci env_ci
    "container_actions" (VStr "train") (ArgList ["--help"]) state_v1
  = (Ok tt,
     add_events state_v1
       [EvPrint "Pulling from repository: nvcr.io/tao-tf";
        EvPull "nvcr.io/tao-tf" (VStr "v5.0");
        EvExec ("docker run -it --rm --gpus all -v /data:/workspace:rw "
                ++ " nvcr.io/tao-tf:v5.0 train --help")]).
Proof.
  split.
  - exact (ci_launch_makes_no_container_call host_ci env_ci
             "container_actions" (VStr "train") (ArgList ["--help"]) state_v1
             "/builds/tao" eq_refl eq_refl).
  - reflexivity.
Defined.


(** ** Tasks that the group does not have *)

(** X16: for a task group of the configuration and a task that the group
    does not have, [launch_command] of the docker instance returns without
    doing anything, whatever the arguments, while the one of the wheel
    instance raises NotImplementedError. *)
Theorem unknown_task_of_known_group (h : host) (env : environ) (task_group : string)
    (task : value) (args : pyargs) (st : pystate) (tasks : pydict) :
  sget task_group (task_map (self st)) = Some tasks ->
  pd_mem task tasks = false ->
  LocalInstance.launch_command h env task_group task args st = (Ok tt, st) /\
  WHLInstance.launch_command h task_group task args st = (Raise NotImplementedError, st).
Proof.
  intros G T. pose proof (sget_mem _ _ _ G) as K.
  unfold LocalInstance.launch_command, WHLInstance.launch_command.
  rewrite !mbind_run. cbn [get_self]. rewrite K, G, T. split; reflexivity.
Qed.

Lemma unknown_task_of_known_group_witness :
  LocalInstance.launch_command (example_host (fun _ => Ok config_v1)) no_env
    "container_actions" (VStr "export") (ArgList ["--help"]) state_v1
  = (Ok tt, state_v1) /\
  WHLInstance.launch_command (example_host (fun _ => Ok config_v1))
    "container_actions" (VStr "export") (ArgList ["--help"]) state_v1
  = (Raise NotImplementedError, state_v1).
Proof.
  exact (unknown_task_of_known_group (example_host (fun _ => Ok config_v1)) no_env
           "container_actions" (VStr "export") (ArgList ["--help"]) state_v1
           _ eq_refl eq_refl).
Defined.

(** ** The login check *)

(** X17: [docker_logged_in] for one registry succeeds exactly when
    OVERRIDE_REGISTRY is set, or the docker configuration file exists and
    holds an object whose "auths" is an object with the registry among its
    keys. *)
Theorem docker_login_check (h : host) (env : environ) (registry : string) :
  docker_logged_in h env (VStr registry) = Ok tt <->
  env "OVERRIDE_REGISTRY" <> None \/
  (path_exists h (DOCKER_CONFIG h) = true /\
   exists data auths,
     read_json h (DOCKER_CONFIG h) = Ok (VDict data) /\
     sget "auths" data = Some (VDict auths) /\
     str_in registry (map fst auths) = true).
Proof.
  unfold docker_logged_in, load_config_file.
  destruct (env "OVERRIDE_REGISTRY") as [v|].
  { split; [intros _; left; discriminate | reflexivity]. }
  split.
  - intro H. right.
    destruct (path_exists h (DOCKER_CONFIG h)); cbn [py_assert rbind] in H;
      [|discriminate H].
    split; [reflexivity|].
    destruct (read_json h (DOCKER_CONFIG h)) as [data|e]; cbn [rbind] in H;
      [|discriminate H].
    destruct data as [| | | | |data]; cbn [keys rbind] in H; try discriminate H.
    destruct (str_in "auths" (dict_keys data)); cbn [negb] in H; [|discriminate H].
    cbn [getitem] in H. unfold dict_get in H.
    destruct (sget "auths" data) as [auths|] eqn:A; cbn [rbind] in H; [|discriminate H].
    destruct auths as [| | | | |auths]; cbn [keys rbind] in H; try discriminate H.
    exists data, auths. split; [reflexivity|]. split; [exact A|].
    cbn [forallb] in H. unfold dict_keys in H.
    destruct (str_in registry (map fst auths)); [reflexivity | discriminate H].
  - intros [N|[P [data [auths [R [A S]]]]]]; [now elim N|].
    rewrite P. cbn [py_assert rbind]. rewrite R. cbn [rbind keys].
    unfold dict_keys at 1. rewrite (sget_mem _ _ _ A). cbn [negb getitem]. unfold dict_get. rewrite A.
    cbn [rbind keys forallb]. unfold dict_keys. rewrite S. reflexivity.
Qed.

(** ** Information on the instance *)

Lemma for_each_emit {B} (f : B -> event) (l : list B) (st : pystate) :
  for_each l (fun x => emit (f x)) st = (Ok tt, add_events st (map f l)).
Proof.
  revert st. induction l as [|x l IH]; intro st; cbn [for_each map].
  - unfold ret. now rewrite add_events_nil.
  - rewrite mbind_run. unfold emit at 1. rewrite IH. unfold add_events.
    cbn [self events]. now rewrite <- app_assoc.
Qed.

(** X18: without the configuration file of the instance, the built-in
    group "info" prints the title and the notice that the file does not
    exist and leaves the interpreter with [sys.exit(-1)], that is with the
    exit status 255. *)
Theorem info_without_config_file (h : host) (env : environ) (task : value)
    (ns : sdict value) (verbose : value) (st : pystate) :
  str_in "info" (map fst (task_map (self st))) = false ->
  instance_handler_tasks (self st) = INSTANCE_HANDLER_TASKS ->
  sget "verbose" ns = Some verbose ->
  path_exists h (current_config_path (self st)) = false ->
  LocalInstance.launch_command h env "info" task (ArgNamespace ns) st
  = (Raise (SystemExit (-1)),
     add_events st
       [info_header;
        EvPrint "Config file doesn't exist. Aborting information printing"]) /\
  exit_status (fst (LocalInstance.launch_command h env "info" task (ArgNamespace ns) st))
  = 255.
Proof.
  intros G T V P.
  assert (E : LocalInstance.launch_command h env "info" task (ArgNamespace ns) st
              = (Raise (SystemExit (-1)),
                 add_events st
                   [info_header;
                    EvPrint "Config file doesn't exist. Aborting information printing"])).
  { unfold LocalInstance.launch_command. rewrite mbind_run. cbn [get_self].
    rewrite G, T, mbind_run.
    change (lift (py_assert (str_in "info" INSTANCE_HANDLER_TASKS)) st) with (Ok tt, st).
    change ("info" =? "list") with false. change ("info" =? "stop") with false.
    change ("info" =? "info") with true. cbv iota.
    rewrite mbind_run. unfold lift at 1, getattr at 1. rewrite V.
    rewrite mbind_run. unfold LocalInstance.print_information.
    rewrite mbind_run. unfold emit at 1. rewrite mbind_run. cbn [get_self self].
    rewrite mbind_run. unfold try_except, lift at 1, LocalInstance.load_config,
      load_config_file. rewrite P. cbn [py_assert rbind LocalInstance.only_assertion_error].
    rewrite mbind_run. unfold emit at 1, sys_exit, raise, add_events, info_header.
    cbn [self events]. now rewrite <- app_assoc. }
  split; [exact E|]. rewrite E. reflexivity.
Qed.

Lemma info_without_config_file_witness :
  exit_status (fst (LocalInstance.launch_command host_no_file no_env "info" VNone
                      (ArgNamespace [("verbose", VBool false)]) state_v1))
  = 255.
Proof.
  exact (proj2 (info_without_config_file host_no_file no_env VNone
                  [("verbose", VBool false)] (VBool false) state_v1
                  eq_refl eq_refl eq_refl eq_refl)).
Defined.

(** X19: for a configuration file that holds an object, [print_information]
    returns False after it printed the title and then, when verbose, the
    whole object as [dict_print] renders it, and otherwise one line per
    top-level key, in the order of the file, an object being summarised by
    the list of its keys. *)
Theorem info_lines (h : host) (verbose : value) (st : pystate) (config : dict) :
  path_exists h (current_config_path (self st)) = true ->
  read_json h (current_config_path (self st)) = Ok (VDict config) ->
  LocalInstance.print_information h verbose st
  = (Ok false,
     add_events st
       (info_header ::
        if truthy verbose then [EvPrint (LocalInstance.dict_print h (VDict config) 0)]
        else map (info_line h) config)).
Proof.
  intros P R. unfold LocalInstance.print_information.
  rewrite mbind_run. unfold emit at 1. rewrite mbind_run. cbn [get_self self].
  rewrite mbind_run. unfold try_except, lift at 1, LocalInstance.load_config,
    load_config_file. rewrite P. cbn [py_assert rbind]. rewrite R.
  rewrite mbind_run. destruct (truthy verbose).
  - rewrite mbind_run. unfold lift at 1, LocalInstance.dict_print_checked.
    cbn [is_dict py_assert rbind]. unfold emit, ret, add_events, info_header.
    cbn [self events]. now rewrite <- app_assoc.
  - rewrite mbind_run. unfold lift at 1. cbn [items].
    change (fun kv : string * value =>
              emit (EvPrint (fst kv ++ ": "
                             ++ py_str h match snd kv with
                                         | VDict d => VList (map VStr (dict_keys d))
                                         | v => v
                                         end)))
      with (fun kv : string * value => emit (info_line h kv)).
    rewrite for_each_emit. unfold ret, add_events, info_header. cbn [self events].
    now rewrite <- app_assoc.
Qed.

Lemma info_lines_witness :
  LocalInstance.print_information (example_host (fun _ => Ok config_v1)) (VBool false)
    state_v1
  = (Ok false,
     add_events state_v1
       [info_header; EvPrint "format_version: "; EvPrint "dockers: "]).
Proof.
  exact (info_lines (example_host (fun _ => Ok config_v1)) (VBool false) state_v1
           _ eq_refl eq_refl).
Defined.


(** ** An instance without tasks *)

Lemma handlers_of_no_task (h : host) (env : environ) (tm : task_map_t) :
  no_task tm -> handlers_of h env tm = [].
Proof.
  intro N. unfold handlers_of. generalize (@nil (string * DockerHandler)).
  induction N as [|[g lm] tm E N IH]; intro hm; cbn [fold_left]; [reflexivity|].
  cbn [snd] in *. subst lm. cbn [fold_left]. apply IH.
Qed.

Lemma docker_client_run (h : host) (env : environ) (st : pystate) :
  LocalInstance._docker_client h env st
  = (match task_map (self st) with
     | [] => Raise AssertionError
     | _ => match handlers_of h env (task_map (self st)) with
            | [] => Raise IndexError
            | _ => Ok tt
            end
     end, st).
Proof.
  unfold LocalInstance._docker_client. rewrite mbind_run, handler_map_run.
  destruct (task_map (self st)); [reflexivity|].
  destruct (handlers_of h env _); reflexivity.
Qed.

Lemma get_running_containers_no_task (h : host) (env : environ) (st : pystate) :
  no_task (task_map (self st)) ->
  LocalInstance._get_running_containers h env st = (Raise AssertionError, st).
Proof.
  intro N. unfold LocalInstance._get_running_containers.
  rewrite mbind_run, handler_map_run. rewrite (handlers_of_no_task h env _ N).
  destruct (task_map (self st)); reflexivity.
Qed.

(** X20: on an instance whose task map has no task, the listing of the
    running containers and the [stop --all] raise AssertionError, and the
    stop of a container id raises AssertionError (no task group) or
    IndexError (task groups without tasks); no container is looked up or
    stopped and nothing is printed. *)
Theorem instance_without_tasks (h : host) (env : environ) (st : pystate) :
  no_task (task_map (self st)) ->
  LocalInstance.list_running_jobs h env st = (Raise AssertionError, st) /\
  (forall ids all,
     truthy all = true ->
     LocalInstance.kill_containers h env ids all st = (Raise AssertionError, st)) /\
  (forall idx ids all,
     truthy all = false ->
     LocalInstance.kill_containers h env (VList (idx :: ids)) all st
     = (Raise match task_map (self st) with
              | [] => AssertionError
              | _ => IndexError
              end, st)).
Proof.
  intro N. pose proof (get_running_containers_no_task h env st N) as R.
  split; [|split].
  - unfold LocalInstance.list_running_jobs. rewrite mbind_run, R. reflexivity.
  - intros ids all T. unfold LocalInstance.kill_containers. rewrite T.
    rewrite mbind_run, R. reflexivity.
  - intros idx ids all T. unfold LocalInstance.kill_containers. rewrite T.
    cbn [for_each]. rewrite !mbind_run, docker_client_run.
    rewrite (handlers_of_no_task h env _ N).
    destruct (task_map (self st)); reflexivity.
Qed.

Lemma instance_without_tasks_witness :
  LocalInstance.list_running_jobs (example_host (fun _ => Ok config_v1)) no_env
    state_no_task
  = (Raise AssertionError, state_no_task) /\
  LocalInstance.kill_containers (example_host (fun _ => Ok config_v1)) no_env
    (VList [VStr "c1"]) (VBool false) state_no_task
  = (Raise IndexError, state_no_task).
Proof.
  assert (N : no_task (task_map (self state_no_task))).
  { constructor; [reflexivity | constructor]. }
  destruct (instance_without_tasks (example_host (fun _ => Ok config_v1)) no_env
              state_no_task N)
    as [L [_ K]].
  split; [exact L | exact (K (VStr "c1") [] (VBool false) eq_refl)].
Defined.

(** ** The stop of containers by id *)

Lemma stop_by_id_run (h : host) (env : environ) (idx : value) (st : pystate) :
  handlers_of h env (task_map (self st)) <> [] ->
  stop_by_id h env idx st
  = match containers_get h idx with
    | Ok c => (container_stop h c, add_events st [EvStop c])
    | Raise e => (Raise e, st)
    end.
Proof.
  intro N. unfold stop_by_id. rewrite mbind_run, docker_client_run.
  destruct (task_map (self st)) as [|g tm] eqn:T.
  { now elim N. }
  destruct (handlers_of h env (g :: tm)); [now elim N|].
  rewrite mbind_run. unfold lift at 1.
  destruct (containers_get h idx) as [c|e]; [|reflexivity].
  unfold LocalInstance.stop. rewrite mbind_run. reflexivity.
Qed.

Lemma stop_loop (h : host) (env : environ) (ids : list value) (cs : list container) :
  Forall2 (fun idx c => containers_get h idx = Ok c /\ container_stop h c = Ok tt)
          ids cs ->
  forall (st : pystate) (more : list value),
    handlers_of h env (task_map (self st)) <> [] ->
    for_each (ids ++ more)%list (stop_by_id h env) st
    = for_each more (stop_by_id h env) (add_events st (map EvStop cs)).
Proof.
  induction 1 as [|idx c ids cs [G S] F IH]; intros st more N; cbn [app map for_each].
  - now rewrite add_events_nil.
  - rewrite mbind_run, (stop_by_id_run h env idx st N), G, S.
    rewrite IH by exact N.
    now rewrite add_events_app.
Qed.

(** X21: [kill_containers] with a list of container ids, on an instance
    that has a task, stops the containers of the ids in the order of the
    list; at the first id that the engine does not resolve, the exception of
    the lookup is raised and the containers of the later ids keep running. *)
Theorem containers_are_stopped_by_id (h : host) (env : environ) (st : pystate)
    (ids : list value) (cs : list container) (all : value) :
  truthy all = false ->
  handlers_of h env (task_map (self st)) <> [] ->
  Forall2 (fun idx c => containers_get h idx = Ok c /\ container_stop h c = Ok tt)
          ids cs ->
  LocalInstance.kill_containers h env (VList ids) all st
  = (Ok tt, add_events st (map EvStop cs)) /\
  (forall idx e more,
     containers_get h idx = Raise e ->
     LocalInstance.kill_containers h env (VList (ids ++ idx :: more)) all st
     = (Raise e, add_events st (map EvStop cs))).
Proof.
  intros T N F. unfold LocalInstance.kill_containers. rewrite T.
  change (fun idx : value =>
            mbind (LocalInstance._docker_client h env)
              (fun _ => mbind (lift (containers_get h idx))
                          (fun c => LocalInstance.stop h c)))
    with (stop_by_id h env).
  split.
  - rewrite <- (app_nil_r ids), (stop_loop h env ids cs F st [] N). reflexivity.
  - intros idx e more G. rewrite (stop_loop h env ids cs F st (idx :: more) N).
    cbn [for_each]. rewrite mbind_run, stop_by_id_run by exact N.
    rewrite G. reflexivity.
Qed.

Lemma containers_are_stopped_by_id_witness :
  LocalInstance.kill_containers host_two_containers no_env
    (VList [VStr "c1"; VStr "c2"]) (VBool false) state_v1
  = (Ok tt,
     add_events state_v1
       [EvStop (mkContainer "c1" "c1" "running" "tao-tf:v5.0");
        EvStop (mkContainer "c2" "c2" "running" "tao-tf:v5.0")]).
Proof.
  refine (proj1 (containers_are_stopped_by_id host_two_containers no_env state_v1
                   [VStr "c1"; VStr "c2"]
                   [mkContainer "c1" "c1" "running" "tao-tf:v5.0";
                    mkContainer "c2" "c2" "running" "tao-tf:v5.0"]
                   (VBool false) eq_refl _ _)).
  - vm_compute. discriminate.
  - repeat constructor.
Defined.

(** ** The wheel instance *)

(** X22: for a task of the configuration and a non-empty argument list,
    [launch_command] of the wheel instance runs the command line once; the
    outcome is a normal return when the command succeeds, and also when it
    fails with a CalledProcessError that carries no output; with an output,
    the failure is printed and the interpreter left with [sys.exit(-1)];
    any other exception is raised to the caller. *)
Theorem whl_command_outcome (h : host) (task_group : string) (task : value)
    (arg0 : string) (rest : list string) (st : pystate) (tasks : pydict) :
  sget task_group (task_map (self st)) = Some tasks ->
  pd_mem task tasks = true ->
  WHLInstance.launch_command h task_group task (ArgList (arg0 :: rest)) st
  = match check_call h (command_of_args h task arg0 rest) with
    | Ok _ => (Ok tt, add_events st [EvExec (command_of_args h task arg0 rest)])
    | Raise (CalledProcessError None) =>
        (Ok tt, add_events st [EvExec (command_of_args h task arg0 rest)])
    | Raise (CalledProcessError (Some output)) =>
        (Raise (SystemExit (-1)),
         add_events st
           [EvExec (command_of_args h task arg0 rest);
            EvPrint ("TAO Toolkit command run failed with error: " ++ output)])
    | Raise e => (Raise e, add_events st [EvExec (command_of_args h task arg0 rest)])
    end.
Proof.
  intros G T. pose proof (sget_mem _ _ _ G) as K.
  unfold WHLInstance.launch_command. rewrite mbind_run. cbn [get_self].
  rewrite K, G, T. unfold try_except. rewrite mbind_run. unfold emit at 1, lift at 1.
  destruct (check_call h (command_of_args h task arg0 rest)) as [[]|e]; [reflexivity|].
  destruct e as [| | | | | | | | | |[output|]|];
    cbn [WHLInstance.on_called_process_error]; try reflexivity.
  rewrite mbind_run. unfold emit, sys_exit, raise, add_events. cbn [self events].
  now rewrite <- app_assoc.
Qed.

Lemma whl_command_outcome_witness :
  WHLInstance.launch_command
    (make_host (fun _ => true) (fun _ => Ok config_v1) []
       (fun _ => Raise (CalledProcessError None)))
    "container_actions" (VStr "train") (ArgList ["-e"; "spec.yaml"]) state_v1
  = (Ok tt, add_events state_v1 [EvExec "train -e spec.yaml"]).
Proof.
  exact (whl_command_outcome
           (make_host (fun _ => true) (fun _ => Ok config_v1) []
              (fun _ => Raise (CalledProcessError None)))
           "container_actions" (VStr "train") "-e" ["spec.yaml"] state_v1
           _ eq_refl eq_refl).
Defined.

(** X23: in wheel mode, the command line that names a task group and one
    of its tasks and gives no argument fails with UnboundLocalError, and no
    command is run. *)
Theorem whl_task_without_arguments (h : host) (env : environ)
    (supported_tasks : list string) (task_group task : string) (st : pystate)
    (tasks : pydict) :
  build_parser h supported_tasks (task_map (self st)) = Ok tt ->
  sget task_group (task_map (self st)) = Some tasks ->
  pd_mem (VStr task) tasks = true ->
  task <> "--help" ->
  main_dispatch h env WHLKind supported_tasks [task_group; task] st
  = (Raise UnboundLocalError, st).
Proof.
  intros B G T N. pose proof (sget_mem _ _ _ G) as K.
  apply String.eqb_neq in N.
  unfold main_dispatch. rewrite mbind_run. cbn [get_self].
  rewrite mbind_run. unfold lift at 1. rewrite B. cbn [hd].
  rewrite N, K, G, T. cbn [andb skipn].
  unfold launch_command, WHLInstance.launch_command. rewrite mbind_run. cbn [get_self].
  rewrite K, G, T. reflexivity.
Qed.

Lemma whl_task_without_arguments_witness :
  main_dispatch (example_host (fun _ => Ok config_v1)) env_whl WHLKind
    ["container_actions"] ["container_actions"; "train"] state_v1
  = (Raise UnboundLocalError, state_v1).
Proof.
  refine (whl_task_without_arguments (example_host (fun _ => Ok config_v1)) env_whl
            ["container_actions"] "container_actions" "train" state_v1
            _ eq_refl eq_refl eq_refl _).
  discriminate.
Defined.


(** ** The command of a running container *)

Lemma split_on_nonempty (sep : ascii) (s : string) : split_on sep s <> [].
Proof.
  destruct s as [|c s]; cbn [split_on]; [discriminate|].
  destruct (Ascii.eqb c sep); [discriminate|].
  destruct (split_on sep s); discriminate.
Qed.

Lemma split_on_one_word (sep : ascii) (s : string) :
  has_char sep s = false -> split_on sep s = [s].
Proof.
  induction s as [|c s IH]; cbn [has_char split_on]; [reflexivity|].
  destruct (Ascii.eqb c sep); cbn [orb]; [discriminate|].
  intro H. now rewrite (IH H).
Qed.

Lemma split_on_first_word (sep : ascii) (word s : string) :
  has_char sep word = false ->
  split_on sep (word ++ String sep s) = word :: split_on sep s.
Proof.
  induction word as [|c word IH]; cbn [has_char append split_on].
  - now rewrite Ascii.eqb_refl.
  - destruct (Ascii.eqb c sep); cbn [orb]; [discriminate|].
    intro H. now rewrite (IH H).
Qed.

Lemma join_split_on (sep : ascii) (s : string) :
  String.concat (String sep "") (split_on sep s) = s.
Proof.
  induction s as [|c s IH]; cbn [split_on]; [reflexivity|].
  pose proof (split_on_nonempty sep s) as N.
  destruct (Ascii.eqb c sep) eqn:E.
  - apply Ascii.eqb_eq in E. subst c.
    destruct (split_on sep s) as [|w ws]; [now elim N|].
    cbn [String.concat append] in *. now rewrite IH.
  - destruct (split_on sep s) as [|w ws]; [now elim N|].
    destruct ws as [|w' ws]; cbn [String.concat append] in *; now rewrite IH.
Qed.

Lemma find_command_skips (tasks : pydict) (rows : list (list string))
    (more : list (list string)) :
  Forall one_word_row rows ->
  LocalInstance.find_command tasks (rows ++ more)%list
  = LocalInstance.find_command tasks more.
Proof.
  induction 1 as [|row rows [columns [command [-> W]]] F IH]; [reflexivity|].
  cbn [app LocalInstance.find_command]. rewrite rev_app_distr. cbn [rev app].
  now rewrite (split_on_one_word _ _ W).
Qed.

(** X24: in the rows of [top], rows whose command is a single word are
    passed over; the first row whose command is an interpreter, then a path
    that ends in the name of a task of the group, then arguments, gives the
    command shown for the container: the name of the task followed by the
    arguments as they are, whatever the later rows hold. *)
Theorem found_command_keeps_arguments (tasks : pydict)
    (rows more : list (list string)) (columns : list string)
    (interpreter task_point arguments : string) :
  Forall one_word_row rows ->
  has_char " " interpreter = false ->
  has_char " " task_point = false ->
  pd_mem (VStr (last (split_on "/" task_point) "")) tasks = true ->
  LocalInstance.find_command tasks
    (rows ++ (columns ++ [(interpreter ++ " " ++ task_point ++ " " ++ arguments)%string])
          :: more)%list
  = Ok (Some (last (split_on "/" task_point) "" ++ " " ++ arguments)).
Proof.
  intros R I P T. rewrite (find_command_skips tasks rows _ R).
  cbn [LocalInstance.find_command]. rewrite rev_app_distr. cbn [rev app].
  change (interpreter ++ " " ++ task_point ++ " " ++ arguments)
    with (interpreter ++ String " " (task_point ++ String " " arguments)).
  rewrite (split_on_first_word _ _ _ I), (split_on_first_word _ _ _ P), T.
  change " "%string with (String " " "") at 2.
  now rewrite join_split_on.
Qed.

Lemma found_command_keeps_arguments_witness :
  LocalInstance.find_command
    [(VStr "train", task_example)]
    [["root"; "1"; "bash"];
     ["root"; "7"; "python /usr/local/bin/train -e  spec.yaml"];
     []]
  = Ok (Some "train -e  spec.yaml").
Proof.
  refine (found_command_keeps_arguments [(VStr "train", task_example)]
            [["root"; "1"; "bash"]] [[]] ["root"; "7"]
            "python" "/usr/local/bin/train" "-e  spec.yaml" _ eq_refl eq_refl eq_refl).
  constructor; [|constructor]. exists ["root"; "1"], "bash". split; reflexivity.
Defined.

(** ** The supported tasks *)

Lemma insert_sorted_perm (x : string) (l : list string) :
  Permutation (x :: l) (insert_sorted x l).
Proof.
  induction l as [|y l IH]; cbn [insert_sorted]; [apply Permutation_refl|].
  destruct (String.leb x y); [apply Permutation_refl|].
  eapply Permutation_trans; [apply perm_swap|]. now apply perm_skip.
Qed.

Lemma insert_sorted_hd (x a : string) (l : list string) :
  str_le a x -> HdRel str_le a l -> HdRel str_le a (insert_sorted x l).
Proof.
  intros A H. destruct l as [|y l]; cbn [insert_sorted]; [now constructor|].
  destruct (String.leb x y); constructor; [exact A|]. now inversion H.
Qed.

Lemma insert_sorted_sorted (x : string) (l : list string) :
  Sorted str_le l -> Sorted str_le (insert_sorted x l).
Proof.
  induction 1 as [|y l S IH H]; cbn [insert_sorted].
  - now repeat constructor.
  - destruct (String.leb x y) eqn:E.
    + constructor; [now constructor|]. now constructor.
    + constructor; [exact IH|]. apply insert_sorted_hd; [|exact H].
      destruct (String.leb_total x y) as [L|L]; [congruence | exact L].
Qed.

Lemma sorted_spec (l : list string) :
  Permutation l (sorted l) /\ Sorted str_le (sorted l).
Proof.
  induction l as [|x l [P S]]; cbn [sorted fold_right].
  - split; constructor.
  - split; [|now apply insert_sorted_sorted].
    eapply Permutation_trans; [|apply insert_sorted_perm]. now apply perm_skip.
Qed.

Lemma get_launcher_supported (h : host) (env : environ) (file : string)
    (kind : launcher_kind) (inst : instance) (supported : list string) :
  get_launcher h env file = Ok (kind, inst, supported) ->
  dl_tasks inst = sorted (map fst (task_map inst)) /\
  supported = (match kind with
               | LocalKind => ["list"; "stop"; "info"]
               | WHLKind => []
               end ++ dl_tasks inst)%list.
Proof.
  unfold get_launcher.
  destruct (str_in _ ["0"; "1"]); cbn [py_assert rbind]; [|discriminate].
  destruct (String.eqb _ "1").
  - unfold WHLInstance.from_config.
    destruct (WHLInstance.load_config h file); cbn [rbind]; [|discriminate].
    destruct (WHLInstance.parse_launcher_config env a); cbn [rbind]; [|discriminate].
    intro H. injection H as <- <- <-. split; reflexivity.
  - unfold LocalInstance.from_config.
    destruct (LocalInstance.load_config h file); cbn [rbind]; [|discriminate].
    destruct (LocalInstance.parse_launcher_config env a); cbn [rbind]; [|discriminate].
    intro H. injection H as <- <- <-. split; reflexivity.
Qed.

(** X25: the supported tasks that [get_launcher] returns are, in docker
    mode, "list", "stop" and "info" followed by the task groups of the
    instance in ascending order and, in wheel mode, the task groups in
    ascending order alone; every task group of the task map is among them
    once. *)
Theorem supported_tasks_are_sorted_groups (h : host) (env : environ) (file : string)
    (kind : launcher_kind) (inst : instance) (supported : list string) :
  get_launcher h env file = Ok (kind, inst, supported) ->
  exists groups,
    supported = (match kind with
                 | LocalKind => ["list"; "stop"; "info"]
                 | WHLKind => []
                 end ++ groups)%list /\
    Permutation (map fst (task_map inst)) groups /\
    Sorted str_le groups.
Proof.
  intro G. destruct (get_launcher_supported h env file kind inst supported G) as [D S].
  exists (dl_tasks inst). split; [exact S|]. rewrite D. apply sorted_spec.
Qed.

Lemma supported_tasks_are_sorted_groups_witness :
  exists inst groups,
    get_launcher (example_host (fun _ => Ok config_v3)) no_env "config.json"
    = Ok (LocalKind, inst, (["list"; "stop"; "info"] ++ groups)%list) /\
    Permutation (map fst (task_map inst)) groups /\
    Sorted str_le groups.
Proof.
  destruct (get_launcher (example_host (fun _ => Ok config_v3)) no_env "config.json")
    as [[[kind inst] supported]|] eqn:G; [|discriminate G].
  destruct (supported_tasks_are_sorted_groups _ _ _ _ _ _ G) as [groups [S [P O]]].
  assert (kind = LocalKind) by (vm_compute in G; now injection G as <- _ _).
  subst kind supported. exists inst, groups. split; [reflexivity|]. now split.
Defined.


(** ** The running containers *)

Lemma get_running_containers_run (h : host) (env : environ) (st : pystate) :
  handlers_of h env (task_map (self st)) <> [] ->
  LocalInstance._get_running_containers h env st
  = (Ok (running_containers h env (task_map (self st))), st).
Proof.
  intro N. unfold LocalInstance._get_running_containers.
  rewrite mbind_run, handler_map_run.
  destruct (task_map (self st)) as [|g tm] eqn:T; [now elim N|].
  rewrite mbind_run. unfold lift at 1.
  destruct (handlers_of h env (g :: tm)) as [|hd hm] eqn:H; [now elim N|].
  cbn [length Nat.ltb Nat.leb py_assert].
  rewrite mbind_run, docker_client_run, T, H.
  assert (L : forall (l : list container) (acc : list container),
            for_fold (fun acc c =>
                        mbind (LocalInstance.handler_map h env)
                          (fun images =>
                             ret (acc ++ flat_map
                                    (fun image =>
                                       if substring_in image (config_image c)
                                       then [c] else []) (map fst images))%list))
                     acc l st
            = (Ok (acc ++ flat_map
                     (fun c => flat_map
                                 (fun image =>
                                    if substring_in image (config_image c)
                                    then [c] else []) (map fst (hd :: hm))) l)%list,
               st)).
  { induction l as [|c l IH]; intro acc; cbn [for_fold flat_map].
    - unfold ret. now rewrite app_nil_r.
    - rewrite mbind_run, mbind_run, handler_map_run, T, H. unfold ret at 1.
      rewrite IH. now rewrite app_assoc. }
  rewrite L. unfold running_containers. now rewrite H.
Qed.

Lemma stop_run (h : host) (c : container) (st : pystate) :
  LocalInstance.stop h c st = (container_stop h c, add_events st [EvStop c]).
Proof. unfold LocalInstance.stop. rewrite mbind_run. reflexivity. Qed.

Lemma stop_all_run (h : host) (cs : list container) :
  Forall (fun c => container_stop h c = Ok tt) cs ->
  forall st, for_each cs (LocalInstance.stop h) st = (Ok tt, add_events st (map EvStop cs)).
Proof.
  induction 1 as [|c cs S F IH]; intro st; cbn [for_each map].
  - unfold ret. now rewrite add_events_nil.
  - rewrite mbind_run, stop_run, S, IH. now rewrite add_events_app.
Qed.

Lemma running_containers_listed (h : host) (env : environ) (tm : task_map_t)
    (c : container) :
  In c (running_containers h env tm) -> In c (containers_list h).
Proof.
  unfold running_containers. intro H. apply in_flat_map in H.
  destruct H as [c' [L H]]. apply in_flat_map in H. destruct H as [image [_ H]].
  destruct (substring_in image (config_image c')); [|destruct H].
  destruct H as [<-|[]]. exact L.
Qed.

(** X26: [kill_containers] with [kill_all], on an instance that has a
    task and an engine that stops every listed container, stops the listed
    containers in the order of the listing, a container once for every key
    "image:tag" of the handler map that occurs in the name of its image:
    the container of an image whose name holds two keys is stopped
    twice. *)
Theorem stop_all_stops_per_matching_key (h : host) (env : environ) (st : pystate)
    (container_ids all : value) :
  truthy all = true ->
  handlers_of h env (task_map (self st)) <> [] ->
  (forall c, In c (containers_list h) -> container_stop h c = Ok tt) ->
  LocalInstance.kill_containers h env container_ids all st
  = (Ok tt,
     add_events st (map EvStop (running_containers h env (task_map (self st))))).
Proof.
  intros T N S. unfold LocalInstance.kill_containers. rewrite T.
  rewrite mbind_run, (get_running_containers_run h env st N).
  apply stop_all_run. apply Forall_forall. intros c H.
  apply S. exact (running_containers_listed h env _ c H).
Qed.

Lemma stop_all_stops_per_matching_key_witness :
  LocalInstance.kill_containers host_training no_env VNone (VBool true)
    state_two_groups
  = (Ok tt, add_events state_two_groups [EvStop container_train; EvStop container_train]).
Proof.
  refine (stop_all_stops_per_matching_key host_training no_env state_two_groups
            VNone (VBool true) eq_refl _ _).
  - vm_compute. discriminate.
  - intros c _. reflexivity.
Defined.

(** ** The listing of the running containers *)

Lemma cset_cset (c : container) (v w : string) (d : list (container * string)) :
  cset c v (cset c w d) = cset c v d.
Proof.
  induction d as [|[c' s'] d IH]; cbn [cset].
  - now rewrite String.eqb_refl.
  - destruct (String.eqb (id c) (id c')) eqn:E; cbn [cset]; rewrite E; [reflexivity|].
    now rewrite IH.
Qed.

Lemma set_commands_cons (f : container -> string) (cs : list container) :
  forall (k : container) (v : string) (d : list (container * string)),
    set_commands f cs ((k, v) :: d)
    = (k, last_command f k v cs) :: set_commands f (other_containers k cs) d.
Proof.
  unfold set_commands, last_command, other_containers.
  induction cs as [|c cs IH]; intros k v d; cbn [fold_left filter cset]; [reflexivity|].
  destruct (String.eqb (id c) (id k)); cbn [negb fold_left]; now rewrite IH.
Qed.

Lemma last_command_absorbs (f g : container -> string) (k : container) (v : string)
    (cs : list container) :
  last_command f k (last_command g k v cs) cs = last_command f k v cs.
Proof.
  unfold last_command. induction cs as [|c cs IH] using rev_ind; [reflexivity|].
  rewrite !fold_left_app. cbn [fold_left].
  destruct (String.eqb (id c) (id k)); [reflexivity | exact IH].
Qed.

Lemma set_commands_from_nil (f g : container -> string) :
  forall (n : nat) (cs : list container),
    (length cs <= n)%nat ->
    set_commands f cs (set_commands g cs []) = set_commands f cs [].
Proof.
  induction n as [|n IH]; intros [|c cs] L; cbn [length] in L; try reflexivity.
  { exfalso. inversion L. }
  assert (S : forall e : container -> string,
            set_commands e (c :: cs) []
            = (c, last_command e c (e c) cs)
              :: set_commands e (other_containers c cs) []).
  { intro e. unfold set_commands at 1. cbn [fold_left cset].
    exact (set_commands_cons e cs c (e c) []). }
  rewrite (S g), set_commands_cons, (S f).
  unfold last_command at 1, other_containers at 1. cbn [fold_left filter].
  rewrite String.eqb_refl. cbn [negb]. f_equal.
  apply IH. unfold other_containers.
  pose proof (filter_length_le (fun c0 => negb (String.eqb (id c0) (id c))) cs) as F.
  apply le_S_n in L. exact (Nat.le_trans _ _ _ F L).
Qed.

Lemma set_commands_absorbs (f g : container -> string)
    (d : list (container * string)) :
  forall cs, set_commands f cs (set_commands g cs d) = set_commands f cs d.
Proof.
  induction d as [|[k v] d IH]; intro cs.
  - exact (set_commands_from_nil f g (length cs) cs (le_n _)).
  - rewrite (set_commands_cons g), !set_commands_cons, IH.
    now rewrite last_command_absorbs.
Qed.

Lemma find_command_returns (tasks : pydict) (rows : list (list string)) :
  (forall row, In row rows -> row <> []) ->
  exists found, LocalInstance.find_command tasks rows = Ok found.
Proof.
  induction rows as [|row rows IH]; intro H; cbn [LocalInstance.find_command].
  - now exists None.
  - assert (R : rev row <> []).
    { intro E. apply (H row (or_introl eq_refl)).
      rewrite <- (rev_involutive row), E. reflexivity. }
    assert (IH' := IH (fun r Hr => H r (or_intror Hr))).
    destruct (rev row) as [|command columns]; [now elim R|].
    destruct (split_on " " command) as [|w0 [|task_point args]]; try exact IH'.
    destruct (pd_mem _ tasks); [eexists; reflexivity | exact IH'].
Qed.

Lemma container_steps_run (h : host) (tasks : pydict) (cs : list container) :
  (forall c row, In c cs -> In row (container_top h c) -> row <> []) ->
  forall (cpc : list (container * string)) (st : pystate),
    for_fold (container_step h tasks) cpc cs st
    = (Ok (set_commands (command_in h tasks) cs cpc), st).
Proof.
  unfold set_commands.
  induction cs as [|c cs IH]; intros R cpc st; cbn [for_fold fold_left]; [reflexivity|].
  rewrite mbind_run. unfold container_step at 1. rewrite mbind_run. unfold lift at 1.
  destruct (find_command_returns tasks (container_top h c)
              (fun row => R c row (or_introl eq_refl))) as [found F].
  unfold command_in at 2. rewrite F. unfold ret at 1.
  rewrite (IH (fun c0 row H => R c0 row (or_intror H))).
  destruct found as [cmd|]; [now rewrite cset_cset | reflexivity].
Qed.

Lemma group_steps_run (h : host) (cs : list container) (st : pystate) :
  (forall c row, In c cs -> In row (container_top h c) -> row <> []) ->
  forall (names : list string) (cpc : list (container * string)),
    (forall n, In n names -> str_in n (map fst (task_map (self st))) = true) ->
    for_fold (group_step h cs) cpc names st
    = (Ok (fold_left (fun table n =>
                        set_commands (command_in h (tasks_of (task_map (self st)) n))
                                     cs table)
                     names cpc), st).
Proof.
  intro R. induction names as [|n names IH]; intros cpc K; cbn [for_fold fold_left];
    [reflexivity|].
  rewrite mbind_run. unfold group_step at 1. rewrite mbind_run. cbn [get_self].
  destruct (sget_of_mem _ _ (K n (or_introl eq_refl))) as [tasks G].
  unfold tasks_of at 2. rewrite G, mbind_run. unfold ret at 1.
  rewrite (container_steps_run h tasks cs R).
  apply IH. intros n' H. apply K. now right.
Qed.

Lemma last_group_only {N} (F : N -> container -> string) (names : list N) (n : N)
    (cs : list container) :
  forall table,
    fold_left (fun table n => set_commands (F n) cs table) (names ++ [n])%list table
    = set_commands (F n) cs table.
Proof.
  induction names as [|m names IH]; intro table; cbn [app fold_left]; [reflexivity|].
  rewrite IH. apply set_commands_absorbs.
Qed.

Lemma str_in_map_fst {V} (n : string) (d : sdict V) :
  In n (map fst d) -> str_in n (map fst d) = true.
Proof.
  intro H. unfold str_in. apply existsb_exists. exists n. split; [exact H|].
  apply String.eqb_refl.
Qed.

(** X27: when the task map has several task groups, the listing of the
    running containers shows, for every container, the command found among
    the tasks of the last task group only: the pass over each task group
    starts by erasing the command of every container, so that what an
    earlier task group found is lost. *)
Theorem listing_shows_the_last_group (h : host) (env : environ) (st : pystate)
    (groups : task_map_t) (task_group : string) (tasks : pydict) :
  task_map (self st) = (groups ++ [(task_group, tasks)])%list ->
  sget task_group (task_map (self st)) = Some tasks ->
  handlers_of h env (task_map (self st)) <> [] ->
  rows_have_columns h ->
  LocalInstance.list_running_jobs h env st
  = LocalInstance.pretty_print h
      (set_commands (command_in h tasks)
         (running_containers h env (task_map (self st))) []) st.
Proof.
  intros T G N R. unfold LocalInstance.list_running_jobs.
  rewrite mbind_run, (get_running_containers_run h env st N).
  rewrite mbind_run. cbn [get_self]. rewrite mbind_run.
  change (for_fold _ [] (map fst (task_map (self st))) st)
    with (for_fold (group_step h (running_containers h env (task_map (self st))))
            [] (map fst (task_map (self st))) st).
  rewrite group_steps_run.
  - f_equal. rewrite T at 1. rewrite map_app. cbn [map fst].
    rewrite (last_group_only (fun n => command_in h (tasks_of (task_map (self st)) n))).
    unfold tasks_of. now rewrite G.
  - intros c row H. apply R. exact (running_containers_listed h env _ c H).
  - intro n. apply str_in_map_fst.
Qed.

Lemma listing_shows_the_last_group_witness :
  LocalInstance.list_running_jobs host_training no_env state_two_groups
  = (Ok tt, add_events state_two_groups [EvPrint "c1,running,Not in support DNN tasks."]).
Proof.
  refine (listing_shows_the_last_group host_training no_env state_two_groups
            [("model",
              [(VStr "train", mkTask (VStr "train") (VStr "tao") (VStr "v5.0")
                                     (VStr "nvcr.io") VNone)])]
            "dataset"
            [(VStr "augment", mkTask (VStr "augment") (VStr "tao") (VStr "v5")
                                     (VStr "nvcr.io") VNone)]
            eq_refl eq_refl _ _).
  - vm_compute. discriminate.
  - intros c row [<-|[]] [<-|[]]. discriminate.
Defined.


(** ** The digest of an image *)

Lemma image_in_list_digest (h : host) (hd : DockerHandler) (digest : value)
    (image_list : list string) :
  DockerHandlerM.image_in_list h (with_digest hd digest) image_list
  = DockerHandlerM.image_in_list h hd image_list.
Proof.
  induction image_list as [|image rest IH]; cbn [DockerHandlerM.image_in_list];
    [reflexivity|].
  rewrite IH. reflexivity.
Qed.

Lemma start_container_digest (h : host) (hd : DockerHandler) (digest : value)
    (volumes : sdict volume) (env_vars : list string) (docker_options : value)
    (st : pystate) :
  DockerHandlerM.start_container h (with_digest hd digest) volumes env_vars
    docker_options st
  = match DockerHandlerM.start_container h hd volumes env_vars docker_options st with
    | (Ok hd', st') => (Ok (with_digest hd' digest), st')
    | (Raise e, st') => (Raise e, st')
    end.
Proof.
  unfold DockerHandlerM.start_container, try_except, mbind, lift, emit, ret,
    DockerHandlerM.docker_image_name.
  cbn [with_digest initialized _docker_registry _image_name _docker_tag].
  destruct (DockerHandlerM.get_docker_option_args h docker_options) as [docker_args|e];
    [|reflexivity].
  destruct (negb (initialized hd)); [reflexivity|].
  destruct (containers_run h _) as [c|e]; [reflexivity|].
  destruct e; reflexivity.
Qed.

Lemma start_from_mounts_file_digest (h : host) (hd : DockerHandler) (digest : value)
    (st : pystate) :
  DockerHandlerM.start_from_mounts_file h (with_digest hd digest) st
  = match DockerHandlerM.start_from_mounts_file h hd st with
    | (Ok (hd', tty), st') => (Ok (with_digest hd' digest, tty), st')
    | (Raise e, st') => (Raise e, st')
    end.
Proof.
  unfold DockerHandlerM.start_from_mounts_file, mbind, lift, ret.
  change (DockerHandlerM._get_mount_env_data h (with_digest hd digest))
    with (DockerHandlerM._get_mount_env_data h hd).
  destruct (DockerHandlerM._get_mount_env_data h hd)
    as [[[mount_data env_vars] docker_options]|e]; [|reflexivity].
  destruct (DockerHandlerM.formatted_mounts h (VList mount_data)) as [volumes|e];
    [|reflexivity].
  destruct (DockerHandlerM.formatted_envs h (VList env_vars)) as [env_variables|e];
    [|reflexivity].
  destruct (keys docker_options) as [ks|e]; [|reflexivity].
  destruct (str_in "tty" ks); [destruct (getitem docker_options "tty"); [|reflexivity]|];
    rewrite start_container_digest;
    destruct (DockerHandlerM.start_container h hd volumes env_variables docker_options st)
      as [[hd'|e] st2]; reflexivity.
Qed.

(** X28: the digest that a handler is given is stored and never used:
    [run_container] and [run_container_on_ci] check, pull and run the image
    by its registry, name and tag, and do the same whatever the digest. *)
Theorem digest_is_never_used (h : host) (hd : DockerHandler) (digest : value)
    (task_command : string) (st : pystate) :
  DockerHandlerM.run_container h (with_digest hd digest) task_command st
  = DockerHandlerM.run_container h hd task_command st /\
  DockerHandlerM.run_container_on_ci h (with_digest hd digest) task_command st
  = DockerHandlerM.run_container_on_ci h hd task_command st.
Proof.
  split.
  - unfold DockerHandlerM.run_container, DockerHandlerM._check_image_exists.
    rewrite image_in_list_digest, !mbind_run.
    destruct (lift (DockerHandlerM.image_in_list h hd (images_list h)) st)
      as [[present|e] st1]; [|reflexivity].
    rewrite !mbind_run.
    change (DockerHandlerM.pull h (with_digest hd digest))
      with (DockerHandlerM.pull h hd).
    destruct ((if negb present then DockerHandlerM.pull h hd else ret tt) st1)
      as [[u|e] st2]; [|reflexivity].
    rewrite !mbind_run, start_from_mounts_file_digest.
    destruct (DockerHandlerM.start_from_mounts_file h hd st2)
      as [[[hd' tty]|e] st3]; reflexivity.
  - unfold DockerHandlerM.run_container_on_ci, DockerHandlerM._check_image_exists.
    rewrite image_in_list_digest. reflexivity.
Qed.

(** ** A configuration that is not an object *)

(** X29: when the configuration file holds a value that is not an object,
    [print_information] prints the title and then raises, AssertionError
    when verbose and AttributeError otherwise: only the AssertionError of a
    missing file is caught. *)
Theorem info_of_non_object_config (h : host) (verbose : value) (st : pystate)
    (config : value) :
  path_exists h (current_config_path (self st)) = true ->
  read_json h (current_config_path (self st)) = Ok config ->
  is_dict config = false ->
  LocalInstance.print_information h verbose st
  = (Raise (if truthy verbose then AssertionError else AttributeError),
     add_events st [info_header]).
Proof.
  intros P R D. unfold LocalInstance.print_information.
  rewrite mbind_run. unfold emit at 1. rewrite mbind_run. cbn [get_self self].
  rewrite mbind_run. unfold try_except, lift at 1, LocalInstance.load_config,
    load_config_file. rewrite P. cbn [py_assert rbind]. rewrite R.
  rewrite mbind_run.
  destruct config; try discriminate D; destruct (truthy verbose); reflexivity.
Qed.

Lemma info_of_non_object_config_witness :
  LocalInstance.print_information host_list_config (VBool true) state_v1
  = (Raise AssertionError, add_events state_v1 [info_header]).
Proof.
  exact (info_of_non_object_config host_list_config (VBool true) state_v1 (VList [])
           eq_refl eq_refl eq_refl).
Defined.


(** ** The choice of the instance *)

Lemma get_config_file_tao (h : host) :
  exists path, get_config_file h "tao" = Ok path.
Proof.
  unfold get_config_file.
  change (str_in "tao" ["tao"; "tao-deploy"]) with true.
  change ("tao" =? "tao-deploy") with false. cbn [py_assert rbind].
  destruct (path_exists h (OVERRIDE_CONFIG h) && is_file h (OVERRIDE_CONFIG h));
    eexists; reflexivity.
Qed.

(** X30: with TAO_DOCKER_DISABLE set to anything but "0" and "1", [main]
    fails with AssertionError, whatever the command line and the
    configuration: no configuration is parsed, nothing is printed or run,
    and the exit status is 1. *)
Theorem invalid_docker_disable_is_fatal (h : host) (env : environ)
    (args : list string) (v : string) :
  env "TAO_DOCKER_DISABLE" = Some v ->
  v <> "0" -> v <> "1" ->
  main h env args = (Raise AssertionError, []) /\
  exit_status (fst (main h env args)) = 1.
Proof.
  intros E N0 N1.
  assert (M : main h env args = (Raise AssertionError, [])).
  { unfold main. destruct (get_config_file_tao h) as [path ->]. cbn [rbind].
    unfold get_launcher. rewrite E. unfold str_in. cbn [existsb].
    apply String.eqb_neq in N0, N1. rewrite N0, N1. reflexivity. }
  split; [exact M|]. rewrite M. reflexivity.
Qed.

Lemma invalid_docker_disable_is_fatal_witness :
  main (example_host (fun _ => Ok config_v1)) env_docker_disable_yes
    ["container_actions"; "train"]
  = (Raise AssertionError, []).
Proof.
  refine (proj1 (invalid_docker_disable_is_fatal (example_host (fun _ => Ok config_v1))
                   env_docker_disable_yes ["container_actions"; "train"] "yes"
                   eq_refl _ _)); discriminate.
Defined.
